(** * bdo_tracker: the session tracker of [src/bdo_tracker.py]

    A shallow embedding of the parts of the program that carry its data
    model: the price table [SPOTS], the session store (the [sessions]
    table), the timer fields of [App], the number formatters, the two
    reporting queries, and what the handlers of the tabs compute from
    them.

    Python values are modelled as the language has them: [int] is
    unbounded ([Z]); [float] is IEEE 754 binary64 ([spec_float] of the
    Standard Library, with rounding to nearest, ties to even, written out
    below); [str] is the sequence of its UTF-8 bytes ([string]); a raised
    exception is the [Raise] branch of [result].  The INTEGER columns of the
    store are taken as mathematical integers. *)

From Stdlib Require Import ZArith Lia String Ascii List.
From Stdlib Require Import DecimalString DecimalPos.
From Stdlib Require Import Floats.SpecFloat.
From stdpp Require Import base option list strings sorting gmap.

Local Open Scope string_scope.
Local Open Scope Z_scope.

(** ** Exceptions *)

Inductive py_exn : Type :=
  | ValueError
  | OverflowError
  | ZeroDivisionError
  | KeyError
  | AttributeError
  | OperationalError.

Inductive result (A : Type) : Type :=
  | Ok (a : A)
  | Raise (e : py_exn).
Arguments Ok {A} a.
Arguments Raise {A} e.

#[global] Instance result_ret : MRet result := fun A a => Ok a.
#[global] Instance result_bind : MBind result := fun A B k r =>
  match r with
  | Ok a => k a
  | Raise e => Raise e
  end.

(** ** Text: [str(int)], zero padding, [str.split] *)

Module PyStr.

(** [str(n)] for an [int] of up to 4300 digits, the length up to which
    CPython prints one; the integers the program prints are 64-bit values
    of the store and numbers that [int] has read. *)
Definition str (n : Z) : string := NilZero.string_of_int (Z.to_int n).

Fixpoint zeros (k : nat) : string :=
  match k with
  | O => ""
  | S k => String "0" (zeros k)
  end.

(** [format(n, "0wd")]: the sign, then the digits padded with zeros up
    to [w] characters in all. *)
Definition zfill (w : nat) (n : Z) : string :=
  let digits := str (Z.abs n) in
  let sign := if n <? 0 then "-" else "" in
  sign +:+ zeros (w - String.length sign - String.length digits) +:+ digits.

(** [s.split(sep)] for a one-character separator: the fields between the
    separators, at least one. *)
Fixpoint split_go (sep : ascii) (cur : string) (s : string) : list string :=
  match s with
  | EmptyString => [String.rev cur]
  | String c s' =>
      if Ascii.eqb c sep then String.rev cur :: split_go sep "" s'
      else split_go sep (String c cur) s'
  end.
Definition split (sep : ascii) (s : string) : list string := split_go sep "" s.

Definition is_digit (c : ascii) : bool :=
  let n := N_of_ascii c in ((48 <=? n) && (n <=? 57))%N.

Fixpoint all_chars (p : ascii -> bool) (s : string) : bool :=
  match s with
  | EmptyString => true
  | String c s' => p c && all_chars p s'
  end.

End PyStr.

(** ** Numbers: [int], [float] and the operations the program uses *)

Module PyFloat.

Definition prec : Z := 53.
Definition emax : Z := 1024.
Definition emin : Z := 3 - emax - prec.

(** The integer nearest to [n / d] for [0 < d], a tie going to the even
    neighbour. *)
Definition div_half_even (n d : Z) : Z :=
  let q := n / d in
  match 2 * (n mod d) ?= d with
  | Lt => q
  | Gt => q + 1
  | Eq => if Z.even q then q else q + 1
  end.

(** [a / b * 2^k] as one fraction of integers. *)
Definition scale2 (a b k : Z) : Z * Z :=
  if 0 <=? k then (a * 2 ^ k, b) else (a, b * 2 ^ (- k)).

(** The exponent of the last place of the double nearest to
    [a / b * 2^k], for [0 < a] and [0 < b]: the [e] with
    [2^52 <= a / b * 2^(k - e) < 2^53], and [emin] below the normal
    range. *)
Definition ulp_exponent (a b k : Z) : Z :=
  let e0 := Z.log2 a - Z.log2 b + k - prec in
  let '(n, d) := scale2 a b (k - e0) in
  let e := if n / d <? 2 ^ prec then e0 else e0 + 1 in
  Z.max e emin.

(** Mantissa and exponent of the double nearest to [a / b * 2^k]. *)
Definition round_pos (a b k : Z) : Z * Z :=
  let e := ulp_exponent a b k in
  let '(n, d) := scale2 a b (k - e) in
  let m := div_half_even n d in
  if m =? 2 ^ prec then (2 ^ (prec - 1), e + 1) else (m, e).

(** Rounding to nearest, ties to even, of [(-1)^s * a / b * 2^k] for
    [0 <= a] and [0 < b]; infinite past the largest double, a signed zero
    below half the smallest one. *)
Definition RN (s : bool) (a b k : Z) : spec_float :=
  if a =? 0 then S754_zero s
  else
    let '(m, e) := round_pos a b k in
    match m with
    | Zpos p => if e <=? emax - prec then S754_finite s p e else S754_infinity s
    | _ => S754_zero s
    end.

Definition is_infinite (f : spec_float) : bool :=
  match f with S754_infinity _ => true | _ => false end.

Definition is_zero (f : spec_float) : bool :=
  match f with S754_zero _ => true | _ => false end.

(** [float(n)] for an [int]: raises when [n] is too large for a double. *)
Definition float_of_int (n : Z) : result spec_float :=
  let f := RN (n <? 0) (Z.abs n) 1 0 in
  if is_infinite f then Raise OverflowError else Ok f.

(** [a / b] for two [int]s: the correctly rounded quotient. *)
Definition int_truediv (a b : Z) : result spec_float :=
  if b =? 0 then Raise ZeroDivisionError
  else
    let f := RN (xorb (a <? 0) (b <? 0)) (Z.abs a) (Z.abs b) 0 in
    if is_infinite f then Raise OverflowError else Ok f.

(** [x / y] for two [float]s: only a zero divisor raises. *)
Definition float_truediv (x y : spec_float) : result spec_float :=
  match x, y with
  | _, S754_zero _ => Raise ZeroDivisionError
  | S754_nan, _ | _, S754_nan => Ok S754_nan
  | S754_infinity _, S754_infinity _ => Ok S754_nan
  | S754_infinity sx, S754_finite sy _ _ => Ok (S754_infinity (xorb sx sy))
  | S754_finite sx _ _, S754_infinity sy => Ok (S754_zero (xorb sx sy))
  | S754_zero sx, S754_infinity sy => Ok (S754_zero (xorb sx sy))
  | S754_zero sx, S754_finite sy _ _ => Ok (S754_zero (xorb sx sy))
  | S754_finite sx mx ex, S754_finite sy my ey =>
      Ok (RN (xorb sx sy) (Zpos mx) (Zpos my) (ex - ey))
  end.

(** A Python number. *)
Inductive num : Type :=
  | Int (n : Z)
  | Float (f : spec_float).

Definition to_float (x : num) : result spec_float :=
  match x with
  | Int n => float_of_int n
  | Float f => Ok f
  end.

(** [x / y]. *)
Definition truediv (x y : num) : result spec_float :=
  match x, y with
  | Int a, Int b => int_truediv a b
  | _, _ => fx ← to_float x; fy ← to_float y; float_truediv fx fy
  end.

(** [f >= n] for a [float] and an [int], compared exactly. *)
Definition float_ge_int (f : spec_float) (n : Z) : bool :=
  match f with
  | S754_nan => false
  | S754_infinity s => negb s
  | S754_zero _ => n <=? 0
  | S754_finite s m e =>
      let v := if s then Zneg m else Zpos m in
      if 0 <=? e then n <=? v * 2 ^ e else n * 2 ^ (- e) <=? v
  end.

(** [x >= n] for an [int] literal [n]. *)
Definition ge (x : num) (n : Z) : bool :=
  match x with
  | Int a => n <=? a
  | Float f => float_ge_int f n
  end.

(** [int(x)]: a [float] is truncated towards zero. *)
Definition to_int (x : num) : result Z :=
  match x with
  | Int n => Ok n
  | Float S754_nan => Raise ValueError
  | Float (S754_infinity _) => Raise OverflowError
  | Float (S754_zero _) => Ok 0
  | Float (S754_finite s m e) =>
      let t := if 0 <=? e then Zpos m * 2 ^ e else Zpos m / 2 ^ (- e) in
      Ok (if s then - t else t)
  end.

(** The digits of [n / d] rounded to [p] decimals, ties to even; the sign
    is kept when the digits are all zero. *)
Definition fixed_digits (p : nat) (s : bool) (n d : Z) : string :=
  let t := div_half_even (n * 10 ^ Z.of_nat p) d in
  let whole := PyStr.str (t / 10 ^ Z.of_nat p) in
  let frac :=
    match p with
    | O => ""
    | S _ => "." +:+ PyStr.zfill p (t mod 10 ^ Z.of_nat p)
    end in
  (if s then "-" else "") +:+ whole +:+ frac.

(** [format(f, ".pf")]: the exact value of the double, rounded. *)
Definition fixed (p : nat) (f : spec_float) : string :=
  match f with
  | S754_nan => "nan"
  | S754_infinity s => if s then "-inf" else "inf"
  | S754_zero s => fixed_digits p s 0 1
  | S754_finite s m e =>
      let '(n, d) := scale2 (Zpos m) 1 e in fixed_digits p s n d
  end.

End PyFloat.

(** ** The formatters *)

Import PyFloat.

Definition format_money (x : num) : result string :=
  if ge x 1000000000 then
    q ← truediv x (Int 1000000000); Ok (fixed 0 q +:+ "G")
  else if ge x 1000000 then
    q ← truediv x (Int 1000000); Ok (fixed 0 q +:+ "M")
  else if ge x 1000 then
    q ← truediv x (Int 1000); Ok (fixed 0 q +:+ "K")
  else
    n ← to_int x; Ok (PyStr.str n).

Definition format_hourly (x : num) : result string :=
  if ge x 1000000 then
    q ← truediv x (Int 1000000); Ok (fixed 1 q +:+ "M")
  else if ge x 1000 then
    q ← truediv x (Int 1000); Ok (fixed 1 q +:+ "K")
  else
    n ← to_int x; Ok (PyStr.str n).

(** ** The Standard Library's division, to compare with

    [SFdiv] is the specification of the division of binary64 numbers;
    applied to two integers as mantissas it rounds their quotient once. *)

Module Ieee.

Definition div (a b : positive) : spec_float :=
  SFdiv prec emax (S754_finite false a 0) (S754_finite false b 0).

Definition same (r : result spec_float) (g : spec_float) : bool :=
  match r, g with
  | Ok (S754_finite s m e), S754_finite s' m' e' =>
      Bool.eqb s s' && Pos.eqb m m' && Z.eqb e e'
  | Ok (S754_zero s), S754_zero s' => Bool.eqb s s'
  | Ok (S754_infinity s), S754_infinity s' => Bool.eqb s s'
  | Ok S754_nan, S754_nan => true
  | Raise OverflowError, S754_infinity _ => true
  | _, _ => false
  end.

Definition agrees (a b : positive) : bool :=
  same (int_truediv (Zpos a) (Zpos b)) (div a b).

Fixpoint upto (n : nat) : list positive :=
  match n with
  | O => []
  | S k => Pos.of_nat n :: upto k
  end.

(** The division of two doubles. *)
Definition agrees_float (x y : spec_float) : bool :=
  same (float_truediv x y) (SFdiv prec emax x y).

(** The quotients [f i / g j] for [i] and [j] from 1 to [n]. *)
Definition grid (n : nat) (f g : positive -> positive) : bool :=
  forallb (fun i => forallb (fun j => agrees (f i) (g j)) (upto n)) (upto n).

End Ieee.

(** ** The price table: a Python [dict] from names to prices

    Keys are unique and keep their insertion order. *)

Module PyDict.

Abbreviation dict := (list (string * Z)).

Definition keys (d : dict) : list string := d.*1.

(** [d.get(k)] *)
Fixpoint get (d : dict) (k : string) : option Z :=
  match d with
  | [] => None
  | (k', v) :: d' => if String.eqb k' k then Some v else get d' k
  end.

(** [k in d] *)
Definition contains (d : dict) (k : string) : bool :=
  match get d k with Some _ => true | None => false end.

(** [d[k] = v]: a key that is present keeps its place, a new one goes
    last. *)
Fixpoint set (d : dict) (k : string) (v : Z) : dict :=
  match d with
  | [] => [(k, v)]
  | (k', v') :: d' =>
      if String.eqb k' k then (k', v) :: d' else (k', v') :: set d' k v
  end.

Fixpoint remove (d : dict) (k : string) : dict :=
  match d with
  | [] => []
  | (k', v') :: d' =>
      if String.eqb k' k then d' else (k', v') :: remove d' k
  end.

(** [del d[k]] *)
Definition del (d : dict) (k : string) : result dict :=
  if contains d k then Ok (remove d k) else Raise KeyError.

End PyDict.

(** ** Calendar dates *)

Record date : Type := Date { year : Z; month : Z; day : Z }.

Definition is_leap (y : Z) : bool :=
  (y mod 4 =? 0) && (negb (y mod 100 =? 0) || (y mod 400 =? 0)).

Definition days_in_month (y m : Z) : Z :=
  if m =? 2 then (if is_leap y then 29 else 28)
  else if (m =? 4) || (m =? 6) || (m =? 9) || (m =? 11) then 30
  else 31.

(** The dates a [datetime.date] can hold. *)
Definition valid_date (d : date) : bool :=
  (1 <=? year d) && (year d <=? 9999) &&
  (1 <=? month d) && (month d <=? 12) &&
  (1 <=? day d) && (day d <=? days_in_month (year d) (month d)).

(** [d.isoformat()] *)
Definition isoformat (d : date) : string :=
  PyStr.zfill 4 (year d) +:+ "-" +:+ PyStr.zfill 2 (month d) +:+ "-" +:+
  PyStr.zfill 2 (day d).

(** The year and month of a date as SQLite's ['%Y-%m'] prints them. *)
Definition year_month (d : date) : string :=
  PyStr.zfill 4 (year d) +:+ "-" +:+ PyStr.zfill 2 (month d).

(** [f"{year}-{month:02d}"] *)
Definition month_token (y m : Z) : string :=
  PyStr.str y +:+ "-" +:+ PyStr.zfill 2 m.

(** ** Library functions on text

    What [str.strip], [int(str)], [datetime.strptime] and SQLite's
    [strftime] compute is not in the program; they are taken as they
    come. *)

Class Platform : Type := {
  (** [s.strip()] *)
  str_strip : string -> string;
  (** [int(s)]; [None] stands for [ValueError] *)
  int_of_str : string -> option Z;
  (** [datetime.datetime.strptime(s, "%Y-%m-%d")]; [None] stands for
      [ValueError] *)
  strptime_Ymd : string -> option date;
  (** [strftime('%Y-%m', s)] in SQLite; [None] stands for NULL *)
  sqlite_strftime_Ym : string -> option string
}.

(** SQLite prints the year and month of a calendar date written in ISO
    form. *)
Definition strftime_reads_iso `{Platform} : Prop :=
  forall d, valid_date d = true ->
    sqlite_strftime_Ym (isoformat d) = Some (year_month d).

(** ** The session store: the rows of the [sessions] table *)

Record session : Type := Session {
  id : Z;
  spot : string;
  trash_start : Z;
  trash_end : Z;
  duration : Z;
  trash_gained : Z;
  earned : Z;
  created_at : string
}.

Abbreviation store := (list session).

(** AUTOINCREMENT: one more than the largest id so far. *)
Definition next_id (db : store) : Z :=
  1 + foldr (fun s acc => Z.max (id s) acc) 0 db.

(** An INTEGER column holds 64 bits, signed. *)
Definition fits_int64 (n : Z) : bool := (- 2 ^ 63 <=? n) && (n <? 2 ^ 63).

(** [add_session(spot, trash_start, trash_end, duration)], reading the
    price table and the clock and writing the store.  [execute] binds a
    Python [int] to a parameter of the INSERT only when it fits in 64
    bits; when one of the five does not, it raises [OverflowError] and
    nothing is written. *)
Definition add_session (SPOTS : PyDict.dict) (today : date) (db : store)
    (spot : string) (trash_start trash_end duration : Z)
    : result (Z * Z) * store :=
  let gained := trash_end - trash_start in
  let earned := gained * default 0 (PyDict.get SPOTS spot) in
  if forallb fits_int64 [trash_start; trash_end; duration; gained; earned]
  then
    let row := Session (next_id db) spot trash_start trash_end duration gained
                 earned (isoformat today) in
    (Ok (gained, earned), (db ++ [row])%list)
  else (Raise OverflowError, db).

(** [SUM] over INTEGER values: SQLite adds them up in 64 bits, row after
    row, and the query fails with "integer overflow", an
    [OperationalError], as soon as a sum on the way leaves 64 bits. *)
Fixpoint sql_sum_from (acc : Z) (values : list Z) : result Z :=
  match values with
  | [] => Ok acc
  | v :: values' =>
      if fits_int64 (acc + v) then sql_sum_from (acc + v) values'
      else Raise OperationalError
  end.

Definition sql_sum (values : list Z) : result Z := sql_sum_from 0 values.

(** [SELECT SUM(earned) FROM sessions], with [or 0] for the NULL of an
    empty table. *)
Definition total_earned (db : store) : result Z := sql_sum (earned <$> db).

Definition on_date (d : string) (rows : list session) : list session :=
  filter (fun s => created_at s = d) rows.

(** [ORDER BY created_at]: text in byte order. *)
Definition order_dates (ds : list string) : list string :=
  merge_sort String.le ds.

(** The rows of the result for the dates [dates]: the two sums of each
    date over its rows. *)
Fixpoint sum_rows (rows : list session) (dates : list string)
    : result (list (string * Z * Z)) :=
  match dates with
  | [] => Ok []
  | d :: dates' =>
      minutes ← sql_sum (duration <$> on_date d rows);
      money ← sql_sum (earned <$> on_date d rows);
      rest ← sum_rows rows dates';
      Ok ((d, minutes, money) :: rest)
  end.

(** [SELECT created_at, SUM(duration), SUM(earned) ... GROUP BY created_at
    ORDER BY created_at] over the rows that pass the WHERE clause. *)
Definition group_by_date (rows : list session)
    : result (list (string * Z * Z)) :=
  sum_rows rows (order_dates (remove_dups (created_at <$> rows))).

(** The label of the unfiltered view. *)
Definition all_months : string := "全体".

Section Queries.
Context `{Platform}.

(** [WHERE strftime('%Y-%m', created_at) = ?] *)
Definition in_month (month_filter : string) (db : store) : list session :=
  filter (fun s => sqlite_strftime_Ym (created_at s) = Some month_filter) db.

(** [App.get_daily_data] *)
Definition get_daily_data (db : store) (month_filter : string)
    : result (list (string * Z * Z)) :=
  if String.eqb month_filter all_months then group_by_date db
  else
    match PyStr.split "-" month_filter with
    | [_; _] => group_by_date (in_month month_filter db)
    | _ => Raise ValueError
    end.

(** [App.get_hourly_data] *)
Definition get_hourly_data (db : store) (month_filter : string)
    : result (list (string * Z * Z)) :=
  if String.eqb month_filter all_months then group_by_date db
  else group_by_date (in_month month_filter db).

(** One pass of the loop of [get_available_months] over a date. *)
Definition add_month (months : gset string) (date_str : string) : gset string :=
  match strptime_Ymd date_str with
  | Some d => months ∪ {[ month_token (year d) (month d) ]}
  | None => months
  end.

(** [get_available_months] *)
Definition get_available_months (db : store) : list string :=
  let dates := order_dates (remove_dups (created_at <$> db)) in
  let months := foldl add_month ∅ dates in
  merge_sort (flip String.le) (elements months).

End Queries.

(** The hourly rate of one row of the aggregate, as [App.plot_hourly]
    computes it: [r[2]/(r[1]/60) if r[1]>0 else 0]. *)
Definition hourly_rate (r : string * Z * Z) : result num :=
  let '(_, r1, r2) := r in
  if 0 <? r1 then
    h ← truediv (Int r1) (Int 60); q ← truediv (Int r2) (Float h); Ok (Float q)
  else Ok (Int 0).

(** The list [hourly] of [App.plot_hourly]. *)
Fixpoint hourly (rows : list (string * Z * Z)) : result (list num) :=
  match rows with
  | [] => Ok []
  | r :: rows' => h ← hourly_rate r; hs ← hourly rows'; Ok (h :: hs)
  end.

(** ** The application: [class App] and the module state it works on *)

Module App.

(** What the user sees of a handler: the dialogs it opens, and the
    exception that leaves it, if any.  A handler that returns without a
    dialog shows nothing. *)
Inductive event : Type :=
  | ShowError (message : string)
  | ShowInfo (message : string)
  | Uncaught (e : py_exn).

(** The state the handlers read and write: the module-level [SPOTS], the
    two files, and the timer attributes of [self].  [pending] holds the
    callbacks registered with [root.after] that have neither run nor been
    cancelled; [trash_start] is unset until [start_timer] succeeds. *)
Record state : Type := State {
  SPOTS : PyDict.dict;
  spot_file : option PyDict.dict;
  db : store;
  running : bool;
  minutes : Z;
  timer_id : option nat;
  trash_start : option Z;
  pending : list nat;
  next_after : nat
}.

Definition with_SPOTS (d : PyDict.dict) (st : state) : state :=
  State d (spot_file st) (db st) (running st) (minutes st) (timer_id st)
    (trash_start st) (pending st) (next_after st).

Definition with_db (rows : store) (st : state) : state :=
  State (SPOTS st) (spot_file st) rows (running st) (minutes st) (timer_id st)
    (trash_start st) (pending st) (next_after st).

Definition with_running (b : bool) (st : state) : state :=
  State (SPOTS st) (spot_file st) (db st) b (minutes st) (timer_id st)
    (trash_start st) (pending st) (next_after st).

Definition with_minutes (n : Z) (st : state) : state :=
  State (SPOTS st) (spot_file st) (db st) (running st) n (timer_id st)
    (trash_start st) (pending st) (next_after st).

Definition with_trash_start (n : Z) (st : state) : state :=
  State (SPOTS st) (spot_file st) (db st) (running st) (minutes st)
    (timer_id st) (Some n) (pending st) (next_after st).

Definition with_pending (l : list nat) (st : state) : state :=
  State (SPOTS st) (spot_file st) (db st) (running st) (minutes st)
    (timer_id st) (trash_start st) l (next_after st).

(** [load_spots] *)
Definition load_spots (file : option PyDict.dict) : PyDict.dict :=
  default [] file.

(** [save_spots(SPOTS)] *)
Definition save_spots (st : state) : state :=
  State (SPOTS st) (Some (SPOTS st)) (db st) (running st) (minutes st)
    (timer_id st) (trash_start st) (pending st) (next_after st).

(** The state after the module is loaded and [App.__init__] has run. *)
Definition init (file : option PyDict.dict) (rows : store) : state :=
  State (load_spots file) file rows false 0 None None [] 0.

(** [self.timer_id = self.root.after(60000, self.update_timer)] *)
Definition after (st : state) : state :=
  State (SPOTS st) (spot_file st) (db st) (running st) (minutes st)
    (Some (next_after st)) (trash_start st)
    (pending st ++ [next_after st])%list (S (next_after st)).

Definition update_timer (st : state) : state :=
  if running st then after (with_minutes (minutes st + 1) st) else st.

(** The event loop runs the callback registered under [n]. *)
Definition tick (n : nat) (st : state) : state :=
  if bool_decide (n ∈ pending st)
  then update_timer (with_pending (filter (fun k => k ≠ n) (pending st)) st)
  else st.

Definition pause_timer (st : state) : state :=
  if running st then
    let st := with_running false st in
    match timer_id st with
    | Some n => with_pending (filter (fun k => k ≠ n) (pending st)) st
    | None => st
    end
  else st.

Definition resume_timer (st : state) : state :=
  if negb (running st) then update_timer (with_running true st) else st.

(** The states of the timer as the specification names them. *)
Inductive timer_state : Type := Idle | Running | Paused.

Definition timer_state_of (st : state) : timer_state :=
  if running st then Running
  else match trash_start st with None => Idle | Some _ => Paused end.

Definition newline : string := String "010" "".

Section Handlers.
Context `{Platform}.

Definition start_timer (start_entry : string) (st : state)
    : state * list event :=
  match int_of_str start_entry with
  | None => (st, [ShowError "開始時ゴミドロ数を正しく入力してください"])
  | Some n =>
      (update_timer
         (with_running true (with_minutes 0 (with_trash_start n st))),
       [])
  end.

(** [update_total]: the text of the total label. *)
Definition update_total (st : state) : result string :=
  total ← total_earned (db st);
  t ← format_money (Int total);
  Ok ("合計稼ぎ: " +:+ t +:+ " シルバー").

Definition end_session (end_entry spot_var : string) (today : date)
    (st : state) : state * list event :=
  let st := pause_timer st in
  match int_of_str end_entry with
  | None => (st, [ShowError "終了時ゴミドロ数を正しく入力してください"])
  | Some trash_end =>
      match trash_start st with
      | None => (st, [Uncaught AttributeError])
      | Some first =>
          match add_session (SPOTS st) today (db st) spot_var first
                  trash_end (minutes st) with
          | (Raise e, rows) => (with_db rows st, [Uncaught e])
          | (Ok (gained, earned), rows) =>
              let st := with_db rows st in
              match format_money (Int earned) with
              | Raise e => (st, [Uncaught e])
              | Ok money =>
                  let info :=
                    ShowInfo
                      ("プレイ時間: " +:+ PyStr.str (minutes st) +:+ " 分"
                       +:+ newline +:+ "ゴミドロ: " +:+ PyStr.str gained
                       +:+ " 個" +:+ newline +:+ "稼ぎ: " +:+ money) in
                  match update_total st with
                  | Raise e => (st, [info; Uncaught e])
                  | Ok _ => (st, [info])
                  end
              end
          end
      end
  end.

(** [self.spot_listbox.get(i)]: the listbox shows the keys of [SPOTS],
    and an index past its end reads as the empty text. *)
Definition listbox_get (st : state) (i : nat) : string :=
  default "" (PyDict.keys (SPOTS st) !! i).

Definition add_spot (name_entry price_entry : string) (st : state)
    : state * list event :=
  let name := str_strip name_entry in
  match int_of_str price_entry with
  | None => (st, [ShowError "単価は整数で入力してください"])
  | Some price =>
      if String.eqb name "" then
        (st, [ShowError "狩場名を入力してください"])
      else if PyDict.contains (SPOTS st) name then
        (st, [ShowError "既に存在する狩場名です"])
      else
        (save_spots (with_SPOTS (PyDict.set (SPOTS st) name price) st),
         [])
  end.

Definition update_spot (selection : option nat)
    (name_entry price_entry : string) (st : state) : state * list event :=
  match selection with
  | None => (st, [ShowError "更新する狩場を選択してください"])
  | Some i =>
      let old_name := listbox_get st i in
      let new_name := str_strip name_entry in
      match int_of_str price_entry with
      | None => (st, [ShowError "単価は整数で入力してください"])
      | Some price =>
          if String.eqb new_name "" then
            (st, [ShowError "狩場名を入力してください"])
          else if negb (String.eqb new_name old_name)
                  && PyDict.contains (SPOTS st) new_name then
            (st, [ShowError "その狩場名は既に存在します"])
          else
            match PyDict.del (SPOTS st) old_name with
            | Raise e => (st, [Uncaught e])
            | Ok d =>
                (save_spots (with_SPOTS (PyDict.set d new_name price) st),
                 [])
            end
      end
  end.

Definition delete_spot (selection : option nat) (st : state)
    : state * list event :=
  match selection with
  | None => (st, [ShowError "削除する狩場を選択してください"])
  | Some i =>
      match PyDict.del (SPOTS st) (listbox_get st i) with
      | Raise e => (st, [Uncaught e])
      | Ok d => (save_spots (with_SPOTS d st), [])
      end
  end.

(** The three edits of the price table, with what the user typed and
    selected. *)
Inductive spot_edit : Type :=
  | Add (name_entry price_entry : string)
  | Update (selection : option nat) (name_entry price_entry : string)
  | Delete (selection : option nat).

Definition edit (st : state) (op : spot_edit) : state :=
  match op with
  | Add n p => (add_spot n p st).1
  | Update sel n p => (update_spot sel n p st).1
  | Delete sel => (delete_spot sel st).1
  end.

Definition edits (ops : list spot_edit) (st : state) : state :=
  foldl edit st ops.

End Handlers.

End App.

(** ** An instance of the library functions, for ASCII text

    Enough of [str.strip], [int], [strptime] and SQLite's [strftime] to run
    the definitions above on concrete inputs: ASCII white space and
    digits, and dates written as year, month and day. *)

Module Reference.

Fixpoint lstrip (s : string) : string :=
  match s with
  | String c s' => if Ascii.is_space c then lstrip s' else s
  | EmptyString => s
  end.

Definition strip (s : string) : string :=
  String.rev (lstrip (String.rev (lstrip s))).

Definition digit_value (c : ascii) : Z := Z.of_N (N_of_ascii c) - 48.

Fixpoint number_go (acc : Z) (s : string) : option Z :=
  match s with
  | EmptyString => Some acc
  | String c s' =>
      if PyStr.is_digit c then number_go (10 * acc + digit_value c) s'
      else None
  end.

(** A non-empty run of digits. *)
Definition number (s : string) : option Z :=
  match s with
  | EmptyString => None
  | _ => number_go 0 s
  end.

Definition int (s : string) : option Z :=
  match strip s with
  | String c r =>
      if Ascii.eqb c "-" then Z.opp <$> number r
      else if Ascii.eqb c "+" then number r
      else number (String c r)
  | EmptyString => None
  end.

Definition between (lo hi : Z) (o : option Z) : option Z :=
  n ← o; if (lo <=? n) && (n <=? hi) then Some n else None.

(** [%m]: one or two digits, 1 to 12. *)
Definition month_field (s : string) : option Z :=
  if (String.length s <=? 2)%nat then between 1 12 (number s) else None.

(** [%d]: one or two digits, 1 to 31; a space may stand for the first. *)
Definition day_field (s : string) : option Z :=
  match s with
  | String c r =>
      if Ascii.eqb c " " then
        if (String.length r =? 1)%nat then between 1 9 (number r) else None
      else if (String.length s <=? 2)%nat then between 1 31 (number s)
      else None
  | EmptyString => None
  end.

Definition strptime (s : string) : option date :=
  match PyStr.split "-" s with
  | [ys; ms; ds] =>
      if (String.length ys =? 4)%nat then
        y ← number ys; m ← month_field ms; d ← day_field ds;
        if valid_date (Date y m d) then Some (Date y m d) else None
      else None
  | _ => None
  end.

(** SQLite on the text [YYYY-MM-DD]: a day past the end of its month
    counts into the next one. *)
Definition strftime_Ym (s : string) : option string :=
  match s with
  | String y1 (String y2 (String y3 (String y4 (String s1
      (String m1 (String m2 (String s2 (String d1 (String d2 ""))))))))) =>
      if Ascii.eqb s1 "-" && Ascii.eqb s2 "-" then
        y ← number (String y1 (String y2 (String y3 (String y4 ""))));
        m ← between 1 12 (number (String m1 (String m2 "")));
        d ← between 1 31 (number (String d1 (String d2 "")));
        Some (if d <=? days_in_month y m then year_month (Date y m d)
              else year_month (Date y (m + 1) 1))
      else None
  | _ => None
  end.

(** Texts of four and of two characters. *)
Definition four (a b c e : ascii) : string :=
  String a (String b (String c (String e ""))).
Definition two (a b : ascii) : string := String a (String b "").

#[export] Instance platform : Platform := {
  str_strip := strip;
  int_of_str := int;
  strptime_Ymd := strptime;
  sqlite_strftime_Ym := strftime_Ym
}.

End Reference.

(** ** A store to run the definitions on *)

Module Sample.

Definition spots : PyDict.dict := [("Sherekhan", 1200); ("Gyfin", 900)].

Definition may_1 : date := Date 2024 5 1.
Definition may_17 : date := Date 2024 5 17.
Definition june_2 : date := Date 2024 6 2.

(** Three sessions recorded by the program, two of them on one day. *)
Definition db : store :=
  let db1 := (add_session spots may_1 [] "Sherekhan" 100 150 5).2 in
  let db2 := (add_session spots may_1 db1 "Gyfin" 10 4 30).2 in
  let db3 := (add_session spots may_17 db2 "Sherekhan" 0 7 12).2 in
  (add_session spots june_2 db3 "Elsewhere" 0 50 60).2.

(** Two sessions of one day, each earning [2^62] at a price of 1. *)
Definition big_db : store :=
  let db1 := (add_session [("Sea", 1)] may_1 [] "Sea" 0 (2 ^ 62) 5).2 in
  (add_session [("Sea", 1)] may_1 db1 "Sea" 0 (2 ^ 62) 5).2.

(** A store that holds a row dated in the year 999. *)
Definition old_db : store :=
  [ Session 1 "Sherekhan" 0 1 5 1 1200 "0999-01-05";
    Session 2 "Sherekhan" 0 1 5 1 1200 "2024-05-01" ].

End Sample.

(** ** The vocabulary of the specification *)

(** Text in byte order, strictly. *)
Definition text_lt (a b : string) : Prop := String.ltb a b = true.

Definition dates_of (out : list (string * Z * Z)) : list string :=
  (fun r => r.1.1) <$> out.

(** The sessions of the date [d] among the rows. *)
Definition sessions_of (d : string) (rows : list session) : list session :=
  filter (fun s => created_at s = d) rows.

(** The values of the column [f] over the rows, added up. *)
Definition sum_of (f : session -> Z) (rows : list session) : Z :=
  foldr (fun s acc => f s + acc) 0 rows.

(** [out] is the daily aggregate of the rows of [db] whose date is kept:
    one row per kept date that has a session, dates ascending, each with
    the summed duration and the summed earnings of the sessions of that
    date. *)
Definition aggregates (keep : string -> Prop) (db : store)
    (out : list (string * Z * Z)) : Prop :=
  StronglySorted text_lt (dates_of out)
  /\ (forall d, d ∈ dates_of out <->
        keep d /\ exists s, s ∈ db /\ created_at s = d)
  /\ (forall d minutes money, (d, minutes, money) ∈ out ->
        minutes = sum_of duration (sessions_of d db)
        /\ money = sum_of earned (sessions_of d db)).

(** The dates in calendar order. *)
Definition date_lt (d1 d2 : date) : Prop :=
  year d1 < year d2
  \/ (year d1 = year d2
      /\ (month d1 < month d2 \/ (month d1 = month d2 /\ day d1 < day d2))).

(** The dates in the list, read as calendar dates, ascend. *)
Definition chronological (ds : list string) : Prop :=
  forall (i j : nat) (d1 d2 : date),
    (i < j)%nat ->
    ds !! i = Some (isoformat d1) -> ds !! j = Some (isoformat d2) ->
    valid_date d1 = true -> valid_date d2 = true ->
    date_lt d1 d2.

(** The month of [d1] comes before the month of [d2]. *)
Definition month_before (d1 d2 : date) : Prop :=
  year d1 < year d2 \/ (year d1 = year d2 /\ month d1 < month d2).

(** The months in the list, read as year and month, descend. *)
Definition recent_first (ms : list string) : Prop :=
  forall (i j : nat) (d1 d2 : date),
    (i < j)%nat ->
    ms !! i = Some (year_month d1) -> ms !! j = Some (year_month d2) ->
    valid_date d1 = true -> valid_date d2 = true ->
    month_before d2 d1.

(** The character of a decimal digit, and a number in four, and in two,
    of them. *)
Definition digit_char (k : Z) : ascii := ascii_of_N (Z.to_N (48 + k)).

Definition digits4 (y : Z) : string :=
  String (digit_char (y / 1000)) (String (digit_char (y / 100 mod 10))
    (String (digit_char (y / 10 mod 10)) (String (digit_char (y mod 10)) ""))).

Definition digits2 (m : Z) : string :=
  String (digit_char (m / 10)) (String (digit_char (m mod 10)) "").

(** The decimal digit [k] put before the digits [d], least digit first. *)
Definition cons_digit (k : N) (d : Decimal.uint) : Decimal.uint :=
  match k with
  | 0 => Decimal.D0 d | 1 => Decimal.D1 d | 2 => Decimal.D2 d
  | 3 => Decimal.D3 d | 4 => Decimal.D4 d | 5 => Decimal.D5 d
  | 6 => Decimal.D6 d | 7 => Decimal.D7 d | 8 => Decimal.D8 d
  | _ => Decimal.D9 d
  end%N.

(** The date lies in the month the token names. *)
Definition in_month_of (token d : string) : Prop :=
  exists dt, valid_date dt = true /\ d = isoformat dt /\ year_month dt = token.

(** Four digits, a dash, two digits. *)
Definition is_month_token (t : string) : bool :=
  match t with
  | String y1 (String y2 (String y3 (String y4 (String s
      (String m1 (String m2 "")))))) =>
      PyStr.is_digit y1 && PyStr.is_digit y2 && PyStr.is_digit y3
      && PyStr.is_digit y4 && Ascii.eqb s "-"
      && PyStr.is_digit m1 && PyStr.is_digit m2
  | _ => false
  end.

(** [2^1024 - 2^970], the least quotient that rounds past the largest
    double. *)
Definition overflow_threshold : Z := 2 ^ 1024 - 2 ^ 970.

(** The values a 64-bit INTEGER column holds. *)
Definition int64 (n : Z) : Prop := - 2 ^ 63 <= n < 2 ^ 63.

(** [t] is the integer nearest to [n / d], for [0 < d]; of two integers
    equally near, the even one. *)
Definition nearest_even (n d t : Z) : Prop :=
  2 * Z.abs (n - t * d) <= d
  /\ (2 * Z.abs (n - t * d) = d -> Z.even t = true).

(** [f] is the double nearest to [(-1)^s * a / b * 2^k], for [0 < a] and
    [0 < b], in the normal range; of two doubles equally near, the one
    with the even mantissa.  At the exponent [u] at which the fraction
    has 53 bits before the point, [a / b * 2^(k - u)] written as
    [a * 2^p / (b * 2^q)], [t] is the integer nearest to it, and [f] is
    [t * 2^u] written with a mantissa of 53 bits. *)
Definition nearest_double (s : bool) (a b k : Z) (f : spec_float) : Prop :=
  exists u t p q,
    0 <= p /\ 0 <= q /\ p - q = k - u
    /\ 2 ^ 52 * (b * 2 ^ q) <= a * 2 ^ p < 2 ^ 53 * (b * 2 ^ q)
    /\ nearest_even (a * 2 ^ p) (b * 2 ^ q) t
    /\ match f with
       | S754_finite s' m e =>
           s' = s /\ 2 ^ 52 <= Zpos m < 2 ^ 53
           /\ u <= e /\ Zpos m * 2 ^ (e - u) = t
           /\ -1074 <= e <= 971
       | _ => False
       end.

(** [q] is the double nearest to the quotient of the doubles [x] and
    [y], both finite and not zero. *)
Definition nearest_quotient (x y q : spec_float) : Prop :=
  match x, y with
  | S754_finite sx mx ex, S754_finite sy my ey =>
      nearest_double (xorb sx sy) (Zpos mx) (Zpos my) (ex - ey) q
  | _, _ => False
  end.

(** [r] is the integer nearest to the double [f], which is not negative;
    of two integers equally near, the even one. *)
Definition nearest_integer (f : spec_float) (r : Z) : Prop :=
  match f with
  | S754_zero false => r = 0
  | S754_finite false m e =>
      exists p q, 0 <= p /\ 0 <= q /\ p - q = e
                  /\ nearest_even (Zpos m * 2 ^ p) (2 ^ q) r
  | _ => False
  end.

(** Every row carries the ISO form of a calendar date, as the rows
    [add_session] writes do. *)
Definition recorded (db : store) : Prop :=
  Forall (fun s => exists dt, valid_date dt = true
                              /\ created_at s = isoformat dt) db.

(** The sums on the way when [values] are added up one after the other,
    starting from [acc]. *)
Fixpoint running_sums (acc : Z) (values : list Z) : list Z :=
  match values with
  | [] => []
  | v :: values' => (acc + v) :: running_sums (acc + v) values'
  end.

(** Added up one after the other, the values never leave 64 bits. *)
Definition sums_fit (values : list Z) : Prop :=
  Forall int64 (running_sums 0 values).

(** The rows of each date that is kept can be summed in 64 bits, the
    minutes and the earnings alike. *)
Definition days_fit (keep : string -> Prop) (rows : list session) : Prop :=
  forall d, keep d -> sums_fit (duration <$> sessions_of d rows)
                      /\ sums_fit (earned <$> sessions_of d rows).

(** The date-by-date sums of the rows, as numbers: one row per date,
    dates ascending. *)
Definition daily_sums (rows : list session) : list (string * Z * Z) :=
  (fun d => (d, sum_of duration (sessions_of d rows),
             sum_of earned (sessions_of d rows)))
    <$> order_dates (remove_dups (created_at <$> rows)).

(** ** The axis labels, the views and the handlers around them *)


(** What [plot_daily] hands to the chart: nothing but the label of an
    empty view, or the dates with the bars of the earnings, the line of
    the durations and the title. *)
Inductive daily_view : Type :=
  | NoDailyData
  | DailyChart (dates : list string) (earnings durations : list Z)
      (title : string).

(** What [plot_hourly] hands to the chart and writes into its table. *)
Inductive hourly_view : Type :=
  | NoHourlyData
  | HourlyChart (dates : list string) (rates : list num) (title : string)
      (table : list (string * string)).

Inductive tab_view : Type :=
  | DailyTab (v : daily_view)
  | HourlyTab (v : hourly_view)
  | OtherTab.

(** The rows of the table of [plot_hourly]: [format_hourly] of each rate
    beside its date, as far as the shorter list goes. *)
Fixpoint hourly_table (dates : list string) (rates : list num)
    : result (list (string * string)) :=
  match dates, rates with
  | d :: dates', h :: rates' =>
      t ← format_hourly h; rest ← hourly_table dates' rates';
      Ok ((d, t) :: rest)
  | _, _ => Ok []
  end.

Section Views.
Context `{Platform}.

(** [App.update_month_filter_daily]: the values of the combobox and the
    text of [daily_month_var] afterwards. *)
Definition update_month_filter_daily (db : store) (daily_month_var : string)
    : list string * string :=
  let months := get_available_months db in
  let values := all_months :: months in
  (values,
   if String.eqb daily_month_var ""
      || negb (bool_decide (daily_month_var ∈ values))
   then all_months else daily_month_var).

(** [App.update_month_filter_hourly] *)
Definition update_month_filter_hourly (db : store) (hourly_month_var : string)
    : list string * string :=
  let months := get_available_months db in
  let values := all_months :: months in
  (values,
   if String.eqb hourly_month_var ""
      || negb (bool_decide (hourly_month_var ∈ values))
   then all_months else hourly_month_var).

(** [App.plot_daily] *)
Definition plot_daily (db : store) (daily_month_var : string)
    : result daily_view :=
  let month_filter := daily_month_var in
  rows ← get_daily_data db month_filter;
  match rows with
  | [] => Ok NoDailyData
  | _ =>
      let dates := (fun r => r.1.1) <$> rows in
      let durations := (fun r => r.1.2) <$> rows in
      let earnings := (fun r => r.2) <$> rows in
      let title :=
        if negb (String.eqb month_filter all_months)
        then "日別データ (" +:+ month_filter +:+ ")"
        else "日別データ (全体)" in
      Ok (DailyChart dates earnings durations title)
  end.

(** [App.plot_hourly] *)
Definition plot_hourly (db : store) (hourly_month_var : string)
    : result hourly_view :=
  let month_filter := hourly_month_var in
  rows ← get_hourly_data db month_filter;
  match rows with
  | [] => Ok NoHourlyData
  | _ =>
      let dates := (fun r => r.1.1) <$> rows in
      rates ← hourly rows;
      let title :=
        if negb (String.eqb month_filter all_months)
        then "日別平均時給 (" +:+ month_filter +:+ ")"
        else "日別平均時給 (全体)" in
      table ← hourly_table dates rates;
      Ok (HourlyChart dates rates title table)
  end.

(** [App.on_tab_changed]: the texts of the two month variables
    afterwards, and what the selected tab shows. *)
Definition on_tab_changed (selected_tab : string) (db : store)
    (daily_month_var hourly_month_var : string)
    : (string * string) * result tab_view :=
  if String.eqb selected_tab "日別グラフ" then
    let daily_month_var := (update_month_filter_daily db daily_month_var).2 in
    ((daily_month_var, hourly_month_var),
     v ← plot_daily db daily_month_var; Ok (DailyTab v))
  else if String.eqb selected_tab "平均時給" then
    let hourly_month_var :=
      (update_month_filter_hourly db hourly_month_var).2 in
    ((daily_month_var, hourly_month_var),
     v ← plot_hourly db hourly_month_var; Ok (HourlyTab v))
  else ((daily_month_var, hourly_month_var), Ok OtherTab).

End Views.

(** [App.on_spot_select]: the texts of the name entry and of the price
    entry afterwards. *)
Definition on_spot_select (selection : option nat)
    (spot_name_entry spot_price_entry : string) (st : App.state)
    : (string * string) * list App.event :=
  match selection with
  | None => ((spot_name_entry, spot_price_entry), [])
  | Some idx =>
      let spot := App.listbox_get st idx in
      match PyDict.get (App.SPOTS st) spot with
      | Some price => ((spot, PyStr.str price), [])
      | None => ((spot, ""), [App.Uncaught KeyError])
      end
  end.

(** ** The timer and the event loop *)

(** One minute passes: every callback that was pending at its start
    fires. *)
Definition period (st : App.state) : App.state :=
  foldl (fun s n => App.tick n s) st (App.pending st).

(** While the timer runs the callback of [timer_id] is the one pending,
    and while it does not none is. *)
Definition one_callback (st : App.state) : Prop :=
  if App.running st
  then exists n, App.timer_id st = Some n /\ App.pending st = [n]
  else App.pending st = [].

(** The identifiers [root.after] has given out are below the next one. *)
Definition fresh_ids (st : App.state) : Prop :=
  Forall (fun n => (n < App.next_after st)%nat) (App.pending st).

(** What the user and the event loop do on the play tab. *)
Inductive action : Type :=
  | PressStart (start_entry : string)
  | PressPause
  | PressResume
  | PressEnd (end_entry spot_var : string) (today : date)
  | Fire (n : nat).

Section Actions.
Context `{Platform}.

Definition act (st : App.state) (a : action) : App.state :=
  match a with
  | PressStart e => (App.start_timer e st).1
  | PressPause => App.pause_timer st
  | PressResume => App.resume_timer st
  | PressEnd e spot_var today => (App.end_session e spot_var today st).1
  | Fire n => App.tick n st
  end.

(** The start button is pressed only while the timer does not run. *)
Fixpoint starts_when_stopped (st : App.state) (acts : list action) : bool :=
  match acts with
  | [] => true
  | a :: acts' =>
      match a with
      | PressStart _ => negb (App.running st)
      | _ => true
      end && starts_when_stopped (act st a) acts'
  end.

End Actions.

(** ** Vocabulary for the months on offer *)

Section Laws.
Context `{Platform}.

(** [strptime] reads a calendar date written in ISO form. *)
Definition strptime_reads_iso : Prop :=
  forall d, valid_date d = true -> strptime_Ymd (isoformat d) = Some d.

(** What [strptime] returns is a calendar date. *)
Definition strptime_returns_dates : Prop :=
  forall s d, strptime_Ymd s = Some d -> valid_date d = true.

(** The sessions whose date SQLite's [strftime] prints as [token]. *)
Definition month_rows (token : string) (db : store) : list session :=
  filter (fun s => sqlite_strftime_Ym (created_at s) = Some token) db.

End Laws.

(** Every row carries the ISO form of a calendar date of the year [y] or
    later. *)
Definition recorded_since (y : Z) (db : store) : Prop :=
  Forall (fun s => exists dt, valid_date dt = true /\ y <= year dt
                              /\ created_at s = isoformat dt) db.

(** Zero and the finite doubles: neither an infinity nor a NaN. *)
Definition finite_float (f : spec_float) : bool :=
  match f with
  | S754_zero _ | S754_finite _ _ _ => true
  | S754_infinity _ | S754_nan => false
  end.

(** A number that is an [int] or a finite [float]. *)
Definition finite_num (x : num) : bool :=
  match x with
  | Int _ => true
  | Float f => finite_float f
  end.

(** Deciding a closed proposition by computation. *)
Ltac decided := refine (bool_decide_unpack _ _); vm_compute; exact I.

(** * Properties *)

(** ** The price table as a [dict] *)

Module PyDictFacts.

Lemma get_set (d : PyDict.dict) (k : string) (v : Z) :
  PyDict.get (PyDict.set d k v) k = Some v.
Proof.
  induction d as [|[k' v'] d IH]; simpl.
  - rewrite String.eqb_refl. reflexivity.
  - destruct (String.eqb k' k) eqn:Hk; simpl; rewrite Hk; auto.
Qed.

End PyDictFacts.

(** ** The 64-bit store *)

Module StoreFacts.

Lemma fits_int64_spec (n : Z) : fits_int64 n = true <-> int64 n.
Proof. unfold fits_int64, int64. lia. Qed.

Lemma fits_int64_false (n : Z) : fits_int64 n = false <-> ~ int64 n.
Proof.
  rewrite <- fits_int64_spec. destruct (fits_int64 n); split; congruence.
Qed.

Lemma int64_dec (n : Z) : {int64 n} + {~ int64 n}.
Proof.
  destruct (fits_int64 n) eqn:Hn.
  - left. now apply fits_int64_spec.
  - right. now apply fits_int64_false.
Qed.

Lemma sum_of_fmap (f : session -> Z) (rows : list session) :
  foldr Z.add 0 (f <$> rows) = sum_of f rows.
Proof.
  unfold sum_of. induction rows as [|s rows IH]; [reflexivity|].
  rewrite fmap_cons. cbn [foldr]. now rewrite IH.
Qed.

(** [SUM] returns the sum when the sums on the way fit, and fails
    otherwise. *)
Lemma sql_sum_from_fit (acc : Z) (values : list Z) :
  Forall int64 (running_sums acc values) ->
  sql_sum_from acc values = Ok (acc + foldr Z.add 0 values).
Proof.
  revert acc. induction values as [|v values IH]; intros acc Hfit.
  - cbn. f_equal. lia.
  - cbn [running_sums] in Hfit. apply Forall_cons in Hfit as [Hv Hfit].
    cbn [sql_sum_from foldr]. apply fits_int64_spec in Hv. rewrite Hv.
    rewrite IH by exact Hfit. f_equal. lia.
Qed.

Lemma sql_sum_from_ok (acc : Z) (values : list Z) (t : Z) :
  sql_sum_from acc values = Ok t ->
  Forall int64 (running_sums acc values) /\ t = acc + foldr Z.add 0 values.
Proof.
  revert acc. induction values as [|v values IH]; intros acc Hsum.
  - cbn in Hsum. injection Hsum as <-. split; [constructor|cbn; lia].
  - cbn [sql_sum_from] in Hsum.
    destruct (fits_int64 (acc + v)) eqn:Hv; [|discriminate].
    apply IH in Hsum as [Hfit ->]. apply fits_int64_spec in Hv.
    split; [constructor; assumption|cbn [foldr]; lia].
Qed.

Lemma sql_sum_from_raise (acc : Z) (values : list Z) (e : py_exn) :
  sql_sum_from acc values = Raise e -> e = OperationalError.
Proof.
  revert acc. induction values as [|v values IH]; intros acc Hsum.
  - discriminate.
  - cbn [sql_sum_from] in Hsum. destruct (fits_int64 (acc + v)).
    + eapply IH, Hsum.
    + congruence.
Qed.

Lemma sql_sum_fit (values : list Z) :
  sums_fit values -> sql_sum values = Ok (foldr Z.add 0 values).
Proof. intros Hfit. unfold sql_sum. now rewrite sql_sum_from_fit. Qed.

Lemma sql_sum_ok (values : list Z) (t : Z) :
  sql_sum values = Ok t -> sums_fit values /\ t = foldr Z.add 0 values.
Proof.
  intros Hsum. apply sql_sum_from_ok in Hsum as [Hfit ->]. split; [exact Hfit|lia].
Qed.

Lemma sql_sum_overflow (values : list Z) :
  ~ sums_fit values -> sql_sum values = Raise OperationalError.
Proof.
  intros Hnot. destruct (sql_sum values) as [t|e] eqn:Hsum.
  - apply sql_sum_ok in Hsum as [Hfit _]. contradiction.
  - apply sql_sum_from_raise in Hsum. congruence.
Qed.

(** Values whose magnitudes add up to less than [2^63] can be summed in
    any order. *)
Lemma running_sums_bounded (acc : Z) (values : list Z) :
  Z.abs acc + foldr (fun v t => Z.abs v + t) 0 values < 2 ^ 63 ->
  Forall int64 (running_sums acc values).
Proof.
  revert acc. induction values as [|v values IH]; intros acc Hb;
    [constructor|].
  cbn [running_sums foldr] in *.
  assert (0 <= foldr (fun v t => Z.abs v + t) 0 values).
  { clear. induction values as [|w values IH]; cbn [foldr]; lia. }
  constructor.
  - unfold int64. lia.
  - apply IH. lia.
Qed.

Lemma sum_rows_fit (rows : list session) (dates : list string) :
  (forall d, d ∈ dates ->
     sums_fit (duration <$> on_date d rows)
     /\ sums_fit (earned <$> on_date d rows)) ->
  sum_rows rows dates
  = Ok ((fun d => (d, sum_of duration (on_date d rows),
                    sum_of earned (on_date d rows))) <$> dates).
Proof.
  induction dates as [|d dates IH]; intros Hfit; [reflexivity|].
  destruct (Hfit d) as [Hd He]; [left|].
  cbn [sum_rows]. rewrite (sql_sum_fit _ Hd), (sql_sum_fit _ He), IH
    by (intros d' Hd'; apply Hfit; now right).
  rewrite !sum_of_fmap. reflexivity.
Qed.

Lemma sum_rows_ok (rows : list session) (dates : list string)
    (out : list (string * Z * Z)) :
  sum_rows rows dates = Ok out ->
  out = (fun d => (d, sum_of duration (on_date d rows),
                    sum_of earned (on_date d rows))) <$> dates
  /\ forall d, d ∈ dates ->
       sums_fit (duration <$> on_date d rows)
       /\ sums_fit (earned <$> on_date d rows).
Proof.
  revert out. induction dates as [|d dates IH]; intros out Hout.
  - injection Hout as <-. split; [reflexivity|]. intros d Hd. inversion Hd.
  - cbn [sum_rows] in Hout.
    destruct (sql_sum (duration <$> on_date d rows)) as [minutes|] eqn:Hm;
      [|discriminate].
    destruct (sql_sum (earned <$> on_date d rows)) as [money|] eqn:He;
      [|discriminate].
    destruct (sum_rows rows dates) as [rest|] eqn:Hrest; [|discriminate].
    cbn [mbind result_bind] in Hout. injection Hout as <-.
    destruct (IH rest eq_refl) as [-> Hfit].
    apply sql_sum_ok in Hm as [Hfm ->]. apply sql_sum_ok in He as [Hfe ->].
    rewrite !sum_of_fmap. split; [reflexivity|].
    intros d' Hd'. apply elem_of_cons in Hd' as [->|Hd']; auto.
Qed.

Lemma sum_rows_raise (rows : list session) (dates : list string)
    (e : py_exn) :
  sum_rows rows dates = Raise e -> e = OperationalError.
Proof.
  induction dates as [|d dates IH]; [discriminate|].
  cbn [sum_rows].
  destruct (sql_sum (duration <$> on_date d rows)) eqn:Hm;
    [|intros Hr; injection Hr as <-; eapply sql_sum_from_raise, Hm].
  destruct (sql_sum (earned <$> on_date d rows)) eqn:He;
    [|intros Hr; injection Hr as <-; eapply sql_sum_from_raise, He].
  destruct (sum_rows rows dates); [discriminate|].
  cbn [mbind result_bind]. intros Hr. apply IH. congruence.
Qed.

(** A date that no row carries has nothing to sum. *)
Lemma on_date_absent (d : string) (rows : list session) :
  d ∉ created_at <$> rows -> on_date d rows = [].
Proof.
  unfold on_date. induction rows as [|s rows IH]; intros Hd; [reflexivity|].
  rewrite fmap_cons in Hd. apply not_elem_of_cons in Hd as [Hne Hd].
  rewrite filter_cons.
  destruct (decide (created_at s = d)); [congruence|]. now apply IH.
Qed.

Lemma add_session_written (SPOTS : PyDict.dict) (today : date) (db : store)
    (spot_name : string) (first last minutes : Z) :
  let gained := last - first in
  let earned := gained * default 0 (PyDict.get SPOTS spot_name) in
  int64 first -> int64 last -> int64 minutes -> int64 gained ->
  int64 earned ->
  add_session SPOTS today db spot_name first last minutes
  = (Ok (gained, earned),
     (db ++ [Session (next_id db) spot_name first last minutes gained earned
               (isoformat today)])%list).
Proof.
  intros gained earned H1 H2 H3 H4 H5. unfold add_session.
  fold gained. fold earned. cbn [forallb].
  apply fits_int64_spec in H1, H2, H3, H4, H5.
  now rewrite H1, H2, H3, H4, H5.
Qed.

Lemma add_session_refused (SPOTS : PyDict.dict) (today : date) (db : store)
    (spot_name : string) (first last minutes : Z) :
  let gained := last - first in
  let earned := gained * default 0 (PyDict.get SPOTS spot_name) in
  ~ (int64 first /\ int64 last /\ int64 minutes /\ int64 gained
     /\ int64 earned) ->
  add_session SPOTS today db spot_name first last minutes
  = (Raise OverflowError, db).
Proof.
  intros gained earned Hnot. unfold add_session.
  fold gained. fold earned. cbn [forallb].
  destruct (fits_int64 first) eqn:H1; [|reflexivity].
  destruct (fits_int64 last) eqn:H2; [|reflexivity].
  destruct (fits_int64 minutes) eqn:H3; [|reflexivity].
  destruct (fits_int64 gained) eqn:H4; [|reflexivity].
  destruct (fits_int64 earned) eqn:H5; [|reflexivity].
  exfalso. apply Hnot. rewrite <- !fits_int64_spec. auto.
Qed.

(** What [add_session] leaves behind is the store it found, or that
    store and one row more. *)
Lemma add_session_store (SPOTS : PyDict.dict) (today : date) (db : store)
    (spot_name : string) (first last minutes : Z) :
  let out := add_session SPOTS today db spot_name first last minutes in
  (out.1 = Raise OverflowError /\ out.2 = db)
  \/ (out.1 = Ok (last - first,
                  (last - first) * default 0 (PyDict.get SPOTS spot_name))
      /\ out.2 = (db ++ [Session (next_id db) spot_name first last minutes
                           (last - first)
                           ((last - first)
                            * default 0 (PyDict.get SPOTS spot_name))
                           (isoformat today)])%list
      /\ int64 first /\ int64 last /\ int64 minutes /\ int64 (last - first)
      /\ int64 ((last - first) * default 0 (PyDict.get SPOTS spot_name))).
Proof.
  cbn zeta.
  set (gained := last - first).
  set (earned := gained * default 0 (PyDict.get SPOTS spot_name)).
  destruct (int64_dec first) as [H1|H1];
    [|left; rewrite add_session_refused by tauto; auto].
  destruct (int64_dec last) as [H2|H2];
    [|left; rewrite add_session_refused by tauto; auto].
  destruct (int64_dec minutes) as [H3|H3];
    [|left; rewrite add_session_refused by tauto; auto].
  destruct (int64_dec gained) as [H4|H4];
    [|left; rewrite add_session_refused by (fold gained; tauto); auto].
  destruct (int64_dec earned) as [H5|H5];
    [|left; rewrite add_session_refused
              by (fold gained; fold earned; tauto); auto].
  right. rewrite add_session_written by assumption. auto 10.
Qed.

(** The rows of one date are among the rows, so their absolute values
    add up to no more. *)
Lemma on_date_abs_le (f : session -> Z) (d : string) (rows : list session) :
  foldr (fun v t => Z.abs v + t) 0 (f <$> on_date d rows)
  <= foldr (fun v t => Z.abs v + t) 0 (f <$> rows).
Proof.
  unfold on_date. induction rows as [|s rows IH]; [reflexivity|].
  rewrite filter_cons. destruct (decide (created_at s = d));
    rewrite ?fmap_cons; cbn [foldr]; lia.
Qed.

(** A store whose minutes, and whose earnings, add up in absolute value
    below [2^63] can be summed day by day. *)
Lemma days_fit_small (keep : string -> Prop) (rows : list session) :
  foldr (fun v t => Z.abs v + t) 0 (duration <$> rows) < 2 ^ 63 ->
  foldr (fun v t => Z.abs v + t) 0 (earned <$> rows) < 2 ^ 63 ->
  days_fit keep rows.
Proof.
  intros Hd He d _. unfold sums_fit. change sessions_of with on_date.
  pose proof (on_date_abs_le duration d rows).
  pose proof (on_date_abs_le earned d rows).
  split; apply running_sums_bounded; cbn [Z.abs]; lia.
Qed.

(** What [SUM] returns is a 64-bit integer. *)
Lemma sql_sum_from_int64 (acc : Z) (values : list Z) (t : Z) :
  int64 acc -> sql_sum_from acc values = Ok t -> int64 t.
Proof.
  revert acc. induction values as [|v values IH]; intros acc Hacc Ht;
    cbn [sql_sum_from] in Ht.
  - now injection Ht as <-.
  - destruct (fits_int64 (acc + v)) eqn:Hfit; [|discriminate].
    apply fits_int64_spec in Hfit. now apply (IH (acc + v)).
Qed.

Lemma sql_sum_int64 (values : list Z) (t : Z) :
  sql_sum values = Ok t -> int64 t.
Proof. apply sql_sum_from_int64. unfold int64. lia. Qed.

Lemma sum_rows_int64 (rows : list session) (dates : list string)
    (out : list (string * Z * Z)) :
  sum_rows rows dates = Ok out ->
  Forall (fun r => int64 r.1.2 /\ int64 r.2) out.
Proof.
  revert out. induction dates as [|d dates IH]; intros out Hout;
    cbn [sum_rows] in Hout.
  - injection Hout as <-. constructor.
  - destruct (sql_sum (duration <$> on_date d rows)) as [minutes|] eqn:Hm;
      [|discriminate].
    destruct (sql_sum (earned <$> on_date d rows)) as [money|] eqn:He;
      [|discriminate].
    destruct (sum_rows rows dates) as [rest|]; [|discriminate].
    cbn [mbind result_bind] in Hout. injection Hout as <-.
    constructor; [|now apply IH].
    split; [apply (sql_sum_int64 _ _ Hm)|apply (sql_sum_int64 _ _ He)].
Qed.

End StoreFacts.

(** ** Recording a session *)

(** C1, as the program has it: when the two counts, the minutes, the
    gain and the earnings all fit in 64 bits, [add_session] computes
    [gained = trash_end - trash_start] whatever the two counts are,
    [earned = gained * price] with the price the table holds for the
    spot and 0 when it holds none, appends exactly one row, stamped with
    today's date, and returns [(gained, earned)]; when one of the five
    does not fit, the INSERT raises [OverflowError], no row is appended
    and nothing is returned. *)
Theorem add_session_records (SPOTS : PyDict.dict) (today : date) (db : store)
    (spot_name : string) (first last minutes : Z) :
  let gained := last - first in
  let price := default 0 (PyDict.get SPOTS spot_name) in
  let fit :=
    int64 first /\ int64 last /\ int64 minutes /\ int64 gained
    /\ int64 (gained * price) in
  (fit ->
     exists row : session,
       add_session SPOTS today db spot_name first last minutes
         = (Ok (gained, gained * price), (db ++ [row])%list)
       /\ spot row = spot_name
       /\ trash_start row = first /\ trash_end row = last
       /\ duration row = minutes
       /\ trash_gained row = gained /\ earned row = gained * price
       /\ created_at row = isoformat today
       /\ (PyDict.contains SPOTS spot_name = false -> earned row = 0)
       /\ length (db ++ [row])%list = S (length db))
  /\ (~ fit ->
      add_session SPOTS today db spot_name first last minutes
      = (Raise OverflowError, db)).
Proof.
  intros gained price fit. split.
  - intros (H1 & H2 & H3 & H4 & H5). eexists.
    split; [apply StoreFacts.add_session_written; assumption|]. cbn.
    repeat split; try reflexivity.
    + unfold PyDict.contains. subst price.
      destruct (PyDict.get SPOTS spot_name); [discriminate|]. cbn. lia.
    + rewrite length_app. cbn. lia.
  - intros Hnot. now apply StoreFacts.add_session_refused.
Qed.

(** C1, as stated, fails: with a start count of 0, an end count of
    [2^62] and a price of 1200 the earnings leave 64 bits, and
    [add_session] raises [OverflowError] and writes no row. *)
Lemma add_session_overflow :
  add_session Sample.spots Sample.may_1 [] "Sherekhan" 0 (2 ^ 62) 5
  = (Raise OverflowError, [])
  /\ int64 0 /\ int64 (2 ^ 62) /\ int64 (2 ^ 62 - 0)
  /\ ~ int64 ((2 ^ 62 - 0) * 1200).
Proof.
  split; [vm_compute; reflexivity|]. unfold int64. repeat split; lia.
Qed.

(** ** The price table and the store *)

Section Frame.
Context `{Platform}.

Lemma add_spot_db n p st : App.db (App.add_spot n p st).1 = App.db st.
Proof.
  unfold App.add_spot.
  destruct (int_of_str p); [|reflexivity].
  destruct (String.eqb _ _); [reflexivity|].
  destruct (PyDict.contains _ _); reflexivity.
Qed.

Lemma update_spot_db sel n p st :
  App.db (App.update_spot sel n p st).1 = App.db st.
Proof.
  unfold App.update_spot.
  destruct sel; [|reflexivity].
  destruct (int_of_str p); [|reflexivity].
  destruct (String.eqb _ _); [reflexivity|].
  destruct (_ && _); [reflexivity|].
  destruct (PyDict.del _ _); reflexivity.
Qed.

Lemma delete_spot_db sel st : App.db (App.delete_spot sel st).1 = App.db st.
Proof.
  unfold App.delete_spot.
  destruct sel; [|reflexivity].
  destruct (PyDict.del _ _); reflexivity.
Qed.

Lemma edit_db st op : App.db (App.edit st op) = App.db st.
Proof.
  destruct op; simpl;
    auto using add_spot_db, update_spot_db, delete_spot_db.
Qed.

Lemma edits_db ops : forall st, App.db (App.edits ops st) = App.db st.
Proof.
  unfold App.edits.
  induction ops as [|op ops IH]; intros st; simpl; [reflexivity|].
  rewrite IH. apply edit_db.
Qed.

(** C2: no sequence of additions, updates (renames) and deletions in the
    price table changes the store: every row is where it was, with the
    spot and the earnings written when its session was recorded; and
    whatever [add_session] has done, the store stays as it left it: the
    row it has written keeps, through any such sequence, the spot it was
    given and the earnings computed from the price of that moment. *)
Theorem spot_edits_keep_sessions (ops : list App.spot_edit) (st : App.state) :
  App.db (App.edits ops st) = App.db st
  /\ (forall (i : nat) (s : session),
        App.db st !! i = Some s ->
        exists s', App.db (App.edits ops st) !! i = Some s'
                   /\ earned s' = earned s /\ spot s' = spot s)
  /\ (forall (today : date) (spot_name : string) (first last minutes : Z),
        let price := default 0 (PyDict.get (App.SPOTS st) spot_name) in
        let out :=
          add_session (App.SPOTS st) today (App.db st) spot_name first
            last minutes in
        App.db (App.edits ops (App.with_db out.2 st)) = out.2
        /\ (forall pair, out.1 = Ok pair ->
            exists row,
              App.db (App.edits ops (App.with_db out.2 st))
              = (App.db st ++ [row])%list
              /\ earned row = (last - first) * price
              /\ spot row = spot_name)).
Proof.
  split; [apply edits_db|]. split.
  - intros i s Hs. exists s. rewrite edits_db. auto.
  - intros today spot_name first last minutes price out.
    rewrite edits_db. split; [reflexivity|].
    intros pair Hpair.
    destruct (StoreFacts.add_session_store (App.SPOTS st) today (App.db st)
                spot_name first last minutes)
      as [[Hraise _]|(_ & Hdb & _)].
    + subst out. congruence.
    + eexists. split; [exact Hdb|]. split; reflexivity.
Qed.

(** ** Adding a location *)

(** C6: [add_spot] shows an error and leaves the table as it was, in
    memory and in the file, when the price is not an integer, when the
    name is empty, and when the name is in the table already; when none
    of the three holds it inserts the entry and writes the table to the
    file. *)
Theorem add_spot_validates (name_entry price_entry : string) (st : App.state) :
  let name := str_strip name_entry in
  let rejected :=
    name = "" \/ int_of_str price_entry = None
    \/ PyDict.contains (App.SPOTS st) name = true in
  (rejected ->
     exists message,
       App.add_spot name_entry price_entry st = (st, [App.ShowError message]))
  /\ (~ rejected ->
      exists price,
        int_of_str price_entry = Some price
        /\ (App.add_spot name_entry price_entry st).2 = []
        /\ App.SPOTS (App.add_spot name_entry price_entry st).1
           = PyDict.set (App.SPOTS st) name price
        /\ App.spot_file (App.add_spot name_entry price_entry st).1
           = Some (PyDict.set (App.SPOTS st) name price)
        /\ PyDict.get (PyDict.set (App.SPOTS st) name price) name
           = Some price).
Proof.
  intros name rejected. subst rejected. unfold App.add_spot. fold name.
  destruct (int_of_str price_entry) as [price|] eqn:Hp.
  - destruct (String.eqb_spec name "") as [He|He].
    + split; [eauto|]. intros Hn. exfalso. apply Hn. auto.
    + destruct (PyDict.contains (App.SPOTS st) name) eqn:Hc.
      * split; [eauto|]. intros Hn. exfalso. apply Hn. auto.
      * split.
        -- intros [?|[?|?]]; congruence.
        -- intros _. exists price. simpl.
           repeat (split; [reflexivity|]). apply PyDictFacts.get_set.
  - split; [eauto|]. intros Hn. exfalso. apply Hn. auto.
Qed.

End Frame.

(** ** The timer *)

(** [resume_timer] leaves a running timer alone. *)
Lemma resume_timer_running st :
  App.running st = true -> App.resume_timer st = st.
Proof. unfold App.resume_timer. intros ->. reflexivity. Qed.

(** C7, as the program has it: [resume_timer] starts the timer whenever it
    is not running, paused or idle alike, counting the first minute at
    once and scheduling the next; it is a no-op only when the timer is
    running. *)
Theorem resume_timer_starts_when_stopped (st : App.state) :
  (App.running st = false ->
     App.timer_state_of (App.resume_timer st) = App.Running
     /\ App.minutes (App.resume_timer st) = App.minutes st + 1
     /\ App.timer_id (App.resume_timer st) = Some (App.next_after st)
     /\ App.pending (App.resume_timer st)
        = (App.pending st ++ [App.next_after st])%list)
  /\ (App.running st = true -> App.resume_timer st = st).
Proof.
  split.
  - intros Hr. unfold App.resume_timer, App.update_timer, App.timer_state_of.
    rewrite Hr. simpl. auto.
  - apply resume_timer_running.
Qed.

(** C7, as stated, fails: before any start the timer is idle, and
    [resume_timer] sets it running with one minute counted. *)
Lemma resume_timer_from_idle :
  App.timer_state_of (App.init None []) = App.Idle
  /\ App.timer_state_of (App.resume_timer (App.init None [])) = App.Running
  /\ App.minutes (App.resume_timer (App.init None [])) = 1
  /\ App.resume_timer (App.init None []) <> App.init None [].
Proof. repeat split. discriminate. Qed.

(** ** Text order and sorting *)

Module Text.

Lemma compare_refl (a : string) : String.compare a a = Eq.
Proof.
  induction a as [|c a IH]; simpl; [reflexivity|].
  unfold Ascii.compare. rewrite N.compare_refl. exact IH.
Qed.

Lemma lt_le_ne (a b : string) : text_lt a b <-> String.le a b /\ a <> b.
Proof.
  unfold text_lt, String.le, String.ltb, String.leb.
  destruct (String.compare a b) eqn:Hc; simpl.
  - apply String.compare_eq_iff in Hc. subst. split; [discriminate|].
    intros [_ Hne]. congruence.
  - split; [|reflexivity]. intros _. split; [exact I|].
    intros ->. rewrite compare_refl in Hc. discriminate.
  - split; [discriminate|]. intros [[] _].
Qed.

(** A sorted list without repetitions ascends strictly. *)
Lemma sorted_nodup_strict (R : relation string) (l : list string) :
  StronglySorted R l -> NoDup l ->
  StronglySorted (fun a b => R a b /\ a <> b) l.
Proof.
  induction 1 as [|x l Hs IH Hx]; intros Hnd; constructor.
  - apply IH. apply NoDup_cons in Hnd. tauto.
  - apply NoDup_cons in Hnd as [Hnotin _].
    apply Forall_forall. intros y Hy. split.
    + eapply Forall_forall in Hx; eauto.
    + intros ->. apply Hnotin. exact Hy.
Qed.

Lemma sorted_impl (R S : relation string) (l : list string) :
  (forall a b, R a b -> S a b) -> StronglySorted R l -> StronglySorted S l.
Proof.
  intros HRS. induction 1 as [|x l Hs IH Hx]; constructor; [exact IH|].
  eapply Forall_impl; eauto.
Qed.

Lemma order_dates_elem (l : list string) (d : string) :
  d ∈ order_dates l <-> d ∈ l.
Proof. unfold order_dates. rewrite merge_sort_Permutation. reflexivity. Qed.

Lemma order_dates_ascending (l : list string) :
  NoDup l -> StronglySorted text_lt (order_dates l).
Proof.
  intros Hnd. unfold order_dates.
  eapply sorted_impl; [intros a b; apply lt_le_ne|].
  apply sorted_nodup_strict.
  - apply StronglySorted_merge_sort; apply _.
  - rewrite merge_sort_Permutation. exact Hnd.
Qed.

#[local] Instance ge_transitive : Transitive (flip String.le).
Proof. intros a b c Hab Hbc. unfold flip in *. etrans; eauto. Qed.

#[local] Instance ge_total : Total (flip String.le).
Proof. intros a b. unfold flip. destruct (total String.le a b); auto. Qed.

(** [sorted(..., reverse=True)] of distinct texts descends strictly. *)
Lemma sort_descending (l : list string) :
  NoDup l -> StronglySorted (flip text_lt) (merge_sort (flip String.le) l).
Proof.
  intros Hnd.
  eapply sorted_impl;
    [|apply sorted_nodup_strict; [apply StronglySorted_merge_sort; apply _|]].
  - intros a b [Hle Hne]. apply lt_le_ne. split; [exact Hle|congruence].
  - rewrite merge_sort_Permutation. exact Hnd.
Qed.

End Text.

(** ** Decimal printing *)

Module Decimals.

Lemma to_lu_digit (p : positive) (k : N) :
  (k <= 9)%N ->
  Unsigned.to_lu (10 * Npos p + k) = cons_digit k (Unsigned.to_lu (Npos p)).
Proof.
  intros Hk.
  assert (Hcases : (k = 0 \/ k = 1 \/ k = 2 \/ k = 3 \/ k = 4 \/ k = 5
                    \/ k = 6 \/ k = 7 \/ k = 8 \/ k = 9)%N) by lia.
  pose proof (Unsigned.to_ldec_tenfold p) as Hten.
  assert (Hs : forall n, (10 * N.pos p + N.succ n = N.succ (10 * N.pos p + n))%N)
    by (intros; lia).
  repeat destruct Hcases as [->|Hcases]; try subst k;
    [ rewrite N.add_0_r; exact Hten
    | change 1%N with (N.succ 0)
    | change 2%N with (N.succ (N.succ 0))
    | change 3%N with (N.succ (N.succ (N.succ 0)))
    | change 4%N with (N.succ (N.succ (N.succ (N.succ 0))))
    | change 5%N with (N.succ (N.succ (N.succ (N.succ (N.succ 0)))))
    | change 6%N with (N.succ (N.succ (N.succ (N.succ (N.succ (N.succ 0))))))
    | change 7%N with
        (N.succ (N.succ (N.succ (N.succ (N.succ (N.succ (N.succ 0)))))))
    | change 8%N with
        (N.succ (N.succ (N.succ (N.succ (N.succ (N.succ (N.succ
           (N.succ 0))))))))
    | change 9%N with
        (N.succ (N.succ (N.succ (N.succ (N.succ (N.succ (N.succ
           (N.succ (N.succ 0))))))))) ];
    rewrite ?Hs, N.add_0_r, ?Unsigned.to_lu_succ, Hten; reflexivity.
Qed.

Lemma append_assoc (s1 s2 s3 : string) :
  (s1 +:+ s2) +:+ s3 = s1 +:+ (s2 +:+ s3).
Proof.
  induction s1 as [|c s1 IH]; [reflexivity|].
  change (String c ((s1 +:+ s2) +:+ s3) = String c (s1 +:+ (s2 +:+ s3))).
  now rewrite IH.
Qed.

Lemma string_revapp (d acc : Decimal.uint) :
  NilEmpty.string_of_uint (Decimal.revapp d acc)
  = NilEmpty.string_of_uint (Decimal.revapp d Decimal.Nil)
    +:+ NilEmpty.string_of_uint acc.
Proof.
  revert acc. induction d as [|d IH|d IH|d IH|d IH|d IH|d IH|d IH|d IH|d IH|d IH];
    intros acc; [reflexivity|..]; cbn [Decimal.revapp];
    rewrite (IH (_ acc)), (IH (_ Decimal.Nil));
    cbn [NilEmpty.string_of_uint];
    rewrite append_assoc; reflexivity.
Qed.

Lemma str_pos (q : positive) :
  PyStr.str (Zpos q) = NilEmpty.string_of_uint (Pos.to_uint q).
Proof.
  unfold PyStr.str. cbn [Z.to_int Pos.to_int NilZero.string_of_int].
  unfold NilZero.string_of_uint.
  pose proof (Unsigned.to_uint_nonnil q).
  destruct (Pos.to_uint q); congruence.
Qed.

Lemma digit_string (k : N) :
  (k <= 9)%N ->
  NilEmpty.string_of_uint (cons_digit k Decimal.Nil)
  = String (digit_char (Z.of_N k)) "".
Proof.
  intros Hk.
  assert (Hcases : (k = 0 \/ k = 1 \/ k = 2 \/ k = 3 \/ k = 4 \/ k = 5
                    \/ k = 6 \/ k = 7 \/ k = 8 \/ k = 9)%N) by lia.
  repeat destruct Hcases as [->|Hcases]; try subst k; reflexivity.
Qed.

(** [str] prints the last digit after the digits of the rest. *)
Lemma str_step (n k : Z) :
  0 < n -> 0 <= k <= 9 ->
  PyStr.str (10 * n + k) = PyStr.str n +:+ String (digit_char k) "".
Proof.
  intros Hn Hk.
  destruct n as [|p|p]; try lia.
  destruct (10 * Z.pos p + k) as [|q|q] eqn:Hq; try lia.
  rewrite !str_pos. unfold Pos.to_uint.
  change (Pos.to_little_uint q) with (Unsigned.to_lu (Npos q)).
  replace (Npos q) with (10 * Npos p + Z.to_N k)%N by lia.
  rewrite to_lu_digit by lia.
  unfold Decimal.rev.
  replace (Decimal.revapp (cons_digit (Z.to_N k) (Unsigned.to_lu (N.pos p)))
             Decimal.Nil)
    with (Decimal.revapp (Unsigned.to_lu (N.pos p))
            (cons_digit (Z.to_N k) Decimal.Nil))
    by (unfold cons_digit; destruct (Z.to_N k) as [|[[[[]|[]|]|[[]|[]|]|]|[[[]|[]|]|[[]|[]|]|]|]];
        reflexivity).
  rewrite string_revapp, digit_string by lia.
  rewrite Z2N.id by lia. reflexivity.
Qed.

Lemma str_digit (k : Z) :
  0 <= k <= 9 -> PyStr.str k = String (digit_char k) "".
Proof.
  intros Hk.
  assert (Hcases : k = 0 \/ k = 1 \/ k = 2 \/ k = 3 \/ k = 4 \/ k = 5
                   \/ k = 6 \/ k = 7 \/ k = 8 \/ k = 9) by lia.
  repeat destruct Hcases as [->|Hcases]; try subst k; reflexivity.
Qed.

(** From 10 on, [str] prints [y / 10] and then the digit [y mod 10]. *)
Lemma str_div (y : Z) :
  10 <= y ->
  PyStr.str y = PyStr.str (y / 10) +:+ String (digit_char (y mod 10)) "".
Proof.
  intros Hy. rewrite (Z.div_mod y 10) at 1 by lia.
  apply str_step; Z.to_euclidean_division_equations; lia.
Qed.

Lemma str1 (y : Z) : 0 <= y < 10 -> PyStr.str y = String (digit_char y) "".
Proof. intros Hy. apply str_digit. lia. Qed.

Lemma str2 (y : Z) :
  10 <= y < 100 -> PyStr.str y = digits2 y.
Proof.
  intros Hy. rewrite str_div, str1 by (Z.to_euclidean_division_equations; lia).
  reflexivity.
Qed.

Lemma str3 (y : Z) :
  100 <= y < 1000 ->
  PyStr.str y = String (digit_char (y / 100)) (digits2 (y mod 100)).
Proof.
  intros Hy. rewrite str_div, str2 by (Z.to_euclidean_division_equations; lia).
  unfold digits2.
  replace (y / 10 / 10) with (y / 100)
    by (Z.to_euclidean_division_equations; lia).
  replace (y mod 100 / 10) with (y / 10 mod 10)
    by (Z.to_euclidean_division_equations; lia).
  replace (y mod 100 mod 10) with (y mod 10)
    by (Z.to_euclidean_division_equations; lia).
  reflexivity.
Qed.

Lemma str4 (y : Z) :
  1000 <= y < 10000 -> PyStr.str y = digits4 y.
Proof.
  intros Hy. rewrite str_div, str3 by (Z.to_euclidean_division_equations; lia).
  unfold digits4, digits2.
  replace (y / 10 / 100) with (y / 1000)
    by (Z.to_euclidean_division_equations; lia).
  replace ((y / 10) mod 100 / 10) with (y / 100 mod 10)
    by (Z.to_euclidean_division_equations; lia).
  replace ((y / 10) mod 100 mod 10) with (y / 10 mod 10)
    by (Z.to_euclidean_division_equations; lia).
  reflexivity.
Qed.

Lemma zfill_nonneg (w : nat) (n : Z) :
  0 <= n ->
  PyStr.zfill w n
  = PyStr.zeros (w - String.length (PyStr.str n)) +:+ PyStr.str n.
Proof.
  intros Hn. unfold PyStr.zfill.
  replace (n <? 0) with false by lia. rewrite Z.abs_eq by lia.
  cbn [String.length]. rewrite Nat.sub_0_r. reflexivity.
Qed.

Lemma zfill2_digits (m : Z) : 0 <= m < 100 -> PyStr.zfill 2 m = digits2 m.
Proof.
  intros Hm. rewrite zfill_nonneg by lia.
  destruct (Z_lt_le_dec m 10).
  - rewrite str1 by lia. unfold digits2.
    replace (m / 10) with 0 by (Z.to_euclidean_division_equations; lia).
    replace (m mod 10) with m by (Z.to_euclidean_division_equations; lia).
    reflexivity.
  - rewrite str2 by lia. reflexivity.
Qed.

Lemma zfill4_digits (y : Z) : 0 <= y < 10000 -> PyStr.zfill 4 y = digits4 y.
Proof.
  intros Hy. rewrite zfill_nonneg by lia.
  destruct (Z_lt_le_dec y 10); [|destruct (Z_lt_le_dec y 100);
    [|destruct (Z_lt_le_dec y 1000)]].
  - rewrite str1 by lia. unfold digits4.
    replace (y / 1000) with 0 by (Z.to_euclidean_division_equations; lia).
    replace (y / 100 mod 10) with 0 by (Z.to_euclidean_division_equations; lia).
    replace (y / 10 mod 10) with 0 by (Z.to_euclidean_division_equations; lia).
    replace (y mod 10) with y by (Z.to_euclidean_division_equations; lia).
    reflexivity.
  - rewrite str2 by lia. unfold digits4, digits2.
    replace (y / 1000) with 0 by (Z.to_euclidean_division_equations; lia).
    replace (y / 100 mod 10) with 0 by (Z.to_euclidean_division_equations; lia).
    replace (y / 10 mod 10) with (y / 10)
      by (Z.to_euclidean_division_equations; lia).
    reflexivity.
  - rewrite str3 by lia. unfold digits4, digits2.
    replace (y / 1000) with 0 by (Z.to_euclidean_division_equations; lia).
    replace (y / 100 mod 10) with (y / 100)
      by (Z.to_euclidean_division_equations; lia).
    replace (y mod 100 / 10) with (y / 10 mod 10)
      by (Z.to_euclidean_division_equations; lia).
    replace (y mod 100 mod 10) with (y mod 10)
      by (Z.to_euclidean_division_equations; lia).
    reflexivity.
  - rewrite str4 by lia. reflexivity.
Qed.

End Decimals.

(** ** Dates and their ISO texts *)

Module Dates.

Lemma days_in_month_le_31 (y m : Z) : days_in_month y m <= 31.
Proof.
  unfold days_in_month.
  repeat match goal with |- context [if ?b then _ else _] => destruct b end;
    lia.
Qed.

Lemma valid_date_bounds (dt : date) :
  valid_date dt = true ->
  1 <= year dt <= 9999 /\ 1 <= month dt <= 12
  /\ 1 <= day dt <= days_in_month (year dt) (month dt).
Proof.
  unfold valid_date. intros Hv.
  repeat (apply andb_prop in Hv as [Hv ?]). lia.
Qed.

(** Digit characters compare as the digits do. *)
Lemma digit_char_compare (i j : Z) :
  0 <= i <= 9 -> 0 <= j <= 9 ->
  Ascii.compare (digit_char i) (digit_char j) = Z.compare i j.
Proof.
  intros Hi Hj. unfold Ascii.compare, digit_char.
  rewrite !N_ascii_embedding by lia.
  rewrite Z2N.inj_compare by lia. apply Z.add_compare_mono_l.
Qed.

Lemma compare_cons (a b : ascii) (s t : string) :
  String.compare (String a s) (String b t)
  = match Ascii.compare a b with
    | Eq => String.compare s t
    | c => c
    end.
Proof. reflexivity. Qed.

(** ISO texts of calendar dates are ordered as the dates are. *)
Lemma isoformat_order (d1 d2 : date) :
  valid_date d1 = true -> valid_date d2 = true ->
  (text_lt (isoformat d1) (isoformat d2) <-> date_lt d1 d2).
Proof.
  intros H1 H2.
  apply valid_date_bounds in H1, H2.
  pose proof (days_in_month_le_31 (year d1) (month d1)).
  pose proof (days_in_month_le_31 (year d2) (month d2)).
  destruct d1 as [y1 m1 a1], d2 as [y2 m2 a2]. cbn [year month day] in *.
  unfold text_lt, String.ltb, date_lt, isoformat. cbn [year month day].
  rewrite !Decimals.zfill4_digits, !Decimals.zfill2_digits by lia.
  unfold digits4, digits2. cbv [String.append].
  rewrite !compare_cons.
  rewrite !digit_char_compare by (Z.to_euclidean_division_equations; lia).
  change (Ascii.compare "-" "-") with Eq. cbn iota.
  repeat match goal with
         | |- context [Z.compare ?a ?b] =>
             destruct (Z.compare_spec a b)
         end;
    cbn [String.compare]; split; try discriminate; try reflexivity;
    intros; Z.to_euclidean_division_equations; lia.
Qed.

(** In a list of texts in ascending byte order the dates ascend. *)
Lemma sorted_chronological (ds : list string) :
  StronglySorted text_lt ds -> chronological ds.
Proof.
  intros Hs i j d1 d2 Hij Hi Hj Hv1 Hv2.
  apply isoformat_order; [assumption..|].
  revert i j Hij Hi Hj.
  induction Hs as [|x l Hs IH Hx]; intros i j Hij Hi Hj; [inversion Hi|].
  destruct j as [|j]; [lia|]. destruct i as [|i]; simpl in *.
  - inversion Hi; subst x.
    eapply Forall_forall in Hx; [exact Hx|].
    eapply list_elem_of_lookup_2; eauto.
  - apply (IH i j); [lia|assumption..].
Qed.

End Dates.

(** ** Months and their tokens *)

Module Months.

Lemma is_digit_char (k : Z) :
  0 <= k <= 9 -> PyStr.is_digit (digit_char k) = true.
Proof.
  intros Hk.
  assert (Hcases : k = 0 \/ k = 1 \/ k = 2 \/ k = 3 \/ k = 4 \/ k = 5
                   \/ k = 6 \/ k = 7 \/ k = 8 \/ k = 9) by lia.
  repeat destruct Hcases as [->|Hcases]; try subst k; reflexivity.
Qed.

(** From the year 1000 on the token of [get_available_months] is the one
    SQLite prints. *)
Lemma month_token_padded (d : date) :
  1000 <= year d <= 9999 -> month_token (year d) (month d) = year_month d.
Proof.
  intros Hy. unfold month_token, year_month.
  rewrite Decimals.zfill4_digits, Decimals.str4 by lia. reflexivity.
Qed.

Lemma year_month_token (d : date) :
  valid_date d = true -> is_month_token (year_month d) = true.
Proof.
  intros Hv. apply Dates.valid_date_bounds in Hv.
  unfold year_month.
  rewrite Decimals.zfill4_digits, Decimals.zfill2_digits by lia.
  unfold digits4, digits2. cbv [String.append]. unfold is_month_token.
  rewrite !is_digit_char by (Z.to_euclidean_division_equations; lia).
  reflexivity.
Qed.

Lemma year_month_order (d1 d2 : date) :
  valid_date d1 = true -> valid_date d2 = true ->
  (text_lt (year_month d1) (year_month d2) <-> month_before d1 d2).
Proof.
  intros H1 H2.
  apply Dates.valid_date_bounds in H1, H2.
  destruct d1 as [y1 m1 a1], d2 as [y2 m2 a2]. cbn [year month day] in *.
  unfold text_lt, String.ltb, month_before, year_month. cbn [year month day].
  rewrite !Decimals.zfill4_digits, !Decimals.zfill2_digits by lia.
  unfold digits4, digits2. cbv [String.append].
  rewrite !Dates.compare_cons.
  rewrite !Dates.digit_char_compare by (Z.to_euclidean_division_equations; lia).
  change (Ascii.compare "-" "-") with Eq. cbn iota.
  repeat match goal with
         | |- context [Z.compare ?a ?b] =>
             destruct (Z.compare_spec a b)
         end;
    cbn [String.compare]; split; try discriminate; try reflexivity;
    intros; Z.to_euclidean_division_equations; lia.
Qed.

Lemma sorted_lookup {A} (R : A -> A -> Prop) (l : list A) (i j : nat) (a b : A) :
  StronglySorted R l -> (i < j)%nat ->
  l !! i = Some a -> l !! j = Some b -> R a b.
Proof.
  intros Hs. revert i j.
  induction Hs as [|x l Hs IH Hx]; intros i j Hij Hi Hj; [inversion Hi|].
  destruct j as [|j]; [lia|]. destruct i as [|i]; simpl in *.
  - inversion Hi; subst x.
    eapply Forall_forall in Hx; [exact Hx|].
    eapply list_elem_of_lookup_2; eauto.
  - apply (IH i j); [lia|assumption..].
Qed.

Lemma sorted_recent_first (ms : list string) :
  StronglySorted (flip text_lt) ms -> recent_first ms.
Proof.
  intros Hs i j d1 d2 Hij Hi Hj Hv1 Hv2.
  apply year_month_order; [assumption..|].
  exact (sorted_lookup _ _ _ _ _ _ Hs Hij Hi Hj).
Qed.

End Months.

(** ** The daily aggregate *)

Section Aggregate.

Lemma dates_of_daily_sums (rows : list session) :
  dates_of (daily_sums rows)
  = order_dates (remove_dups (created_at <$> rows)).
Proof.
  unfold dates_of, daily_sums. rewrite <- list_fmap_compose.
  apply list_fmap_id.
Qed.

Lemma on_date_filter (P : session -> Prop) `{!forall s, Decision (P s)}
    (d : string) (db : store) :
  (forall s, s ∈ db -> created_at s = d -> P s) ->
  on_date d (filter P db) = on_date d db.
Proof.
  unfold on_date. induction db as [|s db IH]; intros HP; [reflexivity|].
  assert (IH' : filter (fun s => created_at s = d) (filter P db)
                = filter (fun s => created_at s = d) db).
  { apply IH. intros s' Hs'. apply HP. right. exact Hs'. }
  rewrite (filter_cons P). destruct (decide (P s)) as [Hs|Hs].
  - rewrite !filter_cons. destruct (decide (created_at s = d)); congruence.
  - rewrite (filter_cons _ s db).
    destruct (decide (created_at s = d)) as [Hd|Hd]; [|exact IH'].
    exfalso. apply Hs. apply HP; [left|exact Hd].
Qed.

(** Grouping the rows that pass a test on their date gives the aggregate
    of the dates that pass it. *)
Lemma daily_sums_filtered (keep : string -> Prop) (P : session -> Prop)
    `{!forall s, Decision (P s)} (db : store) :
  (forall s, s ∈ db -> (P s <-> keep (created_at s))) ->
  aggregates keep db (daily_sums (filter P db)).
Proof.
  intros HP.
  assert (Hmem : forall d, d ∈ dates_of (daily_sums (filter P db)) <->
                   keep d /\ exists s, s ∈ db /\ created_at s = d).
  { intros d. rewrite dates_of_daily_sums, Text.order_dates_elem,
      elem_of_remove_dups, list_elem_of_fmap.
    split.
    - intros (s & -> & Hs). apply list_elem_of_filter in Hs as [HPs Hs].
      split; [apply HP; assumption|eauto].
    - intros (Hk & s & Hs & <-). exists s. split; [reflexivity|].
      apply list_elem_of_filter. split; [apply HP; assumption|exact Hs]. }
  split; [|split; [exact Hmem|]].
  - rewrite dates_of_daily_sums. apply Text.order_dates_ascending.
    apply NoDup_remove_dups.
  - intros d minutes money Hin.
    assert (Hd : d ∈ dates_of (daily_sums (filter P db))).
    { unfold dates_of. apply list_elem_of_fmap.
      exists (d, minutes, money). auto. }
    apply Hmem in Hd as [Hk _].
    unfold daily_sums in Hin. apply list_elem_of_fmap in Hin
      as (d' & Heq & _). inversion Heq; subst d'.
    change sessions_of with on_date.
    rewrite on_date_filter; [auto|].
    intros s Hs <-. apply HP; assumption.
Qed.

Lemma daily_sums_all (db : store) :
  aggregates (fun _ => True) db (daily_sums db).
Proof.
  assert (Hall : filter (fun _ : session => True) db = db).
  { induction db as [|s db IH]; [reflexivity|].
    rewrite (filter_cons (fun _ : session => True)).
    destruct (decide True); [|tauto]. rewrite IH. reflexivity. }
  rewrite <- Hall at 2.
  apply (daily_sums_filtered (fun _ => True) (fun _ => True)).
  intros; tauto.
Qed.

(** The query returns the sums of the days when the rows of each day
    can be summed in 64 bits, and fails with "integer overflow"
    otherwise. *)
Lemma group_by_date_fit (rows : list session) :
  days_fit (fun _ => True) rows -> group_by_date rows = Ok (daily_sums rows).
Proof.
  intros Hfit. unfold group_by_date, daily_sums.
  apply StoreFacts.sum_rows_fit. intros d _. now apply Hfit.
Qed.

Lemma group_by_date_ok (rows : list session) (out : list (string * Z * Z)) :
  group_by_date rows = Ok out ->
  out = daily_sums rows /\ days_fit (fun _ => True) rows.
Proof.
  unfold group_by_date. intros Hout.
  apply StoreFacts.sum_rows_ok in Hout as [-> Hfit].
  split; [reflexivity|]. intros d _.
  destruct (decide (d ∈ created_at <$> rows)) as [Hd|Hd].
  - apply Hfit, Text.order_dates_elem, elem_of_remove_dups, Hd.
  - change sessions_of with on_date.
    rewrite (StoreFacts.on_date_absent d rows Hd). split; constructor.
Qed.

Lemma group_by_date_overflow (rows : list session) :
  ~ days_fit (fun _ => True) rows ->
  group_by_date rows = Raise OperationalError.
Proof.
  intros Hnot. destruct (group_by_date rows) as [out|e] eqn:Hout.
  - apply group_by_date_ok in Hout as [_ Hfit]. contradiction.
  - apply StoreFacts.sum_rows_raise in Hout. congruence.
Qed.

(** The rows a test on the date lets through can be summed when the
    days that pass the test can. *)
Lemma days_fit_filter (keep : string -> Prop) (P : session -> Prop)
    `{!forall s, Decision (P s)} (db : store) :
  (forall s, s ∈ db -> (P s <-> keep (created_at s))) ->
  (days_fit (fun _ => True) (filter P db) <-> days_fit keep db).
Proof.
  intros HP. split.
  - intros Hfit d Hk. specialize (Hfit d I).
    change sessions_of with on_date in Hfit.
    rewrite on_date_filter in Hfit; [exact Hfit|].
    intros s Hs <-. now apply HP.
  - intros Hfit d _. change sessions_of with on_date.
    destruct (decide (d ∈ created_at <$> filter P db)) as [Hd|Hd].
    + apply list_elem_of_fmap in Hd as (s & -> & Hs).
      apply list_elem_of_filter in Hs as [HPs Hs].
      rewrite on_date_filter; [apply Hfit; now apply HP|].
      intros s' Hs' Heq. apply HP; [exact Hs'|]. rewrite Heq. now apply HP.
    + rewrite (StoreFacts.on_date_absent d _ Hd). split; constructor.
Qed.

End Aggregate.

(** ** Month tokens *)

Module Token.

Lemma digit_not_dash (c : ascii) :
  PyStr.is_digit c = true -> Ascii.eqb c "-" = false.
Proof.
  destruct c as [[] [] [] [] [] [] [] []]; try discriminate; reflexivity.
Qed.

(** A month token splits at its dash into two fields, and is not the
    label of the unfiltered view. *)
Lemma split_token (t : string) :
  is_month_token t = true ->
  String.eqb t all_months = false
  /\ exists y m, PyStr.split "-" t = [y; m].
Proof.
  destruct t as [|y1 [|y2 [|y3 [|y4 [|s [|m1 [|m2 [|]]]]]]]];
    try (simpl; discriminate).
  unfold is_month_token. intros Hd.
  do 6 (apply andb_prop in Hd as [Hd ?]).
  split.
  - apply String.eqb_neq. intros Heq.
    apply (f_equal String.length) in Heq. discriminate.
  - unfold PyStr.split. cbn [PyStr.split_go].
    rewrite (digit_not_dash y1), (digit_not_dash y2), (digit_not_dash y3),
      (digit_not_dash y4) by assumption.
    match goal with Hs : Ascii.eqb s _ = true |- _ => rewrite Hs end.
    rewrite (digit_not_dash m1), (digit_not_dash m2) by assumption.
    eauto.
Qed.

End Token.

(** ** The reporting queries *)

Section Reports.
Context `{Platform}.

(** On a store of recorded rows the WHERE clause keeps the rows of the
    month. *)
Lemma in_month_keeps (db : store) (token : string) :
  strftime_reads_iso -> recorded db ->
  forall s, s ∈ db ->
    (sqlite_strftime_Ym (created_at s) = Some token
     <-> in_month_of token (created_at s)).
Proof.
  intros Hlaw Hrec s Hs.
  eapply Forall_forall in Hrec as (dt & Hv & Hd); [|exact Hs].
  split.
  - intros Hf. exists dt. repeat split; [exact Hv|exact Hd|].
    rewrite Hd, (Hlaw dt Hv) in Hf. congruence.
  - intros (dt' & Hv' & Hd' & <-). rewrite Hd'. apply Hlaw. exact Hv'.
Qed.

(** [add_session] keeps the store one of recorded rows. *)
Lemma add_session_recorded SPOTS today db spot_name first last minutes :
  valid_date today = true -> recorded db ->
  recorded (add_session SPOTS today db spot_name first last minutes).2.
Proof.
  intros Hv Hrec.
  destruct (StoreFacts.add_session_store SPOTS today db spot_name first
              last minutes) as [[_ ->]|(_ & -> & _)]; [exact Hrec|].
  apply Forall_app. split; [exact Hrec|].
  constructor; [|constructor]. exists today. cbn. auto.
Qed.

(** C3, as the program has it: when the sessions of each day shown can
    be summed in 64 bits, [get_daily_data] groups the stored sessions by
    date: one row per date, dates ascending (as texts, and so as calendar
    dates), with the summed duration and the summed earnings of the
    sessions of that date.  With the filter of the unfiltered view every
    stored date has its row; with a month token exactly the stored dates
    of that month have theirs.  When the sessions of a day shown cannot
    be summed in 64 bits the query fails with [OperationalError]. *)
Theorem get_daily_data_aggregates (db : store) :
  strftime_reads_iso -> recorded db ->
  ((days_fit (fun _ => True) db ->
      exists out, get_daily_data db all_months = Ok out
                  /\ aggregates (fun _ => True) db out
                  /\ chronological (dates_of out))
   /\ (~ days_fit (fun _ => True) db ->
       get_daily_data db all_months = Raise OperationalError))
  /\ (forall token, is_month_token token = true ->
        (days_fit (in_month_of token) db ->
           exists out, get_daily_data db token = Ok out
                       /\ aggregates (in_month_of token) db out
                       /\ chronological (dates_of out))
        /\ (~ days_fit (in_month_of token) db ->
            get_daily_data db token = Raise OperationalError)).
Proof.
  intros Hlaw Hrec. split; [split|].
  - intros Hfit. exists (daily_sums db).
    pose proof (daily_sums_all db) as Hagg.
    split; [|split; [exact Hagg|]].
    + unfold get_daily_data. rewrite String.eqb_refl.
      now apply group_by_date_fit.
    + apply Dates.sorted_chronological, Hagg.
  - intros Hnot. unfold get_daily_data. rewrite String.eqb_refl.
    now apply group_by_date_overflow.
  - intros token Htok.
    apply Token.split_token in Htok as (Hne & y & m & Hsplit).
    assert (Hdata : get_daily_data db token
                    = group_by_date (in_month token db)).
    { unfold get_daily_data. now rewrite Hne, Hsplit. }
    pose proof (days_fit_filter (in_month_of token)
                  (fun s => sqlite_strftime_Ym (created_at s) = Some token)
                  db (in_month_keeps db token Hlaw Hrec)) as Hfits.
    fold (in_month token db) in Hfits.
    rewrite Hdata. split.
    + intros Hfit. exists (daily_sums (in_month token db)).
      assert (Hagg : aggregates (in_month_of token) db
                       (daily_sums (in_month token db))).
      { apply (daily_sums_filtered (in_month_of token)).
        apply in_month_keeps; assumption. }
      split; [|split; [exact Hagg|]].
      * apply group_by_date_fit, Hfits, Hfit.
      * apply Dates.sorted_chronological, Hagg.
    + intros Hnot. apply group_by_date_overflow.
      intros Hfit. apply Hnot, Hfits, Hfit.
Qed.

(** The two queries agree on the label of the unfiltered view and on
    every filter with exactly one dash. *)
Lemma daily_hourly_agree (db : store) (month_filter : string) :
  month_filter = all_months
  \/ (exists y m, PyStr.split "-" month_filter = [y; m]) ->
  get_daily_data db month_filter = get_hourly_data db month_filter.
Proof.
  unfold get_daily_data, get_hourly_data.
  intros [->|(y & m & Hsplit)].
  - rewrite String.eqb_refl. reflexivity.
  - rewrite Hsplit. reflexivity.
Qed.

(** No recorded row falls under a filter that is not a month token. *)
Lemma in_month_no_token (db : store) (month_filter : string) :
  strftime_reads_iso -> recorded db ->
  is_month_token month_filter = false ->
  in_month month_filter db = [].
Proof.
  intros Hlaw Hrec Hno. unfold in_month.
  induction Hrec as [|s db (dt & Hv & Hd) Hrec IH]; [reflexivity|].
  rewrite filter_cons, IH.
  destruct (decide (sqlite_strftime_Ym (created_at s) = Some month_filter))
    as [Hf|]; [|reflexivity].
  rewrite Hd, (Hlaw dt Hv) in Hf. injection Hf as <-.
  rewrite (Months.year_month_token dt Hv) in Hno. discriminate.
Qed.

(** C9: the two queries return the same rows for the unfiltered view and
    for every filter that holds exactly one dash, month tokens among
    them; on the filter [2024], which holds none, [get_daily_data] raises
    [ValueError] where [get_hourly_data] runs its query, raises no
    [ValueError], and on a store of recorded rows returns no row. *)
Theorem daily_hourly_differ (db : store) :
  (forall token, is_month_token token = true ->
     get_daily_data db token = get_hourly_data db token)
  /\ get_daily_data db all_months = get_hourly_data db all_months
  /\ get_daily_data db "2024" = Raise ValueError
  /\ get_hourly_data db "2024" = group_by_date (in_month "2024" db)
  /\ get_hourly_data db "2024" <> Raise ValueError
  /\ (strftime_reads_iso -> recorded db -> get_hourly_data db "2024" = Ok []).
Proof.
  split; [|split; [|split; [reflexivity|split; [reflexivity|split]]]].
  - intros token Htok. apply daily_hourly_agree. right.
    apply Token.split_token in Htok as (_ & y & m & Hsplit). eauto.
  - apply daily_hourly_agree. auto.
  - change (get_hourly_data db "2024")
      with (group_by_date (in_month "2024" db)).
    intros Hraise. apply StoreFacts.sum_rows_raise in Hraise. discriminate.
  - intros Hlaw Hrec.
    change (get_hourly_data db "2024")
      with (group_by_date (in_month "2024" db)).
    rewrite (in_month_no_token db "2024" Hlaw Hrec eq_refl). reflexivity.
Qed.

(** *** The months on offer *)

Lemma add_month_fold (dates : list string) :
  forall (acc : gset string) (t : string),
    t ∈ foldl add_month acc dates <->
    t ∈ acc \/ exists d dt, d ∈ dates /\ strptime_Ymd d = Some dt
                            /\ t = month_token (year dt) (month dt).
Proof.
  induction dates as [|d dates IH]; intros acc t; simpl.
  - split; [auto|]. intros [?|(d & dt & Hd & _)]; [assumption|].
    inversion Hd.
  - rewrite IH. unfold add_month at 1.
    destruct (strptime_Ymd d) as [dt|] eqn:Hp.
    + rewrite elem_of_union, elem_of_singleton. split.
      * intros [[?| ->]|(d' & dt' & Hd' & Hp' & ->)]; [auto| |].
        -- right. exists d, dt. repeat split; [left|exact Hp].
        -- right. exists d', dt'. repeat split; [right; exact Hd'|exact Hp'].
      * intros [?|(d' & dt' & Hd' & Hp' & ->)]; [auto|].
        apply elem_of_cons in Hd' as [-> |Hd'].
        -- left. right. congruence.
        -- right. eauto.
    + split.
      * intros [?|(d' & dt' & Hd' & Hp' & ->)]; [auto|].
        right. exists d', dt'. repeat split; [right; exact Hd'|exact Hp'].
      * intros [?|(d' & dt' & Hd' & Hp' & ->)]; [auto|].
        apply elem_of_cons in Hd' as [-> |Hd']; [congruence|].
        right. eauto.
Qed.

(** What [get_available_months] returns: the tokens of the stored dates
    that parse, each once, in descending text order; a date that does
    not parse adds nothing. *)
Lemma get_available_months_spec (db : store) :
  StronglySorted (flip text_lt) (get_available_months db)
  /\ NoDup (get_available_months db)
  /\ forall t, t ∈ get_available_months db <->
       exists s dt, s ∈ db /\ strptime_Ymd (created_at s) = Some dt
                    /\ t = month_token (year dt) (month dt).
Proof.
  unfold get_available_months. split; [|split].
  - apply Text.sort_descending. apply NoDup_elements.
  - rewrite merge_sort_Permutation. apply NoDup_elements.
  - intros t. rewrite merge_sort_Permutation, elem_of_elements, add_month_fold.
    split.
    + intros [Hin|(d & dt & Hd & Hp & ->)]; [set_solver|].
      apply Text.order_dates_elem, elem_of_remove_dups, list_elem_of_fmap
        in Hd as (s & -> & Hs).
      eauto.
    + intros (s & dt & Hs & Hp & ->). right.
      exists (created_at s), dt. repeat split; [|exact Hp].
      apply Text.order_dates_elem, elem_of_remove_dups, list_elem_of_fmap.
      eauto.
Qed.

(** When every stored date that parses is a calendar date of the year
    1000 or later, [get_available_months] returns the months of these
    dates in the form YYYY-MM, the most recent first. *)
Lemma get_available_months_from_1000 (db : store) :
  (forall s dt, s ∈ db -> strptime_Ymd (created_at s) = Some dt ->
                valid_date dt = true /\ 1000 <= year dt) ->
  (forall t, t ∈ get_available_months db <->
     exists s dt, s ∈ db /\ strptime_Ymd (created_at s) = Some dt
                  /\ t = year_month dt)
  /\ Forall (fun t => is_month_token t = true) (get_available_months db)
  /\ recent_first (get_available_months db).
Proof.
  intros Hdb.
  destruct (get_available_months_spec db) as (Hsorted & _ & Hin).
  assert (Htok : forall s dt, s ∈ db -> strptime_Ymd (created_at s) = Some dt ->
                 month_token (year dt) (month dt) = year_month dt).
  { intros s dt Hs Hp. destruct (Hdb s dt Hs Hp) as [Hv Hy].
    apply Dates.valid_date_bounds in Hv.
    apply Months.month_token_padded. lia. }
  split; [|split].
  - intros t. rewrite Hin. split; intros (s & dt & Hs & Hp & ->);
      exists s, dt; (repeat split; [assumption..|]);
      [|symmetry]; eauto.
  - apply Forall_forall. intros t Ht. apply Hin in Ht as (s & dt & Hs & Hp & ->).
    rewrite (Htok s dt Hs Hp).
    apply Months.year_month_token, (Hdb s dt Hs Hp).
  - apply Months.sorted_recent_first, Hsorted.
Qed.

(** [get_available_months] depends on the stored dates through the
    months they parse to. *)
Lemma get_available_months_ext (db1 db2 : store) :
  (forall t,
     (exists s dt, s ∈ db1 /\ strptime_Ymd (created_at s) = Some dt
                   /\ t = month_token (year dt) (month dt))
     <-> (exists s dt, s ∈ db2 /\ strptime_Ymd (created_at s) = Some dt
                       /\ t = month_token (year dt) (month dt))) ->
  get_available_months db1 = get_available_months db2.
Proof.
  intros Hsame. unfold get_available_months.
  assert (Hset : forall db : store,
            forall t, t ∈ foldl add_month ∅
                        (order_dates (remove_dups (created_at <$> db)))
              <-> exists s dt, s ∈ db /\ strptime_Ymd (created_at s) = Some dt
                               /\ t = month_token (year dt) (month dt)).
  { intros db t. rewrite add_month_fold. split.
    - intros [Hin|(d & dt & Hd & Hp & ->)]; [set_solver|].
      apply Text.order_dates_elem, elem_of_remove_dups, list_elem_of_fmap
        in Hd as (s & -> & Hs).
      eauto.
    - intros (s & dt & Hs & Hp & ->). right.
      exists (created_at s), dt. repeat split; [|exact Hp].
      apply Text.order_dates_elem, elem_of_remove_dups, list_elem_of_fmap.
      eauto. }
  replace (foldl add_month ∅ (order_dates (remove_dups (created_at <$> db1))))
    with (foldl add_month ∅ (order_dates (remove_dups (created_at <$> db2))));
    [reflexivity|].
  apply set_eq. intros t. rewrite !Hset. symmetry. apply Hsame.
Qed.

(** C5: when every stored date that [strptime] reads is a calendar date
    of the year 1000 or later, as the dates the program stamps are,
    [get_available_months] returns the tokens YYYY-MM of the months of
    these dates, each once, in descending order of the texts, which is
    the most recent month first; rows whose date [strptime] does not read
    are passed over: they add no month and raise nothing. *)
Theorem available_months_recent_first (db : store) :
  (forall s dt, s ∈ db -> strptime_Ymd (created_at s) = Some dt ->
                valid_date dt = true /\ 1000 <= year dt) ->
  NoDup (get_available_months db)
  /\ StronglySorted (flip text_lt) (get_available_months db)
  /\ recent_first (get_available_months db)
  /\ Forall (fun t => is_month_token t = true) (get_available_months db)
  /\ (forall t, t ∈ get_available_months db <->
        exists s dt, s ∈ db /\ strptime_Ymd (created_at s) = Some dt
                     /\ t = year_month dt)
  /\ (forall other,
        Forall (fun s => strptime_Ymd (created_at s) = None) other ->
        get_available_months (db ++ other) = get_available_months db).
Proof.
  intros Hdb.
  destruct (get_available_months_spec db) as (Hsorted & Hnd & _).
  destruct (get_available_months_from_1000 db Hdb) as (Hin & Htok & Hrecent).
  split; [exact Hnd|]. split; [exact Hsorted|]. split; [exact Hrecent|].
  split; [exact Htok|]. split; [exact Hin|].
  intros other Hbad. apply get_available_months_ext. intros t. split.
  - intros (s & dt & Hs & Hp & ->).
    apply elem_of_app in Hs as [Hs|Hs]; [eauto|].
    eapply Forall_forall in Hbad; [|exact Hs]. congruence.
  - intros (s & dt & Hs & Hp & ->). exists s, dt.
    split; [apply elem_of_app; auto|auto].
Qed.

End Reports.

(** ** The reference instance reads ISO dates *)

Module ReferenceFacts.
Import Reference.

Lemma digit_char_read (k : Z) :
  0 <= k <= 9 ->
  PyStr.is_digit (digit_char k) = true /\ digit_value (digit_char k) = k.
Proof.
  intros Hk.
  assert (Hcases : k = 0 \/ k = 1 \/ k = 2 \/ k = 3 \/ k = 4 \/ k = 5
                   \/ k = 6 \/ k = 7 \/ k = 8 \/ k = 9) by lia.
  repeat destruct Hcases as [->|Hcases]; try subst k; split; reflexivity.
Qed.

Lemma number_go_digit (acc k : Z) (s : string) :
  0 <= k <= 9 ->
  number_go acc (String (digit_char k) s) = number_go (10 * acc + k) s.
Proof.
  intros Hk. destruct (digit_char_read k Hk) as [Hd Hv].
  cbn [number_go]. now rewrite Hd, Hv.
Qed.

Lemma number_digits4 (y : Z) :
  0 <= y < 10000 -> number (digits4 y) = Some y.
Proof.
  intros Hy. unfold digits4, number.
  rewrite !number_go_digit by (Z.to_euclidean_division_equations; lia).
  cbn [number_go]. f_equal. Z.to_euclidean_division_equations; lia.
Qed.

Lemma number_digits2 (m : Z) :
  0 <= m < 100 -> number (digits2 m) = Some m.
Proof.
  intros Hm. unfold digits2, number.
  rewrite !number_go_digit by (Z.to_euclidean_division_equations; lia).
  cbn [number_go]. f_equal. Z.to_euclidean_division_equations; lia.
Qed.

Lemma zfill4 (y : Z) :
  0 <= y < 10000 ->
  exists a b c e, PyStr.zfill 4 y = four a b c e
                  /\ number (four a b c e) = Some y.
Proof.
  intros Hy. do 4 eexists.
  split; [apply Decimals.zfill4_digits; lia|].
  now apply number_digits4.
Qed.

Lemma zfill2 (m : Z) :
  0 <= m < 100 ->
  exists a b, PyStr.zfill 2 m = two a b /\ number (two a b) = Some m.
Proof.
  intros Hm. do 2 eexists.
  split; [apply Decimals.zfill2_digits; lia|].
  now apply number_digits2.
Qed.

Lemma strftime_law : strftime_reads_iso (H := platform).
Proof.
  intros [y m d] Hv. apply Dates.valid_date_bounds in Hv. simpl in Hv.
  pose proof (Dates.days_in_month_le_31 y m) as Hdays.
  destruct (zfill4 y) as (y1 & y2 & y3 & y4 & Hy & Hny); [lia|].
  destruct (zfill2 m) as (m1 & m2 & Hm & Hnm); [lia|].
  destruct (zfill2 d) as (d1 & d2 & Hd & Hnd); [lia|].
  unfold sqlite_strftime_Ym, platform, isoformat. cbn [year month day].
  assert (Hiso : PyStr.zfill 4 y +:+ "-" +:+ PyStr.zfill 2 m +:+ "-"
                 +:+ PyStr.zfill 2 d
                 = String y1 (String y2 (String y3 (String y4 (String "-"
                     (String m1 (String m2 (String "-" (two d1 d2)))))))))
    by (rewrite Hy, Hm, Hd; reflexivity).
  rewrite Hiso. unfold strftime_Ym, two at 1.
  rewrite Ascii.eqb_refl. cbn [andb].
  fold (four y1 y2 y3 y4). fold (two m1 m2). fold (two d1 d2).
  rewrite Hny, Hnm, Hnd. unfold between. cbn [mbind option_bind].
  replace ((1 <=? m) && (m <=? 12)) with true by lia.
  replace ((1 <=? d) && (d <=? 31)) with true by lia.
  cbn [mbind option_bind].
  replace (d <=? days_in_month y m) with true by lia.
  reflexivity.
Qed.

End ReferenceFacts.

(** ** Rounding and printing *)

Module FloatFacts.

Lemma div_half_even_bounds (n d : Z) :
  0 < d -> n / d <= div_half_even n d <= n / d + 1.
Proof.
  intros Hd. unfold div_half_even.
  destruct (2 * (n mod d) ?= d); [destruct (Z.even (n / d))|..]; lia.
Qed.

Lemma div_half_even_pos (n d : Z) : 0 < d -> d <= n -> 0 < div_half_even n d.
Proof.
  intros Hd Hn. pose proof (div_half_even_bounds n d Hd).
  assert (1 <= n / d) by (apply Z.div_le_lower_bound; lia). lia.
Qed.

Lemma log2_bounds (a : Z) : 0 < a -> 2 ^ Z.log2 a <= a < 2 ^ (Z.log2 a + 1).
Proof. intros Ha. pose proof (Z.log2_spec a Ha). unfold Z.succ in *. lia. Qed.

(** The exponent chosen for [a / b] is at most one above the difference
    of the bit lengths less the precision. *)
Lemma ulp_exponent_le (a b : Z) :
  ulp_exponent a b 0 <= Z.max (Z.log2 a - Z.log2 b - prec + 1) emin.
Proof.
  unfold ulp_exponent. destruct (scale2 _ _ _) as [n d].
  destruct (n / d <? 2 ^ prec); lia.
Qed.

Lemma round_pos_exponent_le (a b : Z) :
  (round_pos a b 0).2 <= Z.max (Z.log2 a - Z.log2 b - prec + 1) emin + 1.
Proof.
  unfold round_pos. pose proof (ulp_exponent_le a b).
  destruct (scale2 _ _ _) as [n d].
  destruct (_ =? _); simpl; lia.
Qed.

(** No quotient of a numerator below [2^1023] overflows. *)
Lemma RN_finite (s : bool) (a b : Z) :
  0 <= a < 2 ^ 1023 -> 0 < b -> is_infinite (RN s a b 0) = false.
Proof.
  intros Ha Hb. unfold RN.
  destruct (a =? 0) eqn:Ha0; [reflexivity|].
  apply Z.eqb_neq in Ha0.
  pose proof (round_pos_exponent_le a b) as He.
  assert (Hla : Z.log2 a < 1023) by (apply Z.log2_lt_pow2; lia).
  pose proof (Z.log2_nonneg b) as Hlb.
  destruct (round_pos a b 0) as [m e]. simpl in He.
  destruct m; [reflexivity| |reflexivity].
  replace (e <=? emax - prec) with true; [reflexivity|].
  symmetry. apply Z.leb_le. unfold emin, emax, prec in *. lia.
Qed.

(** A quotient of positive integers, the divisor below [2^1000], does
    not round to zero. *)
Lemma round_pos_mantissa_pos (a b : Z) :
  0 < a -> 0 < b < 2 ^ 1000 -> 0 < (round_pos a b 0).1.
Proof.
  intros Ha Hb.
  pose proof (log2_bounds a Ha) as Hla. pose proof (log2_bounds b ltac:(lia)) as Hlb.
  pose proof (Z.log2_nonneg a) as Hla0. pose proof (Z.log2_nonneg b) as Hlb0.
  assert (Hlb1 : Z.log2 b < 1000) by (apply Z.log2_lt_pow2; lia).
  pose proof (ulp_exponent_le a b) as He.
  unfold round_pos. set (e := ulp_exponent a b 0) in *. clearbody e.
  assert (He' : e <= Z.log2 a - Z.log2 b - 52)
    by (unfold emin, emax, prec in He; lia).
  assert (Hnd : let '(n, d) := scale2 a b (0 - e) in 0 < d /\ d <= n).
  { unfold scale2. destruct (0 <=? 0 - e) eqn:Hs.
    - apply Z.leb_le in Hs. split; [lia|].
      assert (2 ^ (Z.log2 b + 1) <= 2 ^ (Z.log2 a + (0 - e)))
        by (apply Z.pow_le_mono_r; lia).
      rewrite (Z.pow_add_r 2 (Z.log2 a) (0 - e)) in H by lia.
      assert (2 ^ Z.log2 a * 2 ^ (0 - e) <= a * 2 ^ (0 - e))
        by (apply Z.mul_le_mono_nonneg_r; [apply Z.pow_nonneg|]; lia).
      lia.
    - apply Z.leb_gt in Hs. replace (- (0 - e)) with e by lia.
      assert (0 < 2 ^ e) by (apply Z.pow_pos_nonneg; lia).
      split; [nia|].
      assert (2 ^ (Z.log2 b + 1) * 2 ^ e <= 2 ^ Z.log2 a).
      { rewrite <- Z.pow_add_r by lia. apply Z.pow_le_mono_r; lia. }
      nia. }
  destruct (scale2 a b (0 - e)) as [n d]. destruct Hnd as [Hd Hn].
  pose proof (div_half_even_pos n d Hd Hn).
  destruct (_ =? _); simpl; [reflexivity|assumption].
Qed.

Lemma RN_nonzero (s : bool) (a b : Z) :
  0 < a -> 0 < b < 2 ^ 1000 -> is_zero (RN s a b 0) = false.
Proof.
  intros Ha Hb. unfold RN.
  replace (a =? 0) with false by lia.
  pose proof (round_pos_mantissa_pos a b Ha Hb) as Hm.
  destruct (round_pos a b 0) as [m e]. simpl in Hm.
  destruct m; [lia| |lia].
  destruct (_ <=? _); reflexivity.
Qed.

Lemma RN_sign (s : bool) (a b : Z) :
  match RN s a b 0 with
  | S754_zero s' | S754_infinity s' | S754_finite s' _ _ => s' = s
  | S754_nan => False
  end.
Proof.
  unfold RN. destruct (a =? 0); [reflexivity|].
  destruct (round_pos a b 0) as [m e].
  destruct m; [reflexivity| |reflexivity].
  destruct (_ <=? _); reflexivity.
Qed.

(** [div_half_even n d] is within half a unit of [n / d]. *)
Lemma div_half_even_near (n d : Z) :
  0 < d -> 2 * Z.abs (n - div_half_even n d * d) <= d.
Proof.
  intros Hd. unfold div_half_even.
  pose proof (Z.div_mod n d ltac:(lia)) as Hdm.
  pose proof (Z.mod_pos_bound n d Hd) as Hr.
  set (q := n / d) in *. set (r := n mod d) in *. clearbody q r. subst n.
  destruct (Z.compare_spec (2 * r) d); [destruct (Z.even q)|..]; lia.
Qed.

(** The fraction [scale2 a b j] stands for [a / b * 2^j]. *)
Lemma scale2_spec (a b j : Z) :
  0 < b ->
  let '(n, d) := scale2 a b j in
  0 < d /\ ((0 <= j /\ n = a * 2 ^ j /\ d = b)
            \/ (j < 0 /\ n = a /\ d = b * 2 ^ (- j))).
Proof.
  intros Hb. unfold scale2. destruct (0 <=? j) eqn:Hj.
  - apply Z.leb_le in Hj. split; [lia|]. left. auto.
  - apply Z.leb_gt in Hj.
    assert (0 < 2 ^ (- j)) by (apply Z.pow_pos_nonneg; lia).
    split; [nia|]. right. auto.
Qed.

(** Shifting by one place halves the fraction. *)
Lemma scale2_pred (a b j : Z) :
  0 < b ->
  let '(n, d) := scale2 a b j in
  let '(n', d') := scale2 a b (j - 1) in
  n * d' = 2 * n' * d.
Proof.
  intros Hb. unfold scale2.
  destruct (0 <=? j) eqn:Hj; destruct (0 <=? j - 1) eqn:Hj'.
  - apply Z.leb_le in Hj'. replace j with (j - 1 + 1) at 1 by lia.
    rewrite Z.pow_add_r by lia. lia.
  - apply Z.leb_le in Hj. apply Z.leb_gt in Hj'.
    assert (j = 0) as -> by lia. simpl. lia.
  - lia.
  - apply Z.leb_gt in Hj.
    replace (- (j - 1)) with (- j + 1) by lia.
    rewrite Z.pow_add_r by lia. lia.
Qed.

(** At the first guess of the exponent the quotient has 53 or 54 bits. *)
Lemma first_guess (a b : Z) :
  0 < a -> 0 < b ->
  let '(n, d) := scale2 a b (0 - (Z.log2 a - Z.log2 b + 0 - prec)) in
  2 ^ 52 * d <= n < 2 ^ 54 * d.
Proof.
  intros Ha Hb.
  pose proof (log2_bounds a Ha) as Hla. pose proof (log2_bounds b Hb) as Hlb.
  pose proof (Z.log2_nonneg a) as Hla0. pose proof (Z.log2_nonneg b) as Hlb0.
  unfold prec. set (la := Z.log2 a) in *. set (lb := Z.log2 b) in *.
  clearbody la lb.
  rewrite !Z.pow_add_r in Hla, Hlb by lia. change (2 ^ 1) with 2 in *.
  pose proof (scale2_spec a b (0 - (la - lb + 0 - 53)) Hb) as Hs.
  destruct (scale2 a b _) as [n d].
  destruct Hs as [Hd [(Hj & -> & ->)|(Hj & -> & ->)]].
  - replace (0 - (la - lb + 0 - 53)) with (lb + 53 - la) in * by lia.
    assert (Hp : 2 ^ la * 2 ^ (lb + 53 - la) = 2 ^ lb * 2 ^ 53).
    { rewrite <- !Z.pow_add_r by lia. f_equal. lia. }
    assert (0 < 2 ^ (lb + 53 - la)) by (apply Z.pow_pos_nonneg; lia).
    change (2 ^ 52) with 4503599627370496.
    change (2 ^ 54) with 18014398509481984.
    change (2 ^ 53) with 9007199254740992 in Hp. nia.
  - replace (- (0 - (la - lb + 0 - 53))) with (la - lb - 53) in * by lia.
    assert (Hp : 2 ^ lb * 2 ^ 53 * 2 ^ (la - lb - 53) = 2 ^ la).
    { rewrite <- !Z.pow_add_r by lia. f_equal. lia. }
    assert (0 < 2 ^ (la - lb - 53)) by (apply Z.pow_pos_nonneg; lia).
    change (2 ^ 52) with 4503599627370496.
    change (2 ^ 54) with 18014398509481984.
    change (2 ^ 53) with 9007199254740992 in Hp. nia.
Qed.

(** The exponent [ulp_exponent] settles on for [a / b * 2^k], before it
    is held at [emin]: the quotient scaled by it has exactly 53 bits, and
    the scale [k] moves the exponent and nothing else. *)
Lemma scaled_exponent (a b k : Z) :
  0 < a -> 0 < b ->
  exists e1,
    ulp_exponent a b k = Z.max (e1 + k) emin
    /\ Z.log2 a - Z.log2 b - 53 <= e1 <= Z.log2 a - Z.log2 b - 52
    /\ let '(n, d) := scale2 a b (0 - e1) in
       0 < d /\ 2 ^ 52 * d <= n < 2 ^ 53 * d.
Proof.
  intros Ha Hb. unfold ulp_exponent.
  pose proof (first_guess a b Ha Hb) as Hg.
  replace (k - (Z.log2 a - Z.log2 b + k - prec))
    with (0 - (Z.log2 a - Z.log2 b + 0 - prec)) by lia.
  replace (Z.log2 a - Z.log2 b + k - prec)
    with (Z.log2 a - Z.log2 b + 0 - prec + k) by lia.
  set (e0 := Z.log2 a - Z.log2 b + 0 - prec) in *.
  assert (He0 : e0 = Z.log2 a - Z.log2 b - 53) by (unfold e0, prec; lia).
  clearbody e0.
  pose proof (scale2_pred a b (0 - e0) Hb) as Hp.
  pose proof (scale2_spec a b (0 - e0) Hb) as Hs.
  pose proof (scale2_spec a b (0 - e0 - 1) Hb) as Hs'.
  destruct (scale2 a b (0 - e0)) as [n d] eqn:Hsc.
  destruct Hs as [Hd _].
  change (2 ^ prec) with 9007199254740992.
  change (2 ^ 52) with 4503599627370496 in *.
  change (2 ^ 53) with 9007199254740992.
  change (2 ^ 54) with 18014398509481984 in *.
  destruct (n / d <? 9007199254740992) eqn:Hq.
  - apply Z.ltb_lt in Hq. exists e0. split; [reflexivity|]. split; [lia|].
    rewrite Hsc. split; [exact Hd|]. split; [lia|].
    destruct (Z.lt_ge_cases n (9007199254740992 * d)) as [|Hge]; [assumption|].
    assert (9007199254740992 <= n / d)
      by (apply Z.div_le_lower_bound; lia).
    lia.
  - apply Z.ltb_ge in Hq. exists (e0 + 1).
    split; [f_equal; lia|]. split; [lia|].
    replace (0 - (e0 + 1)) with (0 - e0 - 1) by lia.
    destruct (scale2 a b (0 - e0 - 1)) as [n' d'].
    destruct Hs' as [Hd' _]. split; [exact Hd'|].
    pose proof (Z.mul_div_le n d Hd).
    assert (Hn : 9007199254740992 * d <= n) by nia.
    assert (H1 : 9007199254740992 * d' * d <= n * d') by nia.
    assert (H2 : n * d' < 18014398509481984 * d' * d) by nia.
    rewrite Hp in H1, H2. split.
    + apply (Z.mul_le_mono_pos_r _ _ (2 * d)); lia.
    + apply (Z.mul_lt_mono_pos_r (2 * d)); lia.
Qed.

(** The exponent [ulp_exponent] settles on, before it is held at [emin]:
    the quotient scaled by it has exactly 53 bits. *)
Lemma normal_exponent (a b : Z) :
  0 < a -> 0 < b ->
  exists e1,
    ulp_exponent a b 0 = Z.max e1 emin
    /\ Z.log2 a - Z.log2 b - 53 <= e1 <= Z.log2 a - Z.log2 b - 52
    /\ let '(n, d) := scale2 a b (0 - e1) in
       0 < d /\ 2 ^ 52 * d <= n < 2 ^ 53 * d.
Proof.
  intros Ha Hb.
  destruct (scaled_exponent a b 0 Ha Hb) as (e1 & Hulp & Hrest).
  exists e1. rewrite Z.add_0_r in Hulp. auto.
Qed.

(** Rounding a quotient of 53 bits: the result has 53 bits, or is [2^53]
    exactly when the quotient is within half a unit of it. *)
Lemma div_half_even_top (n d : Z) :
  0 < d -> 2 ^ 52 * d <= n < 2 ^ 53 * d ->
  2 ^ 52 <= div_half_even n d <= 2 ^ 53
  /\ (div_half_even n d = 2 ^ 53 <-> (2 ^ 54 - 1) * d <= 2 * n).
Proof.
  change (2 ^ 52) with 4503599627370496.
  change (2 ^ 53) with 9007199254740992.
  change (2 ^ 54 - 1) with 18014398509481983.
  intros Hd Hn. unfold div_half_even.
  pose proof (Z.div_mod n d ltac:(lia)) as Hdm.
  pose proof (Z.mod_pos_bound n d Hd) as Hr.
  assert (Hq1 : 4503599627370496 <= n / d)
    by (apply Z.div_le_lower_bound; lia).
  assert (Hq2 : n / d < 9007199254740992)
    by (apply Z.div_lt_upper_bound; lia).
  set (q := n / d) in *. set (r := n mod d) in *. clearbody q r. subst n.
  assert (Hcases : q = 9007199254740991 \/ q <= 9007199254740990) by lia.
  destruct (Z.compare_spec (2 * r) d) as [Hc|Hc|Hc].
  - destruct (Z.even q) eqn:He.
    + apply Z.even_spec in He as [k Hk].
      split; [lia|]. split; [lia|]. intros Hb. nia.
    + split; [lia|]. destruct Hcases as [->|Hle].
      * split; [intros _; nia|reflexivity].
      * split; [lia|]. intros Hb. nia.
  - split; [lia|]. split; [lia|]. intros Hb. nia.
  - split; [lia|]. destruct Hcases as [->|Hle].
    + split; [intros _; nia|reflexivity].
    + split; [lia|]. intros Hb. nia.
Qed.

Lemma pow2_split (e : Z) :
  (e <= 970 -> 0 <= e -> 0 < 2 ^ e <= 2 ^ 970)
  /\ (972 <= e -> 4 * 2 ^ 970 <= 2 ^ e).
Proof.
  split.
  - intros He He0. split; [apply Z.pow_pos_nonneg; lia|].
    apply Z.pow_le_mono_r; lia.
  - intros He. change 4 with (2 ^ 2). rewrite <- Z.pow_add_r by lia.
    apply Z.pow_le_mono_r; lia.
Qed.

(** The correctly rounded quotient of two positive integers is infinite
    exactly from [2^1024 - 2^970] on. *)
Lemma RN_infinite_iff (s : bool) (a b : Z) :
  0 < a -> 0 < b ->
  (is_infinite (RN s a b 0) = true <-> overflow_threshold * b <= a).
Proof.
  intros Ha Hb.
  assert (Hthr : overflow_threshold = 18014398509481983 * 2 ^ 970)
    by (vm_compute; reflexivity).
  assert (H971 : 2 ^ 971 = 2 * 2 ^ 970) by (vm_compute; reflexivity).
  assert (HK : 0 < 2 ^ 970) by (vm_compute; reflexivity).
  rewrite Hthr. remember (2 ^ 970) as K eqn:HKeq.
  destruct (normal_exponent a b Ha Hb) as (e1 & Hulp & He1 & Hnd).
  pose proof (scale2_spec a b (0 - e1) Hb) as Hs.
  change (2 ^ 52) with 4503599627370496 in *.
  change (2 ^ 53) with 9007199254740992 in *.
  destruct (Z.lt_ge_cases e1 0) as [Hneg|Hpos].
  - (* the quotient is below 2^53 *)
    assert (Hsmall : a < 9007199254740992 * b).
    { destruct (scale2 a b (0 - e1)) as [n d].
      destruct Hs as [_ [(Hj & -> & ->)|(Hj & _)]]; [|lia].
      assert (1 <= 2 ^ (0 - e1)) by (apply (Z.pow_le_mono_r 2 0); lia).
      nia. }
    split; [|intros Hge; nia].
    intros Hinf. exfalso.
    pose proof (round_pos_exponent_le a b) as Hexp.
    unfold RN in Hinf. replace (a =? 0) with false in Hinf by lia.
    destruct (round_pos a b 0) as [m e]. simpl in Hexp.
    unfold emin, emax, prec in *.
    destruct m; try discriminate.
    replace (e <=? 1024 - 53) with true in Hinf by lia. discriminate.
  - unfold RN. replace (a =? 0) with false by lia.
    unfold round_pos. rewrite Hulp.
    change (2 ^ prec) with 9007199254740992.
    change (2 ^ (prec - 1)) with 4503599627370496.
    change (emax - prec) with 971. unfold emin, emax, prec.
    replace (Z.max e1 (3 - 1024 - 53)) with e1 by lia.
    destruct (scale2 a b (0 - e1)) as [n d].
    assert (Hn : n = a /\ d = b * 2 ^ e1).
    { destruct Hs as [_ [(Hj & -> & ->)|(Hj & -> & ->)]].
      - assert (e1 = 0) as -> by lia. simpl. lia.
      - split; [reflexivity|]. f_equal. f_equal. lia. }
    destruct Hn as [-> ->]. destruct Hnd as [Hd Hnd].
    pose proof (div_half_even_top a (b * 2 ^ e1) Hd) as Htop.
    change (2 ^ 52) with 4503599627370496 in Htop.
    change (2 ^ 53) with 9007199254740992 in Htop.
    change (2 ^ 54 - 1) with 18014398509481983 in Htop.
    destruct (Htop Hnd) as [Hm Hiff]. clear Htop.
    pose proof (pow2_split e1) as [Hlow Hhigh]. rewrite <- HKeq in Hlow, Hhigh.
    set (m := div_half_even a (b * 2 ^ e1)) in *. clearbody m.
    set (P := 2 ^ e1) in *.
    destruct (Z.eqb_spec m 9007199254740992) as [Hm53|Hm53].
    + (* the mantissa carried into the next exponent *)
      simpl. destruct (e1 + 1 <=? 971) eqn:Hle; simpl.
      * apply Z.leb_le in Hle. split; [discriminate|]. intros Hge.
        destruct Hlow as [HP0 HP]; [lia|lia|]. nia.
      * apply Z.leb_gt in Hle. split; [intros _|reflexivity].
        apply Hiff in Hm53.
        assert (e1 = 971 \/ 972 <= e1) as [->|He] by lia.
        -- subst P. rewrite H971 in Hm53. nia.
        -- specialize (Hhigh He). nia.
    + destruct m as [|p|p]; [lia| |lia].
      destruct (e1 <=? 971) eqn:Hle; simpl.
      * apply Z.leb_le in Hle. split; [discriminate|]. intros Hge.
        assert (Hno : ~ 18014398509481983 * (b * P) <= 2 * a)
          by (intros Hx; apply Hiff in Hx; lia).
        assert (e1 = 971 \/ e1 <= 970) as [->|He] by lia.
        -- subst P. rewrite H971 in Hno. nia.
        -- destruct Hlow as [HP0 HP]; [lia|lia|]. nia.
      * apply Z.leb_gt in Hle. split; [intros _|reflexivity].
        specialize (Hhigh ltac:(lia)). nia.
Qed.

(** [div_half_even n d] is the integer nearest to [n / d], a tie going
    to the even one. *)
Lemma div_half_even_nearest (n d : Z) :
  0 < d -> nearest_even n d (div_half_even n d).
Proof.
  intros Hd. split; [now apply div_half_even_near|].
  unfold div_half_even.
  pose proof (Z.div_mod n d ltac:(lia)) as Hdm.
  pose proof (Z.mod_pos_bound n d Hd) as Hr.
  set (q := n / d) in *. set (r := n mod d) in *. clearbody q r. subst n.
  destruct (Z.compare_spec (2 * r) d) as [Hc|Hc|Hc].
  - intros _. destruct (Z.even q) eqn:He; [exact He|].
    rewrite Z.even_add, He. reflexivity.
  - intros Htie. exfalso. lia.
  - intros Htie. exfalso. lia.
Qed.

(** Only one integer is nearest. *)
Lemma nearest_even_unique (n d t1 t2 : Z) :
  0 < d -> nearest_even n d t1 -> nearest_even n d t2 -> t1 = t2.
Proof.
  intros Hd [H1 E1] [H2 E2].
  assert (Hclose : t1 = t2 \/ t1 = t2 + 1 \/ t2 = t1 + 1) by nia.
  destruct Hclose as [?|[->| ->]]; [assumption| |]; exfalso.
  - assert (Ht1 : 2 * Z.abs (n - (t2 + 1) * d) = d) by nia.
    assert (Ht2 : 2 * Z.abs (n - t2 * d) = d) by nia.
    specialize (E1 Ht1). specialize (E2 Ht2).
    rewrite Z.even_add, E2 in E1. discriminate.
  - assert (Ht1 : 2 * Z.abs (n - (t1 + 1) * d) = d) by nia.
    assert (Ht2 : 2 * Z.abs (n - t1 * d) = d) by nia.
    specialize (E1 Ht2). specialize (E2 Ht1).
    rewrite Z.even_add, E1 in E2. discriminate.
Qed.

(** In the normal range [round_pos] rounds the 53 bits of the quotient
    to the nearest integer and carries into the next exponent when that
    is [2^53]. *)
Lemma round_pos_scaled (a b k : Z) :
  0 < a -> 0 < b ->
  exists e1 n d,
    scale2 a b (0 - e1) = (n, d)
    /\ 0 < d /\ 2 ^ 52 * d <= n < 2 ^ 53 * d
    /\ Z.log2 a - Z.log2 b - 53 <= e1 <= Z.log2 a - Z.log2 b - 52
    /\ (emin <= e1 + k ->
        round_pos a b k
        = if div_half_even n d =? 2 ^ 53 then (2 ^ 52, e1 + k + 1)
          else (div_half_even n d, e1 + k)).
Proof.
  intros Ha Hb.
  destruct (scaled_exponent a b k Ha Hb) as (e1 & Hulp & He1 & Hnd).
  destruct (scale2 a b (0 - e1)) as [n d] eqn:Hsc.
  destruct Hnd as [Hd Hn].
  exists e1, n, d. split; [exact Hsc|]. split; [exact Hd|].
  split; [exact Hn|]. split; [exact He1|].
  intros Hmin. unfold round_pos. rewrite Hulp.
  replace (Z.max (e1 + k) emin) with (e1 + k) by lia.
  replace (k - (e1 + k)) with (0 - e1) by lia. rewrite Hsc.
  reflexivity.
Qed.

(** In the normal range, and short of the largest double, [RN] returns
    the nearest double. *)
Lemma RN_nearest (s : bool) (a b k : Z) :
  0 < a -> 0 < b -> emin <= Z.log2 a - Z.log2 b - 53 + k ->
  is_infinite (RN s a b k) = false ->
  nearest_double s a b k (RN s a b k).
Proof.
  intros Ha Hb Hnormal.
  destruct (round_pos_scaled a b k Ha Hb)
    as (e1 & n & d & Hsc & Hd & Hn & He1 & Hround).
  specialize (Hround ltac:(lia)).
  destruct (div_half_even_top n d Hd Hn) as [Hm _].
  pose proof (div_half_even_nearest n d Hd) as Hnear.
  pose proof (scale2_spec a b (0 - e1) Hb) as Hs. rewrite Hsc in Hs.
  unfold RN. replace (a =? 0) with false by lia. rewrite Hround.
  set (t := div_half_even n d) in *. clearbody t.
  intros Hfin.
  assert (Hfrac : exists p q, 0 <= p /\ 0 <= q /\ p - q = k - (e1 + k)
                              /\ n = a * 2 ^ p /\ d = b * 2 ^ q).
  { destruct Hs as [_ [(Hj & -> & ->)|(Hj & -> & ->)]].
    - exists (0 - e1), 0. rewrite Z.mul_1_r. repeat split; lia.
    - exists 0, (- (0 - e1)). rewrite Z.mul_1_r. repeat split; lia. }
  destruct Hfrac as (p & q & Hp & Hq & Hpq & -> & ->).
  exists (e1 + k), t, p, q.
  split; [exact Hp|]. split; [exact Hq|]. split; [exact Hpq|].
  split; [exact Hn|]. split; [exact Hnear|].
  unfold emin, emax, prec in *.
  change (2 ^ 52) with 4503599627370496 in *.
  change (2 ^ 53) with 9007199254740992 in *.
  destruct (Z.eqb_spec t 9007199254740992) as [Ht|Ht].
  - cbn iota beta in Hfin |- *.
    destruct (e1 + k + 1 <=? 1024 - 53) eqn:Hle; [|discriminate].
    apply Z.leb_le in Hle.
    replace (e1 + k + 1 - (e1 + k)) with 1 by lia.
    split; [reflexivity|]. split; [lia|]. split; [lia|].
    split; [rewrite Ht; reflexivity|lia].
  - destruct t as [|m|m]; [lia| |lia].
    cbn iota beta in Hfin |- *.
    destruct (e1 + k <=? 1024 - 53) eqn:Hle; [|discriminate].
    apply Z.leb_le in Hle.
    replace (e1 + k - (e1 + k)) with 0 by lia.
    split; [reflexivity|]. split; [lia|]. split; [lia|].
    split; [lia|lia].
Qed.

(** The nearest integer depends on the fraction, not on how it is
    written. *)
Lemma nearest_even_fraction (n d n' d' t : Z) :
  0 < d -> 0 < d' -> n * d' = n' * d ->
  nearest_even n d t -> nearest_even n' d' t.
Proof.
  intros Hd Hd' Hfrac [Hnear Htie].
  assert (Hscale : Z.abs (n' - t * d') * d = Z.abs (n - t * d) * d').
  { rewrite <- (Z.abs_eq d) at 1 by lia.
    rewrite <- (Z.abs_eq d') at 2 by lia.
    rewrite <- !Z.abs_mul. f_equal. lia. }
  split.
  - apply (Z.mul_le_mono_pos_r _ _ d); [exact Hd|]. nia.
  - intros Heq. apply Htie.
    apply (Z.mul_cancel_r _ _ d'); [lia|]. nia.
Qed.

(** The exponent at which a fraction has 53 bits is the only one. *)
Lemma binade_unique (a b p1 q1 p2 q2 : Z) :
  0 < a -> 0 < b -> 0 <= p1 -> 0 <= q1 -> 0 <= p2 -> 0 <= q2 ->
  2 ^ 52 * (b * 2 ^ q1) <= a * 2 ^ p1 < 2 ^ 53 * (b * 2 ^ q1) ->
  2 ^ 52 * (b * 2 ^ q2) <= a * 2 ^ p2 < 2 ^ 53 * (b * 2 ^ q2) ->
  p1 - q1 <= p2 - q2.
Proof.
  intros Ha Hb Hp1 Hq1 Hp2 Hq2 [_ Hup] [Hlow _].
  destruct (Z_le_gt_dec (p1 - q1) (p2 - q2)) as [|Hgt]; [assumption|].
  exfalso.
  set (D := p1 - q1 - (p2 - q2)) in *.
  assert (HD : 2 <= 2 ^ D)
    by (change 2 with (2 ^ 1) at 1; apply Z.pow_le_mono_r; lia).
  assert (Hpow : 2 ^ p1 * 2 ^ q2 = 2 ^ p2 * 2 ^ q1 * 2 ^ D).
  { rewrite <- !Z.pow_add_r by lia. f_equal. lia. }
  assert (0 < 2 ^ q1) by (apply Z.pow_pos_nonneg; lia).
  assert (0 < 2 ^ q2) by (apply Z.pow_pos_nonneg; lia).
  assert (0 < 2 ^ p1) by (apply Z.pow_pos_nonneg; lia).
  assert (0 < 2 ^ p2) by (apply Z.pow_pos_nonneg; lia).
  change (2 ^ 52) with 4503599627370496 in *.
  change (2 ^ 53) with 9007199254740992 in *.
  assert (F1 : a * 2 ^ p1 * 2 ^ q2 < 9007199254740992 * (b * 2 ^ q1) * 2 ^ q2)
    by (apply Z.mul_lt_mono_pos_r; assumption).
  assert (F2 : 4503599627370496 * (b * 2 ^ q2) * 2 ^ q1 * 2 ^ D
               <= a * 2 ^ p2 * 2 ^ q1 * 2 ^ D).
  { apply Z.mul_le_mono_nonneg_r; [lia|].
    apply Z.mul_le_mono_nonneg_r; [lia|]. exact Hlow. }
  assert (F3 : a * 2 ^ p1 * 2 ^ q2 = a * 2 ^ p2 * 2 ^ q1 * 2 ^ D).
  { rewrite <- !Z.mul_assoc. f_equal. rewrite Hpow. lia. }
  assert (0 < b * 2 ^ q1 * 2 ^ q2) by nia.
  nia.
Qed.

(** Only one double is nearest. *)
Lemma nearest_double_unique (s : bool) (a b k : Z) (f1 f2 : spec_float) :
  0 < a -> 0 < b ->
  nearest_double s a b k f1 -> nearest_double s a b k f2 -> f1 = f2.
Proof.
  intros Ha Hb (u1 & t1 & p1 & q1 & Hp1 & Hq1 & Hu1 & Hb1 & Hn1 & Hf1)
    (u2 & t2 & p2 & q2 & Hp2 & Hq2 & Hu2 & Hb2 & Hn2 & Hf2).
  pose proof (binade_unique a b p1 q1 p2 q2 Ha Hb Hp1 Hq1 Hp2 Hq2 Hb1 Hb2).
  pose proof (binade_unique a b p2 q2 p1 q1 Ha Hb Hp2 Hq2 Hp1 Hq1 Hb2 Hb1).
  assert (u2 = u1) by lia. subst u2.
  assert (0 < 2 ^ q1) by (apply Z.pow_pos_nonneg; lia).
  assert (0 < 2 ^ q2) by (apply Z.pow_pos_nonneg; lia).
  assert (Hpow : 2 ^ p1 * 2 ^ q2 = 2 ^ p2 * 2 ^ q1).
  { rewrite <- !Z.pow_add_r by lia. f_equal. lia. }
  assert (Ht : t1 = t2).
  { apply (nearest_even_unique (a * 2 ^ p1) (b * 2 ^ q1)); [nia|exact Hn1|].
    apply (nearest_even_fraction (a * 2 ^ p2) (b * 2 ^ q2)); [nia|nia| |exact Hn2].
    rewrite <- !Z.mul_assoc. f_equal.
    rewrite (Z.mul_comm b), (Z.mul_comm b), !Z.mul_assoc. f_equal.
    lia. }
  subst t2.
  destruct f1 as [| | |s1 m1 e1]; try (destruct Hf1; fail).
  destruct f2 as [| | |s2 m2 e2]; try (destruct Hf2; fail).
  destruct Hf1 as (-> & Hm1 & He1 & Ht1 & _).
  destruct Hf2 as (-> & Hm2 & He2 & Ht2 & _).
  change (2 ^ 52) with 4503599627370496 in *.
  change (2 ^ 53) with 9007199254740992 in *.
  assert (Hexp : forall m m' e e' : Z,
            4503599627370496 <= m < 9007199254740992 ->
            4503599627370496 <= m' < 9007199254740992 ->
            u1 <= e -> u1 <= e' ->
            m * 2 ^ (e - u1) = m' * 2 ^ (e' - u1) -> e <= e').
  { intros m m' e e' Hm Hm' He He' Heq.
    destruct (Z_le_gt_dec e e') as [|Hgt]; [assumption|]. exfalso.
    replace (e - u1) with (e' - u1 + (e - e')) in Heq by lia.
    rewrite Z.pow_add_r in Heq by lia.
    assert (0 < 2 ^ (e' - u1)) by (apply Z.pow_pos_nonneg; lia).
    assert (2 <= 2 ^ (e - e'))
      by (change 2 with (2 ^ 1) at 1; apply Z.pow_le_mono_r; lia).
    assert (Hcancel : m * 2 ^ (e - e') = m').
    { apply (Z.mul_cancel_r _ _ (2 ^ (e' - u1))); [lia|].
      rewrite <- Heq. ring. }
    nia. }
  assert (e1 = e2).
  { apply Z.le_antisymm;
      [apply (Hexp (Z.pos m1) (Z.pos m2))|apply (Hexp (Z.pos m2) (Z.pos m1))];
      try assumption; congruence. }
  subst e2.
  assert (0 < 2 ^ (e1 - u1)) by (apply Z.pow_pos_nonneg; lia).
  assert (Z.pos m1 = Z.pos m2) by nia.
  congruence.
Qed.

(** Only one integer is nearest to a double. *)
Lemma nearest_integer_unique (f : spec_float) (r1 r2 : Z) :
  nearest_integer f r1 -> nearest_integer f r2 -> r1 = r2.
Proof.
  destruct f as [[]|[]| |[] m e]; cbn [nearest_integer];
    try (intros []; fail); [congruence|].
  intros (p1 & q1 & Hp1 & Hq1 & He1 & Hn1) (p2 & q2 & Hp2 & Hq2 & He2 & Hn2).
  assert (0 < 2 ^ q1) by (apply Z.pow_pos_nonneg; lia).
  assert (0 < 2 ^ q2) by (apply Z.pow_pos_nonneg; lia).
  apply (nearest_even_unique (Z.pos m * 2 ^ p1) (2 ^ q1)); [lia|exact Hn1|].
  apply (nearest_even_fraction (Z.pos m * 2 ^ p2) (2 ^ q2));
    [lia|lia| |exact Hn2].
  rewrite <- !Z.mul_assoc. f_equal.
  rewrite <- !Z.pow_add_r by lia. f_equal. lia.
Qed.

End FloatFacts.

Module StrFacts.

Lemma uint_digits (u : Decimal.uint) :
  PyStr.all_chars PyStr.is_digit (NilEmpty.string_of_uint u) = true.
Proof. induction u; simpl; auto. Qed.

(** [str] of a natural number is a run of digits. *)
Lemma str_digits (n : Z) :
  0 <= n -> PyStr.all_chars PyStr.is_digit (PyStr.str n) = true.
Proof.
  intros Hn. unfold PyStr.str. destruct n as [|p|p]; [reflexivity| |lia].
  simpl. unfold NilZero.string_of_uint.
  pose proof (uint_digits (Pos.to_uint p)).
  destruct (Pos.to_uint p); auto.
Qed.

(** [str] of a negative number is a minus sign and the digits of its
    absolute value. *)
Lemma str_negative (n : Z) :
  n < 0 -> PyStr.str n = String "-" (PyStr.str (- n)).
Proof. intros Hn. destruct n as [|p|p]; [lia|lia|reflexivity]. Qed.

Lemma all_chars_app (p : ascii -> bool) (s t : string) :
  PyStr.all_chars p (s +:+ t)
  = PyStr.all_chars p s && PyStr.all_chars p t.
Proof.
  induction s as [|c s IH]; [reflexivity|].
  change (String c s +:+ t) with (String c (s +:+ t)).
  simpl. rewrite IH. apply andb_assoc.
Qed.

(** A double that is not negative prints, with no decimals, as a run of
    digits. *)
Lemma fixed0_digits (f : spec_float) :
  match f with
  | S754_zero false | S754_finite false _ _ => True
  | _ => False
  end ->
  PyStr.all_chars PyStr.is_digit (fixed 0 f) = true.
Proof.
  assert (Hd : forall n d, 0 <= n -> 0 < d ->
            PyStr.all_chars PyStr.is_digit (fixed_digits 0 false n d) = true).
  { intros n d Hn Hd. unfold fixed_digits.
    change (10 ^ Z.of_nat 0) with 1. rewrite Z.mul_1_r, Z.div_1_r.
    rewrite !all_chars_app. simpl. rewrite andb_true_r.
    apply str_digits.
    pose proof (FloatFacts.div_half_even_bounds n d Hd).
    assert (0 <= n / d) by (apply Z.div_pos; lia). lia. }
  destruct f as [[]|[]| |[] m e]; intros Hf; try (destruct Hf; fail).
  - apply (Hd 0 1); lia.
  - unfold fixed, scale2.
    assert (0 < 2 ^ (- e) \/ 0 <= e) as Hp.
    { destruct (Z.le_gt_cases 0 e); [auto|left].
      apply Z.pow_pos_nonneg; lia. }
    assert (0 <= 2 ^ e) by (apply Z.pow_nonneg; lia).
    destruct (0 <=? e) eqn:He; apply Hd; nia.
Qed.

Lemma append_empty (s : string) : s +:+ "" = s.
Proof.
  induction s as [|c s IH]; [reflexivity|].
  change (String c s +:+ "") with (String c (s +:+ "")). now rewrite IH.
Qed.

(** With no decimals a double that is not negative prints as the integer
    nearest to it, a tie going to the even one. *)
Lemma fixed0_nearest (f : spec_float) :
  match f with
  | S754_zero false | S754_finite false _ _ => True
  | _ => False
  end ->
  exists r, 0 <= r /\ nearest_integer f r /\ fixed 0 f = PyStr.str r.
Proof.
  assert (Hd : forall n d, 0 <= n -> 0 < d ->
            fixed_digits 0 false n d = PyStr.str (div_half_even n d)
            /\ 0 <= div_half_even n d).
  { intros n d Hn Hd. unfold fixed_digits.
    change (10 ^ Z.of_nat 0) with 1. rewrite Z.mul_1_r, Z.div_1_r.
    change ("" +:+ PyStr.str (div_half_even n d) +:+ "")
      with (PyStr.str (div_half_even n d) +:+ "").
    rewrite append_empty. split; [reflexivity|].
    pose proof (FloatFacts.div_half_even_bounds n d Hd).
    assert (0 <= n / d) by (apply Z.div_pos; lia). lia. }
  destruct f as [[]|[]| |[] m e]; intros Hf; try (destruct Hf; fail).
  - exists 0. split; [lia|]. split; [reflexivity|]. vm_compute. reflexivity.
  - unfold fixed, scale2, nearest_integer.
    destruct (0 <=? e) eqn:He.
    + apply Z.leb_le in He.
      assert (0 <= 2 ^ e) by (apply Z.pow_nonneg; lia).
      destruct (Hd (Z.pos m * 2 ^ e) 1) as [Hstr Hr]; [nia|lia|].
      exists (div_half_even (Z.pos m * 2 ^ e) 1).
      split; [exact Hr|]. split; [|exact Hstr].
      exists e, 0. repeat split; try lia;
        change (2 ^ 0) with 1;
        apply FloatFacts.div_half_even_nearest; lia.
    + apply Z.leb_gt in He.
      assert (0 < 2 ^ (- e)) by (apply Z.pow_pos_nonneg; lia).
      destruct (Hd (Z.pos m) (1 * 2 ^ (- e))) as [Hstr Hr]; [lia|lia|].
      exists (div_half_even (Z.pos m) (1 * 2 ^ (- e))).
      split; [exact Hr|]. split; [|exact Hstr].
      exists 0, (- e). rewrite Z.mul_1_l.
      change (2 ^ 0) with 1. rewrite Z.mul_1_r.
      repeat split; try lia;
        apply FloatFacts.div_half_even_nearest; lia.
Qed.

End StrFacts.

(** ** Doubles in the normal range *)

Module RoundFacts.
Import FloatFacts.

Lemma ulp_exponent_le_scaled (a b k : Z) :
  ulp_exponent a b k <= Z.max (Z.log2 a - Z.log2 b + k - prec + 1) emin.
Proof.
  unfold ulp_exponent. destruct (scale2 _ _ _) as [n d].
  destruct (n / d <? 2 ^ prec); lia.
Qed.

Lemma round_pos_exponent_le_scaled (a b k : Z) :
  (round_pos a b k).2
  <= Z.max (Z.log2 a - Z.log2 b + k - prec + 1) emin + 1.
Proof.
  unfold round_pos. pose proof (ulp_exponent_le_scaled a b k).
  destruct (scale2 _ _ _) as [n d].
  destruct (_ =? _); simpl; lia.
Qed.

(** A quotient whose bit lengths and scale stay below the largest
    exponent rounds to no infinity. *)
Lemma RN_scaled_finite (s : bool) (a b k : Z) :
  Z.log2 a - Z.log2 b + k <= 1022 -> is_infinite (RN s a b k) = false.
Proof.
  intros Hk. unfold RN.
  destruct (a =? 0); [reflexivity|].
  pose proof (round_pos_exponent_le_scaled a b k) as He.
  destruct (round_pos a b k) as [m e]. simpl in He.
  destruct m; [reflexivity| |reflexivity].
  replace (e <=? emax - prec) with true; [reflexivity|].
  symmetry. apply Z.leb_le. unfold emin, emax, prec in *. lia.
Qed.

(** In the normal range the mantissa has 53 bits and the exponent
    follows the bit lengths. *)
Lemma round_pos_normal (a b : Z) :
  0 < a -> 0 < b -> emin <= Z.log2 a - Z.log2 b - 53 ->
  2 ^ 52 <= (round_pos a b 0).1 < 2 ^ 53
  /\ Z.log2 a - Z.log2 b - 53 <= (round_pos a b 0).2
     <= Z.log2 a - Z.log2 b - 51.
Proof.
  intros Ha Hb Hnormal.
  destruct (normal_exponent a b Ha Hb) as (e1 & Hulp & He1 & Hscale).
  unfold round_pos. rewrite Hulp.
  replace (Z.max e1 emin) with e1 by lia.
  destruct (scale2 a b (0 - e1)) as [n d]. destruct Hscale as [Hd Hn].
  destruct (div_half_even_top n d Hd Hn) as [Hm _].
  change (2 ^ prec) with (2 ^ 53). change (2 ^ (prec - 1)) with (2 ^ 52).
  destruct (Z.eqb_spec (div_half_even n d) (2 ^ 53)) as [Heq|Hne];
    cbn [fst snd]; lia.
Qed.

Lemma RN_normal (s : bool) (a b : Z) :
  0 < a -> 0 < b -> emin <= Z.log2 a - Z.log2 b - 53 ->
  Z.log2 a - Z.log2 b <= 1022 ->
  exists m e, RN s a b 0 = S754_finite s m e
              /\ Z.log2 (Zpos m) = 52
              /\ Z.log2 a - Z.log2 b - 53 <= e
                 <= Z.log2 a - Z.log2 b - 51.
Proof.
  intros Ha Hb Hnormal Hmax.
  destruct (round_pos_normal a b Ha Hb Hnormal) as [Hm He].
  unfold RN. replace (a =? 0) with false by lia.
  destruct (round_pos a b 0) as [m e]. cbn [fst snd] in Hm, He.
  destruct m as [|p|p]; try lia.
  replace (e <=? emax - prec) with true
    by (unfold emin, emax, prec in *; lia).
  exists p, e. split; [reflexivity|]. split; [|exact He].
  apply Z.log2_unique; [lia|]. change (Z.succ 52) with 53. exact Hm.
Qed.

(** A 64-bit integer other than zero is a double in the normal range. *)
Lemma float_of_int_normal (n : Z) :
  int64 n -> n <> 0 ->
  exists m e, float_of_int n = Ok (S754_finite (n <? 0) m e)
              /\ Z.log2 (Zpos m) = 52 /\ -53 <= e <= 12.
Proof.
  unfold int64. intros Hn Hn0.
  change (2 ^ 63) with 9223372036854775808 in Hn.
  assert (Hlog : Z.log2 (Z.abs n) < 64).
  { apply Z.log2_lt_pow2; [lia|].
    change (2 ^ 64) with 18446744073709551616. lia. }
  pose proof (Z.log2_nonneg (Z.abs n)) as Hl0.
  destruct (RN_normal (n <? 0) (Z.abs n) 1) as (m & e & HRN & Hm & He);
    try (change (Z.log2 1) with 0; unfold emin, emax, prec); try lia.
  exists m, e. unfold float_of_int. rewrite HRN. cbn [is_infinite].
  change (Z.log2 1) with 0 in He.
  split; [reflexivity|]. split; [exact Hm|lia].
Qed.

(** The hours of a positive number of minutes are a double in the normal
    range. *)
Lemma minutes_div_60_normal (minutes : Z) :
  0 < minutes -> int64 minutes ->
  exists m e, truediv (Int minutes) (Int 60) = Ok (S754_finite false m e)
              /\ Z.log2 (Zpos m) = 52 /\ -58 <= e <= 6.
Proof.
  unfold int64. intros Hpos Hm.
  change (2 ^ 63) with 9223372036854775808 in Hm.
  assert (Hlog : Z.log2 minutes < 63).
  { apply Z.log2_lt_pow2; [lia|].
    change (2 ^ 63) with 9223372036854775808. lia. }
  pose proof (Z.log2_nonneg minutes) as Hl0.
  destruct (RN_normal false minutes 60) as (m & e & HRN & Hlm & He);
    try (change (Z.log2 60) with 5; unfold emin, emax, prec); try lia.
  exists m, e. cbn [truediv]. unfold int_truediv.
  change (60 =? 0) with false. cbn iota.
  replace (minutes <? 0) with false by lia.
  change (60 <? 0) with false. cbn [xorb].
  rewrite Z.abs_eq by lia. change (Z.abs 60) with 60.
  rewrite HRN. cbn [is_infinite].
  change (Z.log2 60) with 5 in He.
  split; [reflexivity|]. split; [exact Hlm|lia].
Qed.

End RoundFacts.

(** ** The formatters *)

Section Formatting.
Import FloatFacts StrFacts.

(** The quotient of a natural number by a positive integer is a double
    that is not negative when it is below the threshold, and raises from
    the threshold on. *)
Lemma int_truediv_ok (a b : Z) :
  0 <= a < overflow_threshold * b -> 0 < b ->
  exists q, int_truediv a b = Ok q
            /\ PyStr.all_chars PyStr.is_digit (fixed 0 q) = true.
Proof.
  intros Ha Hb. unfold int_truediv.
  replace (b =? 0) with false by lia.
  replace (a <? 0) with false by lia. replace (b <? 0) with false by lia.
  rewrite Z.abs_eq, Z.abs_eq by lia. cbn [xorb].
  assert (Hfin : is_infinite (RN false a b 0) = false).
  { destruct (Z.eq_dec a 0) as [->|Hne]; [reflexivity|].
    destruct (is_infinite (RN false a b 0)) eqn:Hinf; [|reflexivity].
    apply RN_infinite_iff in Hinf; lia. }
  pose proof (RN_sign false a b) as Hsign.
  rewrite Hfin. eexists. split; [reflexivity|].
  apply fixed0_digits.
  destruct (RN false a b 0) as [s|s| |s m e]; subst; try tauto.
  discriminate.
Qed.

Lemma int_truediv_overflow (a b : Z) :
  0 < b -> overflow_threshold * b <= a ->
  int_truediv a b = Raise OverflowError.
Proof.
  intros Hb Ha. unfold int_truediv.
  assert (0 < overflow_threshold) by (vm_compute; reflexivity).
  assert (0 < a) by nia.
  replace (b =? 0) with false by lia.
  replace (a <? 0) with false by lia. replace (b <? 0) with false by lia.
  rewrite Z.abs_eq, Z.abs_eq by lia. cbn [xorb].
  rewrite (proj2 (RN_infinite_iff false a b ltac:(lia) Hb) Ha). reflexivity.
Qed.

Lemma threshold_large : 2 ^ 63 < overflow_threshold.
Proof. vm_compute. reflexivity. Qed.

Lemma format_money_below_1000 (x : Z) :
  x < 1000 -> format_money (Int x) = Ok (PyStr.str x).
Proof.
  intros Hx. unfold format_money, ge.
  replace (1000000000 <=? x) with false by lia.
  replace (1000000 <=? x) with false by lia.
  replace (1000 <=? x) with false by lia.
  reflexivity.
Qed.

Lemma format_hourly_below_1000 (x : Z) :
  x < 1000 -> format_hourly (Int x) = Ok (PyStr.str x).
Proof.
  intros Hx. unfold format_hourly, ge.
  replace (1000000 <=? x) with false by lia.
  replace (1000 <=? x) with false by lia.
  reflexivity.
Qed.

(** The unit [format_money] picks and what it prints in it. *)
Lemma format_money_cases (x : Z) :
  (x < 1000 -> format_money (Int x) = Ok (PyStr.str x))
  /\ (1000 <= x < 1000000 ->
      exists q, int_truediv x 1000 = Ok q
                /\ format_money (Int x) = Ok (fixed 0 q +:+ "K")
                /\ PyStr.all_chars PyStr.is_digit (fixed 0 q) = true)
  /\ (1000000 <= x < 1000000000 ->
      exists q, int_truediv x 1000000 = Ok q
                /\ format_money (Int x) = Ok (fixed 0 q +:+ "M")
                /\ PyStr.all_chars PyStr.is_digit (fixed 0 q) = true)
  /\ (1000000000 <= x < overflow_threshold * 1000000000 ->
      exists q, int_truediv x 1000000000 = Ok q
                /\ format_money (Int x) = Ok (fixed 0 q +:+ "G")
                /\ PyStr.all_chars PyStr.is_digit (fixed 0 q) = true).
Proof.
  pose proof threshold_large as Hthr.
  change (2 ^ 63) with 9223372036854775808 in Hthr.
  split; [apply format_money_below_1000|].
  split; [|split]; intros Hx.
  - destruct (int_truediv_ok x 1000) as (q & Hq & Hd); [lia|lia|].
    exists q. repeat split; [exact Hq| |exact Hd].
    unfold format_money, ge.
    replace (1000000000 <=? x) with false by lia.
    replace (1000000 <=? x) with false by lia.
    replace (1000 <=? x) with true by lia.
    cbn [truediv]. rewrite Hq. reflexivity.
  - destruct (int_truediv_ok x 1000000) as (q & Hq & Hd); [lia|lia|].
    exists q. repeat split; [exact Hq| |exact Hd].
    unfold format_money, ge.
    replace (1000000000 <=? x) with false by lia.
    replace (1000000 <=? x) with true by lia.
    cbn [truediv]. rewrite Hq. reflexivity.
  - destruct (int_truediv_ok x 1000000000) as (q & Hq & Hd); [lia|lia|].
    exists q. repeat split; [exact Hq| |exact Hd].
    unfold format_money, ge.
    replace (1000000000 <=? x) with true by lia.
    cbn [truediv]. rewrite Hq. reflexivity.
Qed.

(** The unit [format_hourly] picks and what it prints in it. *)
Lemma format_hourly_cases (x : Z) :
  (x < 1000 -> format_hourly (Int x) = Ok (PyStr.str x))
  /\ (1000 <= x < 1000000 ->
      exists q, int_truediv x 1000 = Ok q
                /\ format_hourly (Int x) = Ok (fixed 1 q +:+ "K"))
  /\ (1000000 <= x < overflow_threshold * 1000000 ->
      exists q, int_truediv x 1000000 = Ok q
                /\ format_hourly (Int x) = Ok (fixed 1 q +:+ "M")).
Proof.
  pose proof threshold_large as Hthr.
  change (2 ^ 63) with 9223372036854775808 in Hthr.
  split; [apply format_hourly_below_1000|].
  split; intros Hx.
  - destruct (int_truediv_ok x 1000) as (q & Hq & _); [lia|lia|].
    exists q. split; [exact Hq|].
    unfold format_hourly, ge.
    replace (1000000 <=? x) with false by lia.
    replace (1000 <=? x) with true by lia.
    cbn [truediv]. rewrite Hq. reflexivity.
  - destruct (int_truediv_ok x 1000000) as (q & Hq & _); [lia|lia|].
    exists q. split; [exact Hq|].
    unfold format_hourly, ge.
    replace (1000000 <=? x) with true by lia.
    cbn [truediv]. rewrite Hq. reflexivity.
Qed.

(** Past the threshold the division raises. *)
Lemma format_money_raises (x : Z) :
  overflow_threshold * 1000000000 <= x ->
  format_money (Int x) = Raise OverflowError.
Proof.
  intros Hx. pose proof threshold_large as Hthr.
  change (2 ^ 63) with 9223372036854775808 in Hthr.
  unfold format_money, ge.
  replace (1000000000 <=? x) with true by lia.
  cbn [truediv]. rewrite int_truediv_overflow by lia. reflexivity.
Qed.

Lemma format_hourly_raises (x : Z) :
  overflow_threshold * 1000000 <= x ->
  format_hourly (Int x) = Raise OverflowError.
Proof.
  intros Hx. pose proof threshold_large as Hthr.
  change (2 ^ 63) with 9223372036854775808 in Hthr.
  unfold format_hourly, ge.
  replace (1000000 <=? x) with true by lia.
  cbn [truediv]. rewrite int_truediv_overflow by lia. reflexivity.
Qed.

(** The quotient of two positive integers, the first the larger, is
    the double nearest to it, and prints with no decimals as the integer
    nearest to that double. *)
Lemma int_truediv_nearest (a b : Z) :
  0 < b -> b <= a < overflow_threshold * b ->
  exists q r,
    int_truediv a b = Ok q
    /\ nearest_double false a b 0 q
    /\ nearest_integer q r
    /\ fixed 0 q = PyStr.str r
    /\ PyStr.all_chars PyStr.is_digit (PyStr.str r) = true.
Proof.
  intros Hb Ha. unfold int_truediv.
  replace (b =? 0) with false by lia.
  replace (a <? 0) with false by lia. replace (b <? 0) with false by lia.
  rewrite Z.abs_eq, Z.abs_eq by lia. cbn [xorb].
  assert (Hfin : is_infinite (RN false a b 0) = false).
  { destruct (is_infinite (RN false a b 0)) eqn:Hinf; [|reflexivity].
    apply RN_infinite_iff in Hinf; lia. }
  assert (Hlog : Z.log2 b <= Z.log2 a) by (apply Z.log2_le_mono; lia).
  assert (Hnear : nearest_double false a b 0 (RN false a b 0)).
  { apply RN_nearest; [lia|lia| |exact Hfin]. unfold emin, emax, prec. lia. }
  rewrite Hfin.
  destruct (fixed0_nearest (RN false a b 0)) as (r & Hr & Hint & Hstr).
  { destruct Hnear as (u & t & p & q & _ & _ & _ & _ & _ & Hf).
    destruct (RN false a b 0) as [| | |s m e]; try (destruct Hf; fail).
    destruct Hf as [-> _]. exact I. }
  exists (RN false a b 0), r. split; [reflexivity|].
  split; [exact Hnear|]. split; [exact Hint|]. split; [exact Hstr|].
  apply str_digits. exact Hr.
Qed.

(** C4, as the program has it: [format_money] picks the unit by the
    thresholds [10^9] (G), [10^6] (M) and [10^3] (K), divides by it, which
    gives the double nearest to [x / unit], and prints with [.0f] the
    integer nearest to that double, a tie going to the even integer: a
    run of digits with no decimal point, and the letter of the unit.
    Below [10^3], down to the negative integers of 4300 digits, it
    prints the integer itself.  So 999 gives ["999"], 1500 gives ["2K"],
    2500000 gives ["2M"] and [10^9] gives ["1G"]. *)
Theorem format_money_thresholds (x : Z) :
  ((- 10 ^ 4300 < x < 1000 -> format_money (Int x) = Ok (PyStr.str x))
   /\ (1000 <= x < 1000000 ->
       exists q r, int_truediv x 1000 = Ok q
                   /\ nearest_double false x 1000 0 q
                   /\ nearest_integer q r
                   /\ format_money (Int x) = Ok (PyStr.str r +:+ "K")
                   /\ PyStr.all_chars PyStr.is_digit (PyStr.str r) = true)
   /\ (1000000 <= x < 1000000000 ->
       exists q r, int_truediv x 1000000 = Ok q
                   /\ nearest_double false x 1000000 0 q
                   /\ nearest_integer q r
                   /\ format_money (Int x) = Ok (PyStr.str r +:+ "M")
                   /\ PyStr.all_chars PyStr.is_digit (PyStr.str r) = true)
   /\ (1000000000 <= x < overflow_threshold * 1000000000 ->
       exists q r, int_truediv x 1000000000 = Ok q
                   /\ nearest_double false x 1000000000 0 q
                   /\ nearest_integer q r
                   /\ format_money (Int x) = Ok (PyStr.str r +:+ "G")
                   /\ PyStr.all_chars PyStr.is_digit (PyStr.str r) = true))
  /\ format_money (Int 999) = Ok "999"
  /\ format_money (Int 1500) = Ok "2K"
  /\ format_money (Int 2500000) = Ok "2M"
  /\ format_money (Int 1000000000) = Ok "1G".
Proof.
  pose proof threshold_large as Hthr.
  change (2 ^ 63) with 9223372036854775808 in Hthr.
  split; [|repeat split; vm_compute; reflexivity].
  split; [intros [_ Hx]; now apply format_money_below_1000|].
  split; [|split]; intros Hx.
  - destruct (int_truediv_nearest x 1000) as (q & r & Hq & Hn & Hr & Hs & Hd);
      [lia|lia|].
    exists q, r. repeat split; try assumption.
    unfold format_money, ge.
    replace (1000000000 <=? x) with false by lia.
    replace (1000000 <=? x) with false by lia.
    replace (1000 <=? x) with true by lia.
    cbn [truediv]. rewrite Hq. cbn [mbind result_bind]. now rewrite Hs.
  - destruct (int_truediv_nearest x 1000000)
      as (q & r & Hq & Hn & Hr & Hs & Hd); [lia|lia|].
    exists q, r. repeat split; try assumption.
    unfold format_money, ge.
    replace (1000000000 <=? x) with false by lia.
    replace (1000000 <=? x) with true by lia.
    cbn [truediv]. rewrite Hq. cbn [mbind result_bind]. now rewrite Hs.
  - destruct (int_truediv_nearest x 1000000000)
      as (q & r & Hq & Hn & Hr & Hs & Hd); [lia|lia|].
    exists q, r. repeat split; try assumption.
    unfold format_money, ge.
    replace (1000000000 <=? x) with true by lia.
    cbn [truediv]. rewrite Hq. cbn [mbind result_bind]. now rewrite Hs.
Qed.

(** C4, as stated, fails at 2500000: the quotient 2.5 is a tie and goes
    to the even 2, not to 3. *)
Lemma format_money_2500000 :
  format_money (Int 2500000) = Ok "2M"
  /\ format_money (Int 2500000) <> Ok "3M".
Proof. split; [vm_compute; reflexivity|vm_compute; discriminate]. Qed.

(** C10: on every integer a 64-bit column holds, the negative ones among
    them, [format_money] and [format_hourly] return a text; on a negative
    one every threshold fails and the text is [str(x)], a minus sign and
    the digits of [-x], with no letter of a unit, whatever the magnitude:
    -2500000 gives ["-2500000"]. *)
Theorem format_negative_plain (x : Z) :
  int64 x ->
  (exists s, format_money (Int x) = Ok s)
  /\ (exists s, format_hourly (Int x) = Ok s)
  /\ (x < 0 ->
      format_money (Int x) = Ok (PyStr.str x)
      /\ format_hourly (Int x) = Ok (PyStr.str x)
      /\ PyStr.str x = String "-" (PyStr.str (- x))
      /\ PyStr.all_chars PyStr.is_digit (PyStr.str (- x)) = true)
  /\ format_money (Int (-2500000)) = Ok "-2500000"
  /\ format_hourly (Int (-2500000)) = Ok "-2500000".
Proof.
  unfold int64. intros Hx.
  pose proof threshold_large as Hthr.
  change (2 ^ 63) with 9223372036854775808 in *.
  pose proof (format_money_cases x) as (M0 & M1 & M2 & M3).
  pose proof (format_hourly_cases x) as (H0 & H1 & H2).
  split; [|split; [|split; [|split; vm_compute; reflexivity]]].
  - destruct (Z.lt_ge_cases x 1000) as [Hlt|Hge]; [eauto|].
    destruct (Z.lt_ge_cases x 1000000) as [Hlt|Hge'].
    { destruct M1 as (q & _ & -> & _); [lia|]. eauto. }
    destruct (Z.lt_ge_cases x 1000000000) as [Hlt|Hge''].
    { destruct M2 as (q & _ & -> & _); [lia|]. eauto. }
    destruct M3 as (q & _ & -> & _); [lia|]. eauto.
  - destruct (Z.lt_ge_cases x 1000) as [Hlt|Hge]; [eauto|].
    destruct (Z.lt_ge_cases x 1000000) as [Hlt|Hge'].
    { destruct H1 as (q & _ & ->); [lia|]. eauto. }
    destruct H2 as (q & _ & ->); [lia|]. eauto.
  - intros Hneg. repeat split.
    + apply format_money_below_1000. lia.
    + apply format_hourly_below_1000. lia.
    + apply str_negative. exact Hneg.
    + apply str_digits. lia.
Qed.

(** The loss of a session that ended 2500000 below its start. *)
Lemma format_negative_plain_witness :
  int64 (-2500000)
  /\ (exists s, format_money (Int (-2500000)) = Ok s)
  /\ (exists s, format_hourly (Int (-2500000)) = Ok s)
  /\ (-2500000 < 0 ->
      format_money (Int (-2500000)) = Ok (PyStr.str (-2500000))
      /\ format_hourly (Int (-2500000)) = Ok (PyStr.str (-2500000))
      /\ PyStr.str (-2500000) = String "-" (PyStr.str (- -2500000))
      /\ PyStr.all_chars PyStr.is_digit (PyStr.str (- -2500000)) = true)
  /\ format_money (Int (-2500000)) = Ok "-2500000"
  /\ format_hourly (Int (-2500000)) = Ok "-2500000".
Proof.
  assert (Hfit : int64 (-2500000)) by (unfold int64; lia).
  split; [exact Hfit|]. exact (format_negative_plain (-2500000) Hfit).
Defined.

End Formatting.


(** ** The hourly rate *)

Section Hourly.
Import FloatFacts.

Lemma float_truediv_nonzero (x y : spec_float) :
  is_zero y = false -> exists q, float_truediv x y = Ok q.
Proof. destruct x, y; simpl; try discriminate; eauto. Qed.

(** What [minutes / 60] is for a positive count of minutes: a double that
    is not zero, unless the count is past the range of a double. *)
Lemma minutes_div_60 (minutes : Z) :
  0 < minutes ->
  truediv (Int minutes) (Int 60) = Raise OverflowError
  \/ exists h, truediv (Int minutes) (Int 60) = Ok h /\ is_zero h = false.
Proof.
  intros Hm. cbn [truediv]. unfold int_truediv.
  replace (60 =? 0) with false by reflexivity.
  replace (minutes <? 0) with false by lia. cbn [Z.ltb Z.compare xorb].
  rewrite Z.abs_eq by lia. change (Z.abs 60) with 60.
  destruct (is_infinite (RN false minutes 60 0)); [left; reflexivity|].
  right. eexists. split; [reflexivity|].
  apply RN_nonzero; [exact Hm|]. split; [lia|]. vm_compute. reflexivity.
Qed.

Lemma float_of_int_ok (n : Z) :
  - 2 ^ 1023 < n < 2 ^ 1023 -> exists f, float_of_int n = Ok f.
Proof.
  intros Hn. unfold float_of_int.
  rewrite RN_finite; [eauto|lia|lia].
Qed.

(** The hourly rate of one row. *)
Lemma hourly_rate_cases (d : string) (minutes money : Z) :
  (0 < minutes ->
     hourly_rate (d, minutes, money)
     = (h ← truediv (Int minutes) (Int 60);
        q ← truediv (Int money) (Float h); Ok (Float q)))
  /\ (0 < minutes ->
      forall h, truediv (Int minutes) (Int 60) = Ok h -> is_zero h = false)
  /\ (minutes <= 0 -> hourly_rate (d, minutes, money) = Ok (Int 0))
  /\ hourly_rate (d, minutes, money) <> Raise ZeroDivisionError
  /\ (int64 minutes -> int64 money ->
      exists h, hourly_rate (d, minutes, money) = Ok h).
Proof.
  pose proof threshold_large as H63. unfold int64.
  change (2 ^ 63) with 9223372036854775808 in *.
  assert (Hpos : 0 < minutes ->
            hourly_rate (d, minutes, money)
            = (h ← truediv (Int minutes) (Int 60);
               q ← truediv (Int money) (Float h); Ok (Float q))).
  { intros Hm. unfold hourly_rate.
    replace (0 <? minutes) with true by lia. reflexivity. }
  assert (Hneg : minutes <= 0 -> hourly_rate (d, minutes, money) = Ok (Int 0)).
  { intros Hm. unfold hourly_rate.
    replace (0 <? minutes) with false by lia. reflexivity. }
  split; [exact Hpos|]. split; [|split; [exact Hneg|split]].
  - intros Hm h Hh.
    destruct (minutes_div_60 minutes Hm) as [Hov|(h' & Hh' & Hz)];
      congruence.
  - destruct (Z.lt_ge_cases 0 minutes) as [Hm|Hm];
      [|rewrite Hneg by lia; discriminate].
    rewrite Hpos by exact Hm.
    destruct (minutes_div_60 minutes Hm) as [->|(h & -> & Hz)];
      [discriminate|].
    cbn [mbind result_bind truediv to_float].
    destruct (float_of_int money) as [f|e] eqn:Hf.
    + destruct (float_truediv_nonzero f h Hz) as (q & Hq).
      cbn [mbind result_bind]. rewrite Hq. discriminate.
    + unfold float_of_int in Hf.
      destruct (is_infinite _); [|discriminate].
      inversion Hf. discriminate.
  - intros Hm Hmoney.
    destruct (Z.lt_ge_cases 0 minutes) as [Hm0|Hm0];
      [|rewrite Hneg by lia; eauto].
    rewrite Hpos by lia.
    destruct (int_truediv_ok minutes 60) as (h & Hh & _); [lia|lia|].
    destruct (minutes_div_60 minutes) as [Hov|(h' & Hh' & Hz)]; [lia| |].
    { cbn [truediv] in Hov. congruence. }
    rewrite Hh'. cbn [mbind result_bind truediv to_float].
    destruct (float_of_int_ok money) as (f & ->); [lia|].
    destruct (float_truediv_nonzero f h' Hz) as (q & Hq).
    cbn [mbind result_bind]. rewrite Hq. eauto.
Qed.

(** No list of rows makes [hourly] divide by zero. *)
Lemma hourly_no_zero_division (rows : list (string * Z * Z)) :
  hourly rows <> Raise ZeroDivisionError.
Proof.
  induction rows as [|[[d minutes] money] rows IH]; [discriminate|].
  cbn [hourly].
  pose proof (hourly_rate_cases d minutes money) as (_ & _ & _ & Hz & _).
  destruct (hourly_rate (d, minutes, money)) as [h|e];
    cbn [mbind result_bind]; [|congruence].
  destruct (hourly rows) as [hs|e]; cbn [mbind result_bind];
    [discriminate|congruence].
Qed.

(** On rows of 64-bit values [hourly] returns a rate for each. *)
Lemma hourly_total (rows : list (string * Z * Z)) :
  Forall (fun r => int64 r.1.2 /\ int64 r.2) rows ->
  exists hs, hourly rows = Ok hs /\ length hs = length rows.
Proof.
  induction 1 as [|[[d minutes] money] rows [Hm Hmoney] _ IH].
  - exists []. auto.
  - destruct IH as (hs & Hhs & Hlen). cbn [hourly].
    pose proof (hourly_rate_cases d minutes money) as (_ & _ & _ & _ & Hok).
    destruct (Hok Hm Hmoney) as (h & ->).
    rewrite Hhs. cbn [mbind result_bind]. exists (h :: hs).
    simpl. auto.
Qed.

(** The rate of a day of 64-bit sums with a positive duration: each of
    the three steps gives the nearest double. *)
Lemma hourly_rate_nearest (minutes money : Z) :
  0 < minutes -> int64 minutes -> int64 money ->
  exists h q,
    truediv (Int minutes) (Int 60) = Ok h
    /\ truediv (Int money) (Float h) = Ok q
    /\ nearest_double false minutes 60 0 h
    /\ (money = 0 -> q = S754_zero false)
    /\ (money <> 0 ->
        exists f, float_of_int money = Ok f
                  /\ nearest_double (money <? 0) (Z.abs money) 1 0 f
                  /\ nearest_quotient f h q).
Proof.
  intros Hpos Hm Hmoney.
  destruct (RoundFacts.minutes_div_60_normal minutes Hpos Hm)
    as (mh & eh & Hh & Hlh & Heh).
  assert (Hhn : nearest_double false minutes 60 0 (S754_finite false mh eh)).
  { cbn [truediv] in Hh. unfold int_truediv in Hh.
    change (60 =? 0) with false in Hh. cbn iota in Hh.
    replace (minutes <? 0) with false in Hh by lia.
    change (60 <? 0) with false in Hh. cbn [xorb] in Hh.
    rewrite Z.abs_eq in Hh by lia. change (Z.abs 60) with 60 in Hh.
    destruct (is_infinite (RN false minutes 60 0)) eqn:Hfin; [discriminate|].
    injection Hh as <-.
    pose proof (Z.log2_nonneg minutes).
    apply RN_nearest; [lia|lia| |exact Hfin].
    change (Z.log2 60) with 5. unfold emin, emax, prec. lia. }
  exists (S754_finite false mh eh). rewrite Hh.
  cbn [truediv to_float mbind result_bind].
  destruct (Z.eq_dec money 0) as [->|Hne].
  - exists (S754_zero false). split; [reflexivity|]. split; [reflexivity|].
    split; [exact Hhn|]. split; [reflexivity|]. intros Hno. now destruct Hno.
  - destruct (RoundFacts.float_of_int_normal money Hmoney Hne)
      as (mm & em & Hf & Hlm & Hem).
    assert (Hfn : nearest_double (money <? 0) (Z.abs money) 1 0
                    (S754_finite (money <? 0) mm em)).
    { unfold float_of_int in Hf.
      destruct (is_infinite (RN (money <? 0) (Z.abs money) 1 0)) eqn:Hfin;
        [discriminate|].
      injection Hf as Hf. rewrite <- Hf.
      pose proof (Z.log2_nonneg (Z.abs money)).
      apply RN_nearest; [lia|lia| |exact Hfin].
      change (Z.log2 1) with 0. unfold emin, emax, prec. lia. }
    rewrite Hf. cbn [mbind result_bind float_truediv].
    eexists. split; [reflexivity|]. split; [reflexivity|].
    split; [exact Hhn|]. split; [intros H0; now destruct Hne|].
    intros _. exists (S754_finite (money <? 0) mm em).
    split; [reflexivity|]. split; [exact Hfn|].
    cbn [nearest_quotient].
    apply RN_nearest; [lia|lia|rewrite Hlm, Hlh; unfold emin, emax, prec; lia|].
    apply RoundFacts.RN_scaled_finite. rewrite Hlm, Hlh. lia.
Qed.

(** The list [hourly] holds, row for row, what [hourly_rate] returns. *)
Lemma hourly_lookup (rows : list (string * Z * Z)) :
  forall rates, hourly rows = Ok rates ->
    length rates = length rows
    /\ forall i r, rows !! i = Some r ->
         exists h, hourly_rate r = Ok h /\ rates !! i = Some h.
Proof.
  induction rows as [|r rows IH]; intros rates Hrates.
  - injection Hrates as <-. split; [reflexivity|]. intros i r Hi.
    destruct i; discriminate.
  - cbn [hourly] in Hrates.
    destruct (hourly_rate r) as [h|e] eqn:Hh; [|discriminate].
    destruct (hourly rows) as [hs|e]; [|discriminate].
    cbn [mbind result_bind] in Hrates. injection Hrates as <-.
    destruct (IH hs eq_refl) as [Hlen Hrows].
    split; [simpl; lia|]. intros [|i] r' Hi.
    + injection Hi as <-. eauto.
    + apply Hrows. exact Hi.
Qed.

(** C8: the list of rates of [plot_hourly] has one rate for each row of
    the aggregate, in the order of the rows.  For a row with a positive
    duration the rate is [earned / (duration / 60)] as Python divides:
    [duration / 60] is the double nearest to the quotient and is not zero,
    [earned] is taken to the double nearest to it, and the rate is the
    double nearest to the quotient of these two doubles (a zero for no
    earnings).  For a duration that is not positive, 0 among them, the
    rate is the integer 0 and nothing is divided.  So the list never
    raises [ZeroDivisionError]; it is computed from the rows of the
    aggregate alone, and on the values 64-bit columns hold every row has
    its rate. *)
Theorem hourly_rate_guarded (rows : list (string * Z * Z)) :
  hourly rows <> Raise ZeroDivisionError
  /\ (Forall (fun r => int64 r.1.2 /\ int64 r.2) rows ->
      exists rates, hourly rows = Ok rates)
  /\ (forall rates, hourly rows = Ok rates ->
        length rates = length rows
        /\ forall i d minutes money,
             rows !! i = Some (d, minutes, money) ->
             (minutes <= 0 -> rates !! i = Some (Int 0))
             /\ (0 < minutes ->
                 exists h q,
                   truediv (Int minutes) (Int 60) = Ok h
                   /\ is_zero h = false
                   /\ truediv (Int money) (Float h) = Ok q
                   /\ rates !! i = Some (Float q)
                   /\ (int64 minutes -> int64 money ->
                       nearest_double false minutes 60 0 h
                       /\ (money = 0 -> q = S754_zero false)
                       /\ (money <> 0 ->
                           exists f,
                             float_of_int money = Ok f
                             /\ nearest_double (money <? 0) (Z.abs money) 1 0 f
                             /\ nearest_quotient f h q)))).
Proof.
  split; [apply hourly_no_zero_division|]. split.
  - intros Hfit. destruct (hourly_total rows Hfit) as (hs & Hhs & _). eauto.
  - intros rates Hrates.
    destruct (hourly_lookup rows rates Hrates) as [Hlen Hrows].
    split; [exact Hlen|]. intros i d minutes money Hi.
    destruct (Hrows i _ Hi) as (rate & Hrate & Hlook).
    pose proof (hourly_rate_cases d minutes money) as (H1 & H2 & H3 & _).
    split.
    + intros Hle. rewrite (H3 Hle) in Hrate. injection Hrate as <-.
      exact Hlook.
    + intros Hpos. rewrite (H1 Hpos) in Hrate.
      destruct (truediv (Int minutes) (Int 60)) as [h|e] eqn:Hh;
        [|discriminate].
      cbn [mbind result_bind] in Hrate.
      destruct (truediv (Int money) (Float h)) as [q|e] eqn:Hq;
        [|discriminate].
      cbn [mbind result_bind] in Hrate. injection Hrate as <-.
      exists h, q. split; [reflexivity|].
      split; [exact (H2 Hpos h eq_refl)|].
      split; [exact Hq|]. split; [exact Hlook|].
      intros Hm Hmoney.
      destruct (hourly_rate_nearest minutes money Hpos Hm Hmoney)
        as (h' & q' & Hh' & Hq' & Hnear).
      rewrite Hh in Hh'. injection Hh' as <-.
      rewrite Hq in Hq'. injection Hq' as <-. exact Hnear.
Qed.

End Hourly.

(** ** The definitions at work *)

Section Running.
Import Reference.

Lemma sample_recorded : recorded Sample.db.
Proof.
  unfold Sample.db.
  repeat (apply add_session_recorded; [reflexivity|]). constructor.
Qed.

Example sample_daily_all :
  get_daily_data Sample.db all_months
  = Ok [("2024-05-01", 35, 54600); ("2024-05-17", 12, 8400);
        ("2024-06-02", 60, 0)].
Proof. vm_compute. reflexivity. Qed.

Example sample_daily_may :
  get_daily_data Sample.db "2024-05"
  = Ok [("2024-05-01", 35, 54600); ("2024-05-17", 12, 8400)].
Proof. vm_compute. reflexivity. Qed.

Example sample_months : get_available_months Sample.db = ["2024-06"; "2024-05"].
Proof. vm_compute. reflexivity. Qed.

(** The dates of the sample store parse to calendar dates of 2024. *)
Lemma sample_dates_parse (s : session) (dt : date) :
  s ∈ Sample.db -> strptime_Ymd (created_at s) = Some dt ->
  valid_date dt = true /\ 1000 <= year dt.
Proof.
  intros Hs Hp. apply list_elem_of_In in Hs. vm_compute in Hs.
  destruct Hs as [<-|[<-|[<-|[<-|[]]]]]; vm_compute in Hp;
    injection Hp as <-; split; (reflexivity || (cbn; lia)).
Qed.

(** The months of the sample store, the most recent first, and a row
    with a date that does not parse beside them. *)
Lemma available_months_recent_first_witness :
  let months := get_available_months Sample.db in
  NoDup months
  /\ StronglySorted (flip text_lt) months
  /\ recent_first months
  /\ Forall (fun t => is_month_token t = true) months
  /\ (forall t, t ∈ months <->
        exists s dt, s ∈ Sample.db /\ strptime_Ymd (created_at s) = Some dt
                     /\ t = year_month dt)
  /\ (forall other,
        Forall (fun s => strptime_Ymd (created_at s) = None) other ->
        get_available_months (Sample.db ++ other) = months).
Proof.
  exact (available_months_recent_first Sample.db sample_dates_parse).
Defined.

(** The sample store can be summed day by day. *)
Lemma sample_days_fit (keep : string -> Prop) : days_fit keep Sample.db.
Proof. apply StoreFacts.days_fit_small; vm_compute; reflexivity. Qed.

(** The aggregate of the sample store for May 2024. *)
Lemma get_daily_data_aggregates_witness :
  recorded Sample.db
  /\ days_fit (in_month_of "2024-05") Sample.db
  /\ exists out, get_daily_data Sample.db "2024-05" = Ok out
                 /\ aggregates (in_month_of "2024-05") Sample.db out
                 /\ chronological (dates_of out).
Proof.
  split; [exact sample_recorded|]. split; [apply sample_days_fit|].
  exact (proj1 (proj2 (get_daily_data_aggregates Sample.db
                         ReferenceFacts.strftime_law sample_recorded)
                  "2024-05" eq_refl)
           (sample_days_fit _)).
Defined.

(** C3, as stated, fails on a store the program wrote: two sessions of
    one day that earn [2^62] each are recorded, and the sum of that day
    leaves 64 bits, so the query raises and returns no row. *)
Lemma daily_sum_overflow :
  (add_session [("Sea", 1)] Sample.may_1 [] "Sea" 0 (2 ^ 62) 5).1
  = Ok (2 ^ 62, 2 ^ 62)
  /\ length Sample.big_db = 2%nat
  /\ recorded Sample.big_db
  /\ get_daily_data Sample.big_db all_months = Raise OperationalError
  /\ get_daily_data Sample.big_db "2024-05" = Raise OperationalError.
Proof.
  split; [vm_compute; reflexivity|]. split; [vm_compute; reflexivity|].
  split; [|split; vm_compute; reflexivity].
  unfold Sample.big_db.
  repeat (apply add_session_recorded; [reflexivity|]). constructor.
Qed.

(** A row dated in the year 999, which the program does not write:
    [strptime] reads it, and its token has three digits in the year and
    sorts before ["2024-05"]. *)
Example months_of_year_999 :
  get_available_months Sample.old_db = ["999-01"; "2024-05"]
  /\ is_month_token "999-01" = false
  /\ get_daily_data Sample.old_db "999-01" = Ok []
  /\ get_daily_data Sample.old_db "0999-01" = Ok [("0999-01-05", 5, 1200)].
Proof. repeat split; vm_compute; reflexivity. Qed.

(** *** The division against the Standard Library's *)

(** Small quotients, with ties and repeating fractions among them. *)
Example division_agrees_small :
  Ieee.grid 60 (fun i => i) (fun j => j) = true.
Proof. vm_compute. reflexivity. Qed.

(** Numerators past 53 bits: the quotient is rounded once. *)
Example division_agrees_wide :
  Ieee.grid 40 (fun i => i * 1234567891234567)%positive
    (fun j => j * j * j * 977)%positive = true.
Proof. vm_compute. reflexivity. Qed.

(** Quotients in and below the subnormal range. *)
Example division_agrees_tiny :
  Ieee.grid 9 (fun i => i) (fun j => Pos.shiftl j 1070) = true.
Proof. vm_compute. reflexivity. Qed.

(** Quotients at and past the largest double. *)
Example division_agrees_huge :
  Ieee.grid 9 (fun i => Pos.shiftl i 1020) (fun j => j) = true.
Proof. vm_compute. reflexivity. Qed.

(** Where rounding twice would differ: [2^33 + 1/2 + 10^-9] is a tie once
    it is a double. *)
Example division_once :
  Ieee.agrees 8589934592500000001 1000000000 = true
  /\ format_money (Int 8589934592500000001) = Ok "8589934592G".
Proof. split; vm_compute; reflexivity. Qed.

(** Doubles by doubles, as in [earned / (minutes / 60)]. *)
Example division_agrees_float :
  forallb (fun x => forallb (Ieee.agrees_float x)
                      [S754_finite false 6755399441055744 (-53);
                       S754_finite true 4803839602528529 (-58);
                       S754_finite false 1 (-1074);
                       S754_finite false 9007199254740991 971;
                       S754_infinity false; S754_nan])
          [S754_finite false 8574853690513408 (-37);
           S754_finite true 4523704982849828 (-45);
           S754_finite false 1 (-1074);
           S754_finite false 9007199254740991 971;
           S754_zero true; S754_infinity true; S754_nan] = true.
Proof. vm_compute. reflexivity. Qed.

End Running.

(** * Further properties *)

(** ** The price table: lookups after an edit *)

Module TableFacts.
Import PyDict.

Lemma contains_keys (d : dict) (k : string) :
  contains d k = true <-> k ∈ keys d.
Proof.
  unfold contains, keys. induction d as [|[k' v] d IH]; simpl.
  - split; [discriminate|]. intros Hin. inversion Hin.
  - destruct (String.eqb_spec k' k) as [->|Hne].
    + split; [intros _; left|reflexivity].
    + rewrite IH. split; [intros Hin; right; exact Hin|].
      intros Hin. apply elem_of_cons in Hin as [->|Hin]; [congruence|exact Hin].
Qed.

Lemma contains_false (d : dict) (k : string) :
  contains d k = false <-> k ∉ keys d.
Proof.
  rewrite <- contains_keys. destruct (contains d k); split; congruence.
Qed.

Lemma get_none (d : dict) (k : string) : get d k = None <-> k ∉ keys d.
Proof.
  rewrite <- contains_false. unfold contains.
  destruct (get d k); split; congruence.
Qed.

Lemma get_set_other (d : dict) (k k' : string) (v : Z) :
  k' <> k -> get (set d k v) k' = get d k'.
Proof.
  intros Hne. induction d as [|[k0 v0] d IH]; simpl.
  - destruct (String.eqb_spec k k'); congruence.
  - destruct (String.eqb_spec k0 k) as [->|Hk]; simpl.
    + destruct (String.eqb_spec k k'); congruence.
    + destruct (String.eqb_spec k0 k'); congruence.
Qed.

Lemma keys_cons (k : string) (v : Z) (d : dict) :
  keys ((k, v) :: d) = k :: keys d.
Proof. reflexivity. Qed.

Lemma keys_set_new (d : dict) (k : string) (v : Z) :
  k ∉ keys d -> keys (set d k v) = (keys d ++ [k])%list.
Proof.
  induction d as [|[k0 v0] d IH]; intros Hnot; [reflexivity|].
  rewrite keys_cons in Hnot. apply not_elem_of_cons in Hnot as [Hne Hnot].
  cbn [set]. destruct (String.eqb_spec k0 k) as [->|Hk]; [congruence|].
  rewrite !keys_cons, IH by assumption. reflexivity.
Qed.

Lemma keys_set_old (d : dict) (k : string) (v : Z) :
  k ∈ keys d -> keys (set d k v) = keys d.
Proof.
  induction d as [|[k0 v0] d IH]; intros Hin; [inversion Hin|].
  cbn [set]. destruct (String.eqb_spec k0 k) as [->|Hk]; [reflexivity|].
  rewrite !keys_cons. f_equal. apply IH.
  rewrite keys_cons in Hin.
  apply elem_of_cons in Hin as [->|Hin]; [congruence|exact Hin].
Qed.

Lemma get_remove_other (d : dict) (k k' : string) :
  k' <> k -> get (remove d k) k' = get d k'.
Proof.
  intros Hne. induction d as [|[k0 v0] d IH]; simpl; [reflexivity|].
  destruct (String.eqb_spec k0 k) as [->|Hk]; simpl.
  - destruct (String.eqb_spec k k'); congruence.
  - destruct (String.eqb_spec k0 k'); congruence.
Qed.

(** Without the key the other keys keep their order. *)
Lemma keys_remove (d : dict) (k : string) :
  NoDup (keys d) -> keys (remove d k) = filter (fun k' => k' <> k) (keys d).
Proof.
  induction d as [|[k0 v0] d IH]; intros Hnd; [reflexivity|].
  rewrite keys_cons in Hnd. apply NoDup_cons in Hnd as [Hnot Hnd].
  rewrite keys_cons, filter_cons. cbn [remove].
  destruct (String.eqb_spec k0 k) as [->|Hk].
  - destruct (decide (k <> k)); [congruence|].
    clear IH Hnd. induction (keys d) as [|a l IHl]; [reflexivity|].
    apply not_elem_of_cons in Hnot as [Hne Hnot].
    rewrite filter_cons.
    destruct (decide (a <> k)) as [_|Heq]; [|exfalso; apply Heq; congruence].
    f_equal. apply IHl, Hnot.
  - destruct (decide (k0 <> k)); [|tauto].
    rewrite keys_cons, IH by assumption. reflexivity.
Qed.

Lemma get_remove_same (d : dict) (k : string) :
  NoDup (keys d) -> get (remove d k) k = None.
Proof.
  intros Hnd. apply get_none. rewrite keys_remove by assumption.
  intros Hin. apply list_elem_of_filter in Hin as [Hne _]. congruence.
Qed.

Lemma NoDup_keys_remove (d : dict) (k : string) :
  NoDup (keys d) -> NoDup (keys (remove d k)).
Proof.
  intros Hnd. rewrite keys_remove by assumption. now apply NoDup_filter.
Qed.

Lemma NoDup_keys_set (d : dict) (k : string) (v : Z) :
  NoDup (keys d) -> NoDup (keys (set d k v)).
Proof.
  intros Hnd. destruct (decide (k ∈ keys d)) as [Hin|Hnot].
  - now rewrite keys_set_old.
  - rewrite keys_set_new by assumption.
    apply NoDup_app. split; [exact Hnd|]. split; [|apply NoDup_singleton].
    intros x Hx Hk. apply list_elem_of_singleton in Hk. congruence.
Qed.

Lemma del_ok (d : dict) (k : string) :
  k ∈ keys d -> del d k = Ok (remove d k).
Proof.
  intros Hin. unfold del. apply contains_keys in Hin. now rewrite Hin.
Qed.

(** The table after [del d[old]] and [d[new] = v]. *)
Lemma rename_table (d : dict) (old new : string) (v : Z) :
  NoDup (keys d) -> new = old \/ new ∉ keys d ->
  let d' := set (remove d old) new v in
  keys d' = (filter (fun k => k <> old) (keys d) ++ [new])%list
  /\ get d' new = Some v
  /\ (new <> old -> get d' old = None)
  /\ (forall k, k <> old -> k <> new -> get d' k = get d k).
Proof.
  intros Hnd Hfree d'. subst d'.
  assert (Hnew : new ∉ keys (remove d old)).
  { rewrite keys_remove by assumption. intros Hin.
    apply list_elem_of_filter in Hin as [Hk Hin].
    destruct Hfree; congruence. }
  split; [|split; [|split]].
  - rewrite keys_set_new, keys_remove by assumption. reflexivity.
  - apply PyDictFacts.get_set.
  - intros Hk. rewrite get_set_other by congruence.
    now apply get_remove_same.
  - intros k Hk1 Hk2. rewrite get_set_other, get_remove_other by congruence.
    reflexivity.
Qed.

End TableFacts.

Section PriceTable.
Context `{Platform}.
Import PyDict TableFacts.

Lemma listbox_get_key (st : App.state) (i : nat) (name : string) :
  keys (App.SPOTS st) !! i = Some name -> App.listbox_get st i = name.
Proof. unfold App.listbox_get. now intros ->. Qed.

(** X1: [update_spot] shows an error and leaves the table as it was, in
    memory and in the file, when no spot is selected, when the price is
    not an integer, when the new name is empty, and when the new name is
    another spot of the table. *)
Theorem update_spot_validates (selection : option nat)
    (name_entry price_entry : string) (st : App.state) :
  let new_name := str_strip name_entry in
  selection = None
  \/ int_of_str price_entry = None
  \/ new_name = ""
  \/ (exists i, selection = Some i /\ new_name <> App.listbox_get st i
                /\ new_name ∈ keys (App.SPOTS st)) ->
  exists message,
    App.update_spot selection name_entry price_entry st
    = (st, [App.ShowError message]).
Proof.
  intros new_name Hrej. unfold App.update_spot. fold new_name.
  destruct selection as [i|]; [|eauto].
  destruct (int_of_str price_entry) as [price|]; [|eauto].
  destruct (String.eqb_spec new_name "") as [He|He]; [eauto|].
  destruct Hrej as [?|[?|[?|(j & Hj & Hne & Hin)]]]; try congruence.
  injection Hj as <-.
  apply contains_keys in Hin. rewrite Hin.
  destruct (String.eqb_spec new_name (App.listbox_get st i)); [congruence|].
  simpl. eauto.
Qed.

Lemma update_spot_accepts (i : nat) (name_entry price_entry : string)
    (st : App.state) (old_name : string) (price : Z) :
  let new_name := str_strip name_entry in
  keys (App.SPOTS st) !! i = Some old_name ->
  int_of_str price_entry = Some price ->
  new_name <> "" ->
  new_name = old_name \/ new_name ∉ keys (App.SPOTS st) ->
  App.update_spot (Some i) name_entry price_entry st
  = (App.save_spots
       (App.with_SPOTS
          (set (remove (App.SPOTS st) old_name) new_name price) st), []).
Proof.
  intros new_name Hi Hp Hne Hfree.
  unfold App.update_spot. fold new_name.
  rewrite Hp, (listbox_get_key st i old_name Hi).
  destruct (String.eqb_spec new_name "") as [|_]; [congruence|].
  assert (Hold : old_name ∈ keys (App.SPOTS st))
    by (eapply list_elem_of_lookup_2; exact Hi).
  assert (Hguard : negb (new_name =? old_name)%string
                   && contains (App.SPOTS st) new_name = false).
  { destruct Hfree as [->|Hnot].
    - now rewrite String.eqb_refl.
    - apply contains_false in Hnot. rewrite Hnot. apply andb_false_r. }
  rewrite Hguard, (del_ok _ _ Hold). reflexivity.
Qed.

(** X2: on a selected spot, with an integer price and a new name that is
    not empty and not another spot of the table, [update_spot] takes the
    old name out and puts the new name, with the price, at the end of the
    table, also when the name stays the same; the other spots keep their
    prices and their order, no exception leaves the handler, and the file
    holds the new table. *)
Theorem update_spot_renames (i : nat) (name_entry price_entry : string)
    (st : App.state) (old_name : string) (price : Z) :
  let new_name := str_strip name_entry in
  let out := App.update_spot (Some i) name_entry price_entry st in
  NoDup (keys (App.SPOTS st)) ->
  keys (App.SPOTS st) !! i = Some old_name ->
  int_of_str price_entry = Some price ->
  new_name <> "" ->
  new_name = old_name \/ new_name ∉ keys (App.SPOTS st) ->
  out.2 = []
  /\ keys (App.SPOTS out.1)
     = (filter (fun k => k <> old_name) (keys (App.SPOTS st))
          ++ [new_name])%list
  /\ get (App.SPOTS out.1) new_name = Some price
  /\ (new_name <> old_name -> get (App.SPOTS out.1) old_name = None)
  /\ (forall k, k <> old_name -> k <> new_name ->
        get (App.SPOTS out.1) k = get (App.SPOTS st) k)
  /\ App.spot_file out.1 = Some (App.SPOTS out.1).
Proof.
  intros new_name out Hnd Hi Hp Hne Hfree. subst out.
  rewrite (update_spot_accepts i name_entry price_entry st old_name price)
    by assumption.
  cbn [fst snd App.SPOTS App.spot_file App.save_spots App.with_SPOTS].
  fold new_name.
  destruct (rename_table (App.SPOTS st) old_name new_name price Hnd Hfree)
    as (Hkeys & Hnew & Hold & Hother).
  repeat split; assumption.
Qed.

(** X3: [delete_spot] shows an error and changes nothing when no spot is
    selected; on a selected spot it takes the spot out of the table, the
    other spots keeping their prices and their order, and writes the
    table to the file. *)
Theorem delete_spot_removes (st : App.state) :
  (exists message,
     App.delete_spot None st = (st, [App.ShowError message]))
  /\ (forall (i : nat) (name : string),
        NoDup (keys (App.SPOTS st)) ->
        keys (App.SPOTS st) !! i = Some name ->
        let out := App.delete_spot (Some i) st in
        out.2 = []
        /\ keys (App.SPOTS out.1)
           = filter (fun k => k <> name) (keys (App.SPOTS st))
        /\ get (App.SPOTS out.1) name = None
        /\ (forall k, k <> name ->
              get (App.SPOTS out.1) k = get (App.SPOTS st) k)
        /\ App.spot_file out.1 = Some (App.SPOTS out.1)).
Proof.
  split; [unfold App.delete_spot; eauto|].
  intros i name Hnd Hi out. subst out. unfold App.delete_spot.
  rewrite (listbox_get_key st i name Hi).
  assert (Hin : name ∈ keys (App.SPOTS st))
    by (eapply list_elem_of_lookup_2; exact Hi).
  rewrite (del_ok _ _ Hin). cbn [fst snd App.SPOTS App.spot_file
    App.save_spots App.with_SPOTS].
  split; [reflexivity|]. split; [|split; [|split]].
  - now apply keys_remove.
  - now apply get_remove_same.
  - intros k Hk. now apply get_remove_other.
  - reflexivity.
Qed.

(** X4: when [add_spot] accepts a spot it puts it at the end of the
    table, and every other spot keeps its price. *)
Theorem add_spot_appends (name_entry price_entry : string) (st : App.state)
    (price : Z) :
  let name := str_strip name_entry in
  let out := App.add_spot name_entry price_entry st in
  int_of_str price_entry = Some price ->
  name <> "" ->
  name ∉ keys (App.SPOTS st) ->
  keys (App.SPOTS out.1) = (keys (App.SPOTS st) ++ [name])%list
  /\ (forall k, k <> name ->
        get (App.SPOTS out.1) k = get (App.SPOTS st) k).
Proof.
  intros name out Hp Hne Hnot. subst out. unfold App.add_spot. fold name.
  rewrite Hp. destruct (String.eqb_spec name "") as [|_]; [congruence|].
  pose proof Hnot as Hc. apply contains_false in Hc. rewrite Hc.
  cbn [fst App.SPOTS App.save_spots App.with_SPOTS]. split.
  - now apply keys_set_new.
  - intros k Hk. now apply get_set_other.
Qed.

Lemma edit_file_follows (st : App.state) (op : App.spot_edit) :
  App.load_spots (App.spot_file st) = App.SPOTS st ->
  App.load_spots (App.spot_file (App.edit st op)) = App.SPOTS (App.edit st op).
Proof.
  intros Hst. destruct op as [n p|sel n p|sel]; cbn [App.edit].
  - unfold App.add_spot. destruct (int_of_str p); [|exact Hst].
    destruct (String.eqb _ _); [exact Hst|].
    destruct (contains _ _); [exact Hst|reflexivity].
  - unfold App.update_spot. destruct sel; [|exact Hst].
    destruct (int_of_str p); [|exact Hst].
    destruct (String.eqb _ _); [exact Hst|].
    destruct (_ && _); [exact Hst|].
    destruct (del _ _); [reflexivity|exact Hst].
  - unfold App.delete_spot. destruct sel; [|exact Hst].
    destruct (del _ _); [reflexivity|exact Hst].
Qed.

Lemma edit_keys_NoDup (st : App.state) (op : App.spot_edit) :
  NoDup (keys (App.SPOTS st)) -> NoDup (keys (App.SPOTS (App.edit st op))).
Proof.
  intros Hst. destruct op as [n p|sel n p|sel]; cbn [App.edit].
  - unfold App.add_spot. destruct (int_of_str p); [|exact Hst].
    destruct (String.eqb _ _); [exact Hst|].
    destruct (contains _ _); [exact Hst|].
    now apply NoDup_keys_set.
  - unfold App.update_spot. destruct sel; [|exact Hst].
    destruct (int_of_str p); [|exact Hst].
    destruct (String.eqb _ _); [exact Hst|].
    destruct (_ && _); [exact Hst|].
    unfold del. destruct (contains _ _); [|exact Hst].
    now apply NoDup_keys_set, NoDup_keys_remove.
  - unfold App.delete_spot. destruct sel; [|exact Hst].
    unfold del. destruct (contains _ _); [|exact Hst].
    now apply NoDup_keys_remove.
Qed.

Lemma edits_file_follows (ops : list App.spot_edit) (st : App.state) :
  App.load_spots (App.spot_file st) = App.SPOTS st ->
  App.load_spots (App.spot_file (App.edits ops st))
  = App.SPOTS (App.edits ops st).
Proof.
  unfold App.edits. revert st.
  induction ops as [|op ops IH]; intros st Hst; [exact Hst|].
  apply IH, edit_file_follows, Hst.
Qed.

Lemma edits_keys_NoDup (ops : list App.spot_edit) (st : App.state) :
  NoDup (keys (App.SPOTS st)) -> NoDup (keys (App.SPOTS (App.edits ops st))).
Proof.
  unfold App.edits. revert st.
  induction ops as [|op ops IH]; intros st Hst; [exact Hst|].
  apply IH, edit_keys_NoDup, Hst.
Qed.

(** X5: whatever additions, updates and deletions are made after the
    start of the program, [load_spots] on the file gives the table in
    memory, so that the next start of the program finds the table as it
    was left; and the names in the table stay distinct. *)
Theorem edits_keep_file (ops : list App.spot_edit)
    (file : option PyDict.dict) (rows : store) :
  let st := App.edits ops (App.init file rows) in
  App.load_spots (App.spot_file st) = App.SPOTS st
  /\ App.SPOTS (App.init (App.spot_file st) (App.db st)) = App.SPOTS st
  /\ (NoDup (keys (App.load_spots file)) -> NoDup (keys (App.SPOTS st))).
Proof.
  intros st.
  assert (Hfile : App.load_spots (App.spot_file st) = App.SPOTS st)
    by (apply edits_file_follows; reflexivity).
  split; [exact Hfile|]. split; [exact Hfile|].
  intros Hnd. apply edits_keys_NoDup. exact Hnd.
Qed.

(** X6: selecting a spot fills the two entries with its name and its
    price; pressing the update button then, with nothing typed, leaves
    every price as it was and moves the spot to the end of the table. *)
Theorem select_then_update (i : nat) (st : App.state) (name : string)
    (price : Z) (name_entry price_entry : string) :
  let filled := on_spot_select (Some i) name_entry price_entry st in
  let out := App.update_spot (Some i) filled.1.1 filled.1.2 st in
  NoDup (keys (App.SPOTS st)) ->
  keys (App.SPOTS st) !! i = Some name ->
  get (App.SPOTS st) name = Some price ->
  name <> "" -> str_strip name = name ->
  int_of_str (PyStr.str price) = Some price ->
  filled = ((name, PyStr.str price), [])
  /\ out.2 = []
  /\ (forall k, get (App.SPOTS out.1) k = get (App.SPOTS st) k)
  /\ keys (App.SPOTS out.1)
     = (filter (fun k => k <> name) (keys (App.SPOTS st)) ++ [name])%list.
Proof.
  intros filled out Hnd Hi Hget Hne Hstrip Hint.
  assert (Hfilled : filled = ((name, PyStr.str price), [])).
  { subst filled. unfold on_spot_select.
    rewrite (listbox_get_key st i name Hi), Hget. reflexivity. }
  split; [exact Hfilled|]. subst out. rewrite Hfilled. cbn [fst snd].
  rewrite (update_spot_accepts i name (PyStr.str price) st name price);
    rewrite ?Hstrip; auto.
  cbn [fst snd App.SPOTS App.spot_file App.save_spots App.with_SPOTS].
  destruct (rename_table (App.SPOTS st) name name price Hnd (or_introl eq_refl))
    as (Hkeys & Hnew & _ & Hother).
  split; [reflexivity|]. split; [|exact Hkeys].
  intros k. destruct (decide (k = name)) as [->|Hk].
  - now rewrite Hnew.
  - now apply Hother.
Qed.

End PriceTable.

(** ** The timer *)

Module TimerFacts.

Lemma filter_other (n : nat) (l : list nat) :
  n ∉ l -> filter (fun k => k <> n) l = l.
Proof.
  induction l as [|a l IH]; intros Hn; [reflexivity|].
  apply not_elem_of_cons in Hn as [Hne Hn].
  rewrite filter_cons.
  destruct (decide (a <> n)) as [_|Heq]; [|exfalso; apply Heq; congruence].
  now rewrite IH.
Qed.

Lemma filter_first (a b : nat) :
  a <> b -> filter (fun k => k <> a) [a; b] = [b].
Proof.
  intros Hab. rewrite filter_cons.
  destruct (decide (a <> a)); [congruence|].
  rewrite filter_cons.
  destruct (decide (b <> a)) as [_|Heq]; [|exfalso; apply Heq; congruence].
  reflexivity.
Qed.

Lemma filter_self (n : nat) : filter (fun k => k <> n) [n] = [].
Proof.
  rewrite filter_cons. destruct (decide (n <> n)); [congruence|reflexivity].
Qed.

(** A callback that fires while the timer does not run counts nothing and
    schedules nothing. *)
Lemma tick_stopped (n : nat) (st : App.state) :
  App.running st = false ->
  App.running (App.tick n st) = false
  /\ App.minutes (App.tick n st) = App.minutes st
  /\ App.pending (App.tick n st)
     = filter (fun k => k <> n) (App.pending st)
  /\ App.db (App.tick n st) = App.db st.
Proof.
  intros Hr. unfold App.tick.
  destruct (bool_decide (n ∈ App.pending st)) eqn:Hn.
  - unfold App.update_timer. cbn [App.with_pending App.running]. rewrite Hr.
    cbn. auto.
  - apply bool_decide_eq_false in Hn. rewrite (filter_other n) by assumption.
    auto.
Qed.

Lemma ticks_stopped (ns : list nat) (st : App.state) :
  App.running st = false ->
  App.running (foldl (fun s n => App.tick n s) st ns) = false
  /\ App.minutes (foldl (fun s n => App.tick n s) st ns) = App.minutes st.
Proof.
  revert st. induction ns as [|n ns IH]; intros st Hr; [auto|].
  cbn [foldl]. destruct (tick_stopped n st Hr) as (Hr' & Hm & _).
  destruct (IH _ Hr') as [? ?]. split; congruence.
Qed.

Lemma pause_timer_stops (st : App.state) :
  App.running (App.pause_timer st) = false
  /\ App.minutes (App.pause_timer st) = App.minutes st
  /\ App.trash_start (App.pause_timer st) = App.trash_start st
  /\ App.db (App.pause_timer st) = App.db st
  /\ App.SPOTS (App.pause_timer st) = App.SPOTS st.
Proof.
  unfold App.pause_timer. destruct (App.running st) eqn:Hr; [|auto].
  cbn. destruct (App.timer_id st); cbn; auto.
Qed.

End TimerFacts.


(** X7: after the pause button no callback counts: whatever callbacks
    fire, in whatever order, the minutes stay as they were when the
    button was pressed, and the timer stays stopped. *)
Theorem pause_stops_count (st : App.state) (ns : list nat) :
  let paused := App.pause_timer st in
  let later := foldl (fun s n => App.tick n s) paused ns in
  App.running paused = false
  /\ App.minutes later = App.minutes st
  /\ App.running later = false.
Proof.
  intros paused later.
  destruct (TimerFacts.pause_timer_stops st) as (Hr & Hm & _).
  destruct (TimerFacts.ticks_stopped ns paused Hr) as [Hr' Hm'].
  subst later paused. split; [exact Hr|]. split; [congruence|exact Hr'].
Qed.

Module CallbackFacts.
Import TimerFacts.

Lemma update_timer_running (st : App.state) :
  App.running st = true ->
  App.update_timer st
  = App.State (App.SPOTS st) (App.spot_file st) (App.db st) true
      (App.minutes st + 1) (Some (App.next_after st)) (App.trash_start st)
      (App.pending st ++ [App.next_after st])%list (S (App.next_after st)).
Proof.
  intros Hr. unfold App.update_timer, App.after. rewrite Hr. cbn.
  rewrite Hr. reflexivity.
Qed.

(** The callback of a running timer fires: a minute is counted and the
    next callback takes its place. *)
Lemma tick_single (n : nat) (st : App.state) :
  App.running st = true -> App.pending st = [n] ->
  App.tick n st
  = App.State (App.SPOTS st) (App.spot_file st) (App.db st) true
      (App.minutes st + 1) (Some (App.next_after st)) (App.trash_start st)
      [App.next_after st] (S (App.next_after st)).
Proof.
  intros Hr Hp. unfold App.tick. rewrite Hp.
  rewrite bool_decide_eq_true_2 by apply list_elem_of_here.
  rewrite filter_self, update_timer_running by exact Hr. reflexivity.
Qed.

Lemma tick_pending (n : nat) (st : App.state) :
  App.running st = true -> n ∈ App.pending st ->
  App.tick n st
  = App.State (App.SPOTS st) (App.spot_file st) (App.db st) true
      (App.minutes st + 1) (Some (App.next_after st)) (App.trash_start st)
      (filter (fun k => k <> n) (App.pending st) ++ [App.next_after st])%list
      (S (App.next_after st)).
Proof.
  intros Hr Hn. unfold App.tick. rewrite bool_decide_eq_true_2 by exact Hn.
  rewrite update_timer_running by exact Hr. reflexivity.
Qed.

(** Two callbacks pending on a running timer: in one minute both fire,
    two minutes are counted, and two callbacks are pending again. *)
Lemma period_double (st : App.state) (a b : nat) :
  App.running st = true -> App.pending st = [a; b] -> a <> b ->
  (b < App.next_after st)%nat ->
  App.running (period st) = true
  /\ App.pending (period st) = [App.next_after st; S (App.next_after st)]
  /\ App.next_after (period st) = S (S (App.next_after st))
  /\ App.minutes (period st) = App.minutes st + 2
  /\ App.trash_start (period st) = App.trash_start st.
Proof.
  intros Hr Hp Hab Hb. unfold period. rewrite Hp. cbn [foldl].
  rewrite (tick_pending a st Hr) by (rewrite Hp; left).
  rewrite Hp, (filter_first a b Hab). cbn [app].
  match goal with |- context [App.tick b ?s] => set (st1 := s) end.
  rewrite (tick_pending b st1) by (reflexivity || left).
  change (App.pending st1) with [b; App.next_after st].
  rewrite (filter_first b (App.next_after st)) by lia.
  cbn. repeat split. lia.
Qed.

Lemma tick_absent (n : nat) (st : App.state) :
  n ∉ App.pending st -> App.tick n st = st.
Proof.
  intros Hn. unfold App.tick. now rewrite bool_decide_eq_false_2.
Qed.

Lemma one_callback_tick (n : nat) (st : App.state) :
  one_callback st -> one_callback (App.tick n st).
Proof.
  unfold one_callback. intros Hst.
  destruct (App.running st) eqn:Hr.
  - destruct Hst as (m & Hid & Hp).
    destruct (decide (n = m)) as [->|Hne].
    + rewrite (tick_single m st Hr Hp). cbn. eauto.
    + rewrite tick_absent; [rewrite Hr; eauto|].
      rewrite Hp. intros Hin. apply list_elem_of_singleton in Hin. congruence.
  - rewrite tick_absent; [now rewrite Hr|]. rewrite Hst. apply not_elem_of_nil.
Qed.

Lemma one_callback_pause (st : App.state) :
  one_callback st -> one_callback (App.pause_timer st).
Proof.
  unfold one_callback, App.pause_timer. intros Hst.
  destruct (App.running st) eqn:Hr; [|now rewrite Hr].
  destruct Hst as (m & Hid & Hp). cbn. rewrite Hid. cbn.
  rewrite Hp. apply filter_self.
Qed.

(** A stopped timer with nothing pending is started. *)
Lemma one_callback_started (st : App.state) :
  App.pending st = [] ->
  one_callback (App.update_timer (App.with_running true st)).
Proof.
  intros Hp. rewrite update_timer_running by reflexivity.
  unfold one_callback. cbn. rewrite Hp. eauto.
Qed.

Lemma one_callback_resume (st : App.state) :
  one_callback st -> one_callback (App.resume_timer st).
Proof.
  intros Hst. unfold App.resume_timer.
  destruct (App.running st) eqn:Hr; [exact Hst|]. cbn [negb].
  apply one_callback_started. unfold one_callback in Hst.
  now rewrite Hr in Hst.
Qed.

Lemma one_callback_with_db (rows : store) (st : App.state) :
  one_callback st -> one_callback (App.with_db rows st).
Proof. intros Hst. exact Hst. Qed.

End CallbackFacts.

Section TimerRuns.
Context `{Platform}.
Import CallbackFacts.

Lemma end_session_state (end_entry spot_var : string) (today : date)
    (st : App.state) :
  let out := (App.end_session end_entry spot_var today st).1 in
  out = App.pause_timer st
  \/ exists rows, out = App.with_db rows (App.pause_timer st).
Proof.
  unfold App.end_session.
  destruct (int_of_str end_entry); [|auto].
  destruct (App.trash_start (App.pause_timer st)); [|auto].
  destruct (add_session _ _ _ _ _ _ _) as [[[gained earned]|e] rows];
    [|right; eauto].
  cbv zeta.
  destruct (format_money _); [destruct (App.update_total _)|];
    cbn [fst]; right; eauto.
Qed.

Lemma one_callback_act (st : App.state) (a : action) :
  one_callback st ->
  match a with PressStart _ => App.running st = false | _ => True end ->
  one_callback (act st a).
Proof.
  intros Hst Ha. destruct a as [e| | |e spot_var today|n]; cbn [act].
  - unfold App.start_timer. destruct (int_of_str e); [|exact Hst].
    cbn [fst]. apply (one_callback_started (App.with_minutes 0 _)).
    unfold one_callback in Hst. rewrite Ha in Hst. exact Hst.
  - now apply one_callback_pause.
  - now apply one_callback_resume.
  - destruct (end_session_state e spot_var today st) as [->|(rows & ->)].
    + now apply one_callback_pause.
    + now apply one_callback_with_db, one_callback_pause.
  - now apply one_callback_tick.
Qed.

(** X8: as long as the start button is pressed only while the timer does
    not run, whatever else is pressed and whichever callbacks fire, one
    callback is pending while the timer runs and none while it does
    not. *)
Theorem timer_keeps_one_callback (acts : list action) (st : App.state) :
  one_callback st ->
  starts_when_stopped st acts = true ->
  one_callback (foldl act st acts)
  /\ (length (App.pending (foldl act st acts)) <= 1)%nat.
Proof.
  intros Hst Hacts.
  assert (Hend : one_callback (foldl act st acts)).
  { revert st Hst Hacts. induction acts as [|a acts IH]; intros st Hst Hacts;
      [exact Hst|].
    cbn [starts_when_stopped] in Hacts. apply andb_prop in Hacts as [Ha Hacts].
    cbn [foldl]. apply IH; [|exact Hacts].
    apply one_callback_act; [exact Hst|].
    destruct a; try exact I. now apply negb_true_iff. }
  split; [exact Hend|].
  unfold one_callback in Hend.
  destruct (App.running _); [destruct Hend as (n & _ & ->)|rewrite Hend];
    simpl; lia.
Qed.

Lemma period_single (st : App.state) :
  one_callback st -> App.running st = true ->
  one_callback (period st)
  /\ App.running (period st) = true
  /\ App.minutes (period st) = App.minutes st + 1
  /\ App.trash_start (period st) = App.trash_start st.
Proof.
  intros Hst Hr. unfold one_callback in Hst. rewrite Hr in Hst.
  destruct Hst as (n & Hid & Hp). unfold period. rewrite Hp. cbn [foldl].
  rewrite (tick_single n st Hr Hp). unfold one_callback. cbn.
  repeat split; eauto.
Qed.

(** X9: the start button, pressed with an integer in the entry while the
    timer does not run, counts the first minute at once; after [k] more
    minutes the timer shows [k + 1], and one callback is pending all the
    while. *)
Theorem start_timer_counts (start_entry : string) (n : Z) (st : App.state)
    (k : nat) :
  let started := (App.start_timer start_entry st).1 in
  let later := Nat.iter k period started in
  one_callback st -> App.running st = false ->
  int_of_str start_entry = Some n ->
  App.minutes started = 1
  /\ App.minutes later = Z.of_nat k + 1
  /\ App.trash_start later = Some n
  /\ App.running later = true
  /\ one_callback later.
Proof.
  intros started later Hst Hr Hn.
  assert (Hstarted : one_callback started /\ App.running started = true
                     /\ App.minutes started = 1
                     /\ App.trash_start started = Some n).
  { subst started. unfold App.start_timer. rewrite Hn. cbn [fst].
    split.
    - apply (one_callback_started (App.with_minutes 0 _)).
      unfold one_callback in Hst. rewrite Hr in Hst. exact Hst.
    - rewrite update_timer_running by reflexivity. cbn. auto. }
  split; [tauto|]. subst later.
  induction k as [|k IH].
  - cbn. tauto.
  - change (Nat.iter (S k) period started)
      with (period (Nat.iter k period started)).
    destruct IH as (Hm & Ht & Hrun & Hone).
    destruct (period_single _ Hone Hrun) as (Hone' & Hrun' & Hm' & Ht').
    repeat split; try assumption; [lia|congruence].
Qed.

(** X10: the start button does not cancel the callback of a running
    timer: pressed while the timer runs, it sets the minutes to 1 and
    leaves two callbacks pending, and from then on every minute counts
    two. *)
Theorem start_timer_while_running (start_entry : string) (n : Z)
    (st : App.state) (k : nat) :
  let started := (App.start_timer start_entry st).1 in
  let later := Nat.iter k period started in
  one_callback st -> fresh_ids st -> App.running st = true ->
  int_of_str start_entry = Some n ->
  App.minutes started = 1
  /\ App.minutes later = 2 * Z.of_nat k + 1
  /\ length (App.pending later) = 2%nat.
Proof.
  intros started later Hst Hfresh Hr Hn.
  unfold one_callback in Hst. rewrite Hr in Hst.
  destruct Hst as (m & Hid & Hp).
  unfold fresh_ids in Hfresh. rewrite Hp in Hfresh.
  rewrite Forall_singleton in Hfresh.
  assert (Hstarted : started
    = App.State (App.SPOTS st) (App.spot_file st) (App.db st) true 1
        (Some (App.next_after st)) (Some n) [m; App.next_after st]
        (S (App.next_after st))).
  { subst started. unfold App.start_timer. rewrite Hn. cbn [fst].
    rewrite update_timer_running by reflexivity. cbn. rewrite Hp.
    reflexivity. }
  split; [rewrite Hstarted; reflexivity|].
  assert (Hinv : App.running later = true
                 /\ (exists a b, App.pending later = [a; b] /\ a <> b
                                 /\ (b < App.next_after later)%nat)
                 /\ App.minutes later = 2 * Z.of_nat k + 1).
  { subst later. induction k as [|k IH].
    - cbn [Nat.iter nat_rect]. rewrite Hstarted. cbn.
      split; [reflexivity|]. split; [|reflexivity].
      exists m, (App.next_after st). repeat split; lia.
    - change (Nat.iter (S k) period started)
        with (period (Nat.iter k period started)).
      destruct IH as (Hrun & (a & b & Hab & Hne & Hlt) & Hm).
      destruct (period_double _ a b Hrun Hab Hne Hlt)
        as (Hrun' & Hp' & Hnext' & Hm' & _).
      split; [exact Hrun'|]. split; [|lia].
      eexists _, _. split; [exact Hp'|]. rewrite Hnext'. lia. }
  destruct Hinv as (_ & (a & b & -> & _) & Hm). auto.
Qed.

End TimerRuns.

(** ** Ending a session *)

Module SessionFacts.

(** One more value at the end of a sum: the sum so far, and the check of
    the last addition. *)
Lemma sql_sum_from_snoc (acc : Z) (values : list Z) (v : Z) :
  sql_sum_from acc (values ++ [v])
  = (t ← sql_sum_from acc values;
     if fits_int64 (t + v) then Ok (t + v) else Raise OperationalError).
Proof.
  revert acc. induction values as [|w values IH]; intros acc;
    cbn [app sql_sum_from mbind result_bind].
  - destruct (fits_int64 (acc + v)); reflexivity.
  - destruct (fits_int64 (acc + w)); [apply IH|reflexivity].
Qed.

(** The total after one more row. *)
Lemma total_earned_snoc (db : store) (row : session) (T : Z) :
  total_earned db = Ok T ->
  total_earned (db ++ [row])
  = if fits_int64 (T + earned row) then Ok (T + earned row)
    else Raise OperationalError.
Proof.
  unfold total_earned, sql_sum. intros HT.
  rewrite fmap_app. cbn [fmap list_fmap].
  rewrite sql_sum_from_snoc, HT. reflexivity.
Qed.

(** Below the threshold of the division [format_money] returns a text. *)
Lemma format_money_ok (x : Z) :
  x < overflow_threshold * 1000000000 ->
  exists t, format_money (Int x) = Ok t.
Proof.
  intros Hx. destruct (format_money_cases x) as (H1 & H2 & H3 & H4).
  destruct (Z_lt_le_dec x 1000); [eauto|].
  destruct (Z_lt_le_dec x 1000000);
    [destruct H2 as (q & _ & -> & _); [lia|eauto]|].
  destruct (Z_lt_le_dec x 1000000000);
    [destruct H3 as (q & _ & -> & _); [lia|eauto]|].
  destruct H4 as (q & _ & -> & _); [lia|eauto].
Qed.

Lemma int64_below_threshold (x : Z) :
  int64 x -> x < overflow_threshold * 1000000000.
Proof.
  unfold int64. intros Hx. pose proof threshold_large. lia.
Qed.

Lemma format_money_int64 (x : Z) :
  int64 x -> exists t, format_money (Int x) = Ok t.
Proof. intros Hx. now apply format_money_ok, int64_below_threshold. Qed.

End SessionFacts.

Section Sessions.
Context `{Platform}.
Import SessionFacts.

(** X11: with a start count taken and an integer in the end entry,
    [end_session] stops the timer and leaves the minutes, the start count
    and the price table as they are.  When the two counts, the minutes,
    the pieces gained and the earnings are 64-bit integers it appends one
    row: the spot of the combobox, the two counts, the minutes counted,
    and the earnings at the price of the moment (0 for a spot that is not
    in the table); the total grows by these earnings and the handler
    ends with the one dialog of the result, unless the new total leaves
    64 bits: then the dialog is shown and [OperationalError] leaves the
    handler.  When one of the five is no 64-bit integer, no row is
    written and [OverflowError] leaves the handler. *)
Theorem end_session_records (end_entry spot_var : string) (today : date)
    (st : App.state) (first last : Z) :
  let out := App.end_session end_entry spot_var today st in
  let price := default 0 (PyDict.get (App.SPOTS st) spot_var) in
  let gained := last - first in
  let fit := int64 first /\ int64 last /\ int64 (App.minutes st)
             /\ int64 gained /\ int64 (gained * price) in
  App.trash_start st = Some first ->
  int_of_str end_entry = Some last ->
  App.running out.1 = false
  /\ App.minutes out.1 = App.minutes st
  /\ App.trash_start out.1 = Some first
  /\ App.SPOTS out.1 = App.SPOTS st
  /\ (fit ->
      (exists row,
         App.db out.1 = (App.db st ++ [row])%list
         /\ spot row = spot_var
         /\ trash_start row = first /\ trash_end row = last
         /\ duration row = App.minutes st
         /\ trash_gained row = gained
         /\ earned row = gained * price
         /\ created_at row = isoformat today)
      /\ (forall T, total_earned (App.db st) = Ok T ->
            (int64 (T + gained * price) ->
               total_earned (App.db out.1) = Ok (T + gained * price)
               /\ exists message, out.2 = [App.ShowInfo message])
            /\ (~ int64 (T + gained * price) ->
                total_earned (App.db out.1) = Raise OperationalError
                /\ exists message,
                     out.2 = [App.ShowInfo message;
                              App.Uncaught OperationalError])))
  /\ (~ fit ->
      App.db out.1 = App.db st /\ out.2 = [App.Uncaught OverflowError]).
Proof.
  intros out price gained fit Hfirst Hlast.
  destruct (TimerFacts.pause_timer_stops st) as (Hr & Hm & Ht & Hdb & Hsp).
  set (paused := App.pause_timer st) in *.
  assert (Hstate : out.1 = paused
                   \/ exists rows, out.1 = App.with_db rows paused).
  { subst out paused. apply end_session_state. }
  assert (Hkeep : App.running out.1 = false
                  /\ App.minutes out.1 = App.minutes st
                  /\ App.trash_start out.1 = Some first
                  /\ App.SPOTS out.1 = App.SPOTS st).
  { destruct Hstate as [->|(rows & ->)]; cbn; repeat split; congruence. }
  destruct Hkeep as (K1 & K2 & K3 & K4).
  split; [exact K1|]. split; [exact K2|]. split; [exact K3|].
  split; [exact K4|].
  set (row := Session (next_id (App.db st)) spot_var first last
                (App.minutes st) gained (gained * price) (isoformat today)).
  split.
  - intros (F1 & F2 & F3 & F4 & F5).
    pose proof (StoreFacts.add_session_written (App.SPOTS st) today
                  (App.db st) spot_var first last (App.minutes st)
                  F1 F2 F3 F4 F5) as Hadd.
    cbv zeta in Hadd. fold price gained row in Hadd.
    destruct (format_money_int64 _ F5) as (money & Hmoney).
    assert (Hout : out = App.end_session end_entry spot_var today st)
      by reflexivity.
    unfold App.end_session in Hout. fold paused in Hout.
    rewrite Hlast, Ht, Hfirst, Hsp, Hdb, Hm, Hadd, Hmoney in Hout.
    cbv zeta in Hout.
    assert (Hrows : App.db out.1 = (App.db st ++ [row])%list).
    { rewrite Hout. destruct (App.update_total _); reflexivity. }
    split.
    + exists row. split; [exact Hrows|]. cbn. auto 10.
    + intros T HT.
      pose proof (total_earned_snoc (App.db st) row T HT) as Htotal.
      cbn [earned row] in Htotal.
      split.
      * intros Hfit. apply StoreFacts.fits_int64_spec in Hfit as Hb.
        rewrite Hb in Htotal. rewrite Hrows. split; [exact Htotal|].
        destruct (format_money_int64 _ Hfit) as (total & Htext).
        rewrite Hout. unfold App.update_total. cbn [App.db App.with_db].
        rewrite Htotal. cbn [mbind result_bind]. rewrite Htext.
        cbn [mbind result_bind]. eauto.
      * intros Hno. apply StoreFacts.fits_int64_false in Hno as Hb.
        rewrite Hb in Htotal. rewrite Hrows. split; [exact Htotal|].
        rewrite Hout. unfold App.update_total. cbn [App.db App.with_db].
        rewrite Htotal. cbn [mbind result_bind]. eauto.
  - intros Hno.
    pose proof (StoreFacts.add_session_refused (App.SPOTS st) today
                  (App.db st) spot_var first last (App.minutes st) Hno)
      as Hadd.
    assert (Hout : out = App.end_session end_entry spot_var today st)
      by reflexivity.
    unfold App.end_session in Hout. fold paused in Hout.
    rewrite Hlast, Ht, Hfirst, Hsp, Hdb, Hm, Hadd in Hout.
    rewrite Hout. cbn. split; reflexivity.
Qed.

(** X12: [end_session] stops the timer before it reads the end entry.
    When the entry is not an integer it shows an error and writes no row;
    when no start count was ever taken, [AttributeError] leaves the
    handler and no row is written either. *)
Theorem end_session_rejects (end_entry spot_var : string) (today : date)
    (st : App.state) :
  int_of_str end_entry = None \/ App.trash_start st = None ->
  exists ev,
    App.end_session end_entry spot_var today st = (App.pause_timer st, [ev])
    /\ (int_of_str end_entry = None -> exists message, ev = App.ShowError message)
    /\ (int_of_str end_entry <> None -> ev = App.Uncaught AttributeError)
    /\ App.db (App.pause_timer st) = App.db st
    /\ App.running (App.pause_timer st) = false.
Proof.
  intros Hrej.
  destruct (TimerFacts.pause_timer_stops st) as (Hr & _ & Ht & Hdb & _).
  unfold App.end_session.
  destruct (int_of_str end_entry) as [last|] eqn:Hlast.
  - destruct Hrej as [?|Hnone]; [congruence|].
    rewrite Ht, Hnone. eexists. split; [reflexivity|].
    repeat split; [congruence|assumption..].
  - eexists. split; [reflexivity|].
    repeat split; [eauto|congruence|assumption..].
Qed.

End Sessions.

(** ** The daily rows add up *)

Module SumFacts.

Lemma sum_zero (ds : list string) :
  foldr (fun (_ : string) acc => 0 + acc) 0 ds = 0.
Proof. induction ds as [|d ds IH]; simpl; lia. Qed.

Lemma sum_add (g h : string -> Z) (ds : list string) :
  foldr (fun d acc => (g d + h d) + acc) 0 ds
  = foldr (fun d acc => g d + acc) 0 ds + foldr (fun d acc => h d + acc) 0 ds.
Proof. induction ds as [|d ds IH]; simpl; lia. Qed.

Lemma sum_ext (g h : string -> Z) (ds : list string) :
  (forall d, g d = h d) ->
  foldr (fun d acc => g d + acc) 0 ds = foldr (fun d acc => h d + acc) 0 ds.
Proof. intros Hgh. induction ds as [|d ds IH]; simpl; congruence. Qed.

(** Among distinct dates one is the date of the row. *)
Lemma sum_indicator (ds : list string) (x : string) (c : Z) :
  NoDup ds ->
  foldr (fun d acc => (if decide (x = d) then c else 0) + acc) 0 ds
  = if decide (x ∈ ds) then c else 0.
Proof.
  induction 1 as [|d ds Hnot Hnd IH]; simpl.
  - destruct (decide (x ∈ [])) as [Hin|]; [inversion Hin|reflexivity].
  - rewrite IH. destruct (decide (x = d)) as [->|Hne].
    + destruct (decide (d ∈ ds)); [tauto|].
      destruct (decide (d ∈ d :: ds)) as [|Hn]; [lia|].
      exfalso. apply Hn. left.
    + destruct (decide (x ∈ ds)) as [Hin|Hn].
      * destruct (decide (x ∈ d :: ds)) as [|Hn]; [lia|].
        exfalso. apply Hn. now right.
      * destruct (decide (x ∈ d :: ds)) as [Hin|]; [|lia].
        apply elem_of_cons in Hin as [?|?]; tauto.
Qed.

(** The sums over the rows of each date add up to the sum over all
    rows. *)
Lemma sum_by_date (f : session -> Z) (rows : list session)
    (ds : list string) :
  NoDup ds -> (forall s, s ∈ rows -> created_at s ∈ ds) ->
  foldr (fun d acc => sum_of f (on_date d rows) + acc) 0 ds = sum_of f rows.
Proof.
  intros Hnd. induction rows as [|s rows IH]; intros Hin.
  - apply sum_zero.
  - rewrite (sum_ext _ (fun d => (if decide (created_at s = d) then f s else 0)
                                 + sum_of f (on_date d rows))).
    + rewrite sum_add, sum_indicator, IH
        by (try assumption; intros s' Hs'; apply Hin; right; exact Hs').
      destruct (decide (created_at s ∈ ds)) as [|Hn]; [reflexivity|].
      exfalso. apply Hn, Hin. left.
    + intros d. unfold on_date. rewrite filter_cons.
      destruct (decide (created_at s = d)); reflexivity.
Qed.

Lemma daily_sums_add_up (rows : list session) :
  foldr (fun r acc => r.2 + acc) 0 (daily_sums rows) = sum_of earned rows
  /\ foldr (fun r acc => r.1.2 + acc) 0 (daily_sums rows)
     = sum_of duration rows.
Proof.
  unfold daily_sums.
  set (ds := order_dates (remove_dups (created_at <$> rows))).
  assert (Hnd : NoDup ds).
  { unfold ds, order_dates. rewrite merge_sort_Permutation.
    apply NoDup_remove_dups. }
  assert (Hin : forall s, s ∈ rows -> created_at s ∈ ds).
  { intros s Hs. unfold ds.
    apply Text.order_dates_elem, elem_of_remove_dups, list_elem_of_fmap.
    eauto. }
  rewrite <- (sum_by_date earned rows ds Hnd Hin),
    <- (sum_by_date duration rows ds Hnd Hin).
  clear Hnd Hin. generalize ds. clear ds.
  split; induction ds as [|d ds IH]; [reflexivity| |reflexivity|];
    rewrite fmap_cons; cbn [foldr fst snd]; rewrite IH; reflexivity.
Qed.

End SumFacts.

Section Totals.
Context `{Platform}.

(** X13: the rows [get_daily_data] returns add up: their earnings to the
    earnings of the sessions shown, and their durations to the minutes of
    these sessions; for the unfiltered view the earnings add up to the
    total [update_total] shows, whenever that total can be summed in 64
    bits. *)
Theorem daily_rows_add_up (db : store) (month_filter : string)
    (out : list (string * Z * Z)) :
  get_daily_data db month_filter = Ok out ->
  let shown :=
    if String.eqb month_filter all_months then db
    else month_rows month_filter db in
  foldr (fun r acc => r.2 + acc) 0 out = sum_of earned shown
  /\ foldr (fun r acc => r.1.2 + acc) 0 out = sum_of duration shown
  /\ (month_filter = all_months ->
      forall T, total_earned db = Ok T ->
        foldr (fun r acc => r.2 + acc) 0 out = T).
Proof.
  unfold get_daily_data. intros Hout.
  destruct (String.eqb_spec month_filter all_months) as [->|Hne].
  - apply group_by_date_ok in Hout as [-> _]. cbn zeta.
    destruct (SumFacts.daily_sums_add_up db) as [He Hd].
    split; [exact He|]. split; [exact Hd|]. intros _ T HT.
    apply StoreFacts.sql_sum_ok in HT as [_ ->].
    rewrite StoreFacts.sum_of_fmap. exact He.
  - destruct (PyStr.split "-" month_filter) as [|f1 [|f2 [|]]];
      try discriminate.
    apply group_by_date_ok in Hout as [-> _]. cbn zeta.
    destruct (SumFacts.daily_sums_add_up (in_month month_filter db))
      as [He Hd].
    split; [exact He|]. split; [exact Hd|]. congruence.
Qed.

End Totals.

(** ** The months on offer *)

Section Offered.
Context `{Platform}.

(** X14: whatever the store holds, [get_available_months] returns each
    month once, in descending order of the texts, and the months are
    those of the stored dates that [strptime] reads; rows whose date it
    does not read add nothing and raise nothing, and neither the order of
    the rows nor their number matters. *)
Theorem available_months_every_store (db other : store) :
  NoDup (get_available_months db)
  /\ StronglySorted (flip text_lt) (get_available_months db)
  /\ (forall t, t ∈ get_available_months db <->
        exists s dt, s ∈ db /\ strptime_Ymd (created_at s) = Some dt
                     /\ t = month_token (year dt) (month dt))
  /\ (Forall (fun s => strptime_Ymd (created_at s) = None) other ->
      get_available_months (db ++ other) = get_available_months db)
  /\ ((forall d, d ∈ created_at <$> db <-> d ∈ created_at <$> other) ->
      get_available_months db = get_available_months other).
Proof.
  destruct (get_available_months_spec db) as (Hsorted & Hnd & Hin).
  split; [exact Hnd|]. split; [exact Hsorted|]. split; [exact Hin|]. split.
  - intros Hbad. apply get_available_months_ext. intros t. split.
    + intros (s & dt & Hs & Hp & ->).
      apply elem_of_app in Hs as [Hs|Hs]; [eauto|].
      eapply Forall_forall in Hbad; [|exact Hs]. congruence.
    + intros (s & dt & Hs & Hp & ->). exists s, dt.
      split; [apply elem_of_app; auto|auto].
  - intros Hdates. apply get_available_months_ext. intros t.
    split; intros (s & dt & Hs & Hp & ->).
    + assert (Hd : created_at s ∈ created_at <$> other).
      { apply Hdates, list_elem_of_fmap. eauto. }
      apply list_elem_of_fmap in Hd as (s' & Heq & Hs').
      exists s', dt. rewrite <- Heq. auto.
    + assert (Hd : created_at s ∈ created_at <$> db).
      { apply Hdates, list_elem_of_fmap. eauto. }
      apply list_elem_of_fmap in Hd as (s' & Heq & Hs').
      exists s', dt. rewrite <- Heq. auto.
Qed.

Lemma daily_sums_nonempty (rows : list session) (s : session) :
  s ∈ rows -> daily_sums rows <> [].
Proof.
  intros Hs Hnil.
  assert (Hd : created_at s ∈ dates_of (daily_sums rows)).
  { rewrite dates_of_daily_sums.
    apply Text.order_dates_elem, elem_of_remove_dups, list_elem_of_fmap.
    eauto. }
  rewrite Hnil in Hd. inversion Hd.
Qed.

Lemma daily_sums_row (rows : list session) :
  daily_sums rows <> [] -> exists s, s ∈ rows.
Proof.
  destruct rows as [|s rows]; [intros Hne; now destruct Hne|].
  intros _. exists s. left.
Qed.

Lemma recorded_since_recorded (y : Z) (db : store) :
  recorded_since y db -> recorded db.
Proof.
  intros Hrec. eapply Forall_impl; [exact Hrec|].
  intros s (dt & Hv & _ & Hd). eauto.
Qed.

(** X15: when both libraries read ISO dates and every row carries one of
    the year 1000 or later, the months on offer are the month filters
    that have something to show: each month of the list is of the form
    YYYY-MM and has a session dated in it, and [get_daily_data] returns rows for it
    when the sessions of each of its days can be summed in 64 bits, and
    raises [OperationalError] when they cannot; a filter other than the
    unfiltered label for which [get_daily_data] returns a row is in the
    list; and the list has the most recent month first. *)
Theorem offered_months_have_rows (db : store) :
  strftime_reads_iso -> strptime_reads_iso -> recorded_since 1000 db ->
  (forall t, t ∈ get_available_months db ->
     is_month_token t = true
     /\ (exists s, s ∈ db /\ in_month_of t (created_at s))
     /\ (days_fit (in_month_of t) db ->
         exists out, get_daily_data db t = Ok out /\ out <> [])
     /\ (~ days_fit (in_month_of t) db ->
         get_daily_data db t = Raise OperationalError))
  /\ (forall t out, t <> all_months ->
        get_daily_data db t = Ok out -> out <> [] ->
        t ∈ get_available_months db)
  /\ recent_first (get_available_months db).
Proof.
  intros Hftime Hptime Hrec.
  destruct (get_available_months_spec db) as (_ & _ & Hin).
  assert (Hrow : forall s, s ∈ db ->
            exists dt, valid_date dt = true
                       /\ strptime_Ymd (created_at s) = Some dt
                       /\ sqlite_strftime_Ym (created_at s)
                          = Some (year_month dt)
                       /\ month_token (year dt) (month dt) = year_month dt).
  { intros s Hs. eapply Forall_forall in Hrec as (dt & Hv & Hy & Hd);
      [|exact Hs].
    exists dt. rewrite Hd. split; [exact Hv|].
    split; [now apply Hptime|]. split; [now apply Hftime|].
    apply Months.month_token_padded.
    apply Dates.valid_date_bounds in Hv. lia. }
  split; [|split].
  - intros t Ht. apply Hin in Ht as (s & dt & Hs & Hp & ->).
    destruct (Hrow s Hs) as (dt' & Hv & Hp' & Hf & Htok).
    assert (dt' = dt) by congruence. subst dt'. rewrite Htok.
    pose proof (Months.year_month_token dt Hv) as Hshape.
    split; [exact Hshape|].
    apply Token.split_token in Hshape as (Hne & y & m & Hsplit).
    assert (Hs' : s ∈ in_month (year_month dt) db).
    { unfold in_month. apply list_elem_of_filter. auto. }
    assert (Hdata : get_daily_data db (year_month dt)
                    = group_by_date (in_month (year_month dt) db)).
    { unfold get_daily_data. now rewrite Hne, Hsplit. }
    pose proof (days_fit_filter (in_month_of (year_month dt))
                  (fun s => sqlite_strftime_Ym (created_at s)
                            = Some (year_month dt))
                  db (in_month_keeps db (year_month dt) Hftime
                        (recorded_since_recorded _ _ Hrec))) as Hfits.
    fold (in_month (year_month dt) db) in Hfits.
    split.
    { exists s. split; [exact Hs|].
      eapply Forall_forall in Hrec as (dt' & Hv' & _ & Hd'); [|exact Hs].
      exists dt'. split; [exact Hv'|]. split; [exact Hd'|].
      rewrite Hd', (Hftime dt' Hv') in Hf. congruence. }
    rewrite Hdata. split.
    + intros Hfit. exists (daily_sums (in_month (year_month dt) db)).
      split; [apply group_by_date_fit, Hfits, Hfit|].
      now apply (daily_sums_nonempty _ s).
    + intros Hno. apply group_by_date_overflow.
      intros Hfit. apply Hno, Hfits, Hfit.
  - intros t out Hne Hout Hrows. apply Hin.
    unfold get_daily_data in Hout.
    apply String.eqb_neq in Hne. rewrite Hne in Hout.
    destruct (PyStr.split "-" t) as [|f1 [|f2 [|]]]; try discriminate.
    apply group_by_date_ok in Hout as [-> _].
    apply daily_sums_row in Hrows as (s & Hs).
    apply list_elem_of_filter in Hs as [Hf Hs].
    destruct (Hrow s Hs) as (dt & Hv & Hp & Hf' & Htok).
    exists s, dt. split; [exact Hs|]. split; [exact Hp|]. congruence.
  - apply get_available_months_from_1000. intros s dt Hs Hp.
    eapply Forall_forall in Hrec as (dt' & Hv & Hy & Hd); [|exact Hs].
    rewrite Hd, (Hptime dt' Hv) in Hp. injection Hp as <-. auto.
Qed.

End Offered.

(** ** Switching to a tab *)

Module TokenFacts.

Lemma digit_char_not_dash (k : Z) :
  0 <= k <= 9 -> Ascii.eqb (digit_char k) "-" = false.
Proof. intros Hk. now apply Token.digit_not_dash, Months.is_digit_char. Qed.

(** The token of a calendar date holds one dash. *)
Lemma month_token_fields (dt : date) :
  valid_date dt = true ->
  exists a b, PyStr.split "-" (month_token (year dt) (month dt)) = [a; b].
Proof.
  intros Hv. apply Dates.valid_date_bounds in Hv as (Hy & Hm & _).
  unfold month_token. rewrite Decimals.zfill2_digits by lia.
  assert (Hcases : year dt < 10 \/ 10 <= year dt < 100
                   \/ 100 <= year dt < 1000 \/ 1000 <= year dt) by lia.
  destruct Hcases as [Hc|[Hc|[Hc|Hc]]];
    [rewrite Decimals.str1 by lia|rewrite Decimals.str2 by lia
    |rewrite Decimals.str3 by lia|rewrite Decimals.str4 by lia];
    unfold digits4, digits2, PyStr.split; cbv [String.append];
    cbn [PyStr.split_go];
    rewrite !digit_char_not_dash by (Z.to_euclidean_division_equations; lia);
    change (Ascii.eqb "-" "-") with true; cbn iota; eauto.
Qed.

End TokenFacts.

Section Tabs.
Context `{Platform}.

(** Every value of the month combobox is a filter [get_daily_data]
    takes: the query runs. *)
Lemma offered_filter_accepted (db : store) (t : string) :
  strptime_returns_dates ->
  t ∈ all_months :: get_available_months db ->
  get_daily_data db t
  = group_by_date (if String.eqb t all_months then db else in_month t db).
Proof.
  intros Hdates Ht. unfold get_daily_data.
  destruct (String.eqb_spec t all_months) as [|Hne]; [reflexivity|].
  apply elem_of_cons in Ht as [|Ht]; [congruence|].
  apply get_available_months_spec in Ht as (s & dt & _ & Hp & ->).
  destruct (TokenFacts.month_token_fields dt (Hdates _ _ Hp))
    as (a & b & ->).
  reflexivity.
Qed.

(** X16: switching to the daily tab sets the month variable to a value
    of the combobox, keeping it when it is one already, and then draws
    the view of the sessions that value selects.  Whatever text the
    variable held, no [ValueError] leaves the handler: when the sessions
    of each day shown can be summed in 64 bits the view is drawn, the
    label of an empty view when there is no session to show and else the
    chart of the daily aggregate of these sessions, and when they cannot,
    [OperationalError] leaves the handler. *)
Theorem daily_tab_shows (db : store) (daily_month_var hourly_month_var : string) :
  strptime_returns_dates ->
  let out := on_tab_changed "日別グラフ" db daily_month_var hourly_month_var in
  let values := all_months :: get_available_months db in
  let shown :=
    if String.eqb out.1.1 all_months then db else month_rows out.1.1 db in
  out.1.1 ∈ values
  /\ (daily_month_var <> "" -> daily_month_var ∈ values ->
      out.1.1 = daily_month_var)
  /\ (daily_month_var ∉ values -> out.1.1 = all_months)
  /\ out.1.2 = hourly_month_var
  /\ (days_fit (fun _ => True) shown ->
      exists v, out.2 = Ok (DailyTab v)
        /\ match v with
           | NoDailyData => shown = []
           | DailyChart dates earnings durations title =>
               shown <> []
               /\ exists rows,
                    aggregates (fun _ => True) shown rows
                    /\ dates = dates_of rows
                    /\ earnings = (fun r => r.2) <$> rows
                    /\ durations = (fun r => r.1.2) <$> rows
           end)
  /\ (~ days_fit (fun _ => True) shown -> out.2 = Raise OperationalError).
Proof.
  intros Hdates out values shown. subst out shown.
  unfold on_tab_changed. rewrite String.eqb_refl. cbn [fst snd].
  unfold update_month_filter_daily. cbn [fst snd]. fold values.
  set (var := if String.eqb daily_month_var ""
                 || negb (bool_decide (daily_month_var ∈ values))
              then all_months else daily_month_var).
  change (month_rows var db) with (in_month var db).
  set (shown := if String.eqb var all_months then db else in_month var db).
  assert (Hvar : var ∈ values).
  { subst var. destruct (String.eqb_spec daily_month_var "") as [|Hne];
      cbn [orb]; [left|].
    destruct (bool_decide (daily_month_var ∈ values)) eqn:Hin; cbn [negb];
      [|left].
    now apply bool_decide_eq_true in Hin. }
  pose proof (offered_filter_accepted db var Hdates Hvar) as Hrows.
  fold shown in Hrows.
  split; [exact Hvar|]. split; [|split; [|split; [reflexivity|split]]].
  - intros Hne Hin. subst var.
    apply String.eqb_neq in Hne. rewrite Hne.
    now rewrite bool_decide_eq_true_2.
  - intros Hnot. subst var. rewrite (bool_decide_eq_false_2 _ Hnot).
    now rewrite orb_true_r.
  - intros Hfit. unfold plot_daily.
    rewrite Hrows, (group_by_date_fit shown Hfit). cbn [mbind result_bind].
    pose proof (daily_sums_all shown) as Hagg.
    destruct (daily_sums shown) as [|r rows] eqn:Hsums.
    + eexists. split; [reflexivity|]. cbn beta iota.
      destruct shown as [|s rest] eqn:Hshown; [reflexivity|].
      exfalso. apply (daily_sums_nonempty (s :: rest) s); [left|exact Hsums].
    + cbn [mbind result_bind]. eexists. split; [reflexivity|]. cbn beta iota.
      split; [|exists (r :: rows); auto].
      intros Hnil. rewrite Hnil in Hsums. discriminate.
  - intros Hno. unfold plot_daily.
    rewrite Hrows, (group_by_date_overflow shown Hno). reflexivity.
Qed.

End Tabs.

(** ** The formatters on floats, and the table of hourly rates *)

Module RateFacts.
Import FloatFacts RoundFacts.

Lemma RN_not_nan (s : bool) (a b k : Z) : RN s a b k <> S754_nan.
Proof.
  unfold RN. destruct (a =? 0); [discriminate|].
  destruct (round_pos a b k) as [[|p|p] e]; try discriminate.
  destruct (e <=? emax - prec); discriminate.
Qed.

Lemma RN_finite_float (s : bool) (a b k : Z) :
  is_infinite (RN s a b k) = false -> finite_float (RN s a b k) = true.
Proof.
  pose proof (RN_not_nan s a b k).
  destruct (RN s a b k); try reflexivity; [discriminate|congruence].
Qed.

(** The rate of a day of 64-bit sums is the int 0 or a finite double. *)
Lemma hourly_rate_finite (d : string) (minutes money : Z) :
  int64 minutes -> int64 money ->
  exists h, hourly_rate (d, minutes, money) = Ok h
            /\ finite_num h = true
            /\ (minutes <= 0 -> h = Int 0).
Proof.
  intros Hm Hmoney. unfold hourly_rate.
  destruct (Z.ltb_spec 0 minutes) as [Hpos|Hneg];
    [|exists (Int 0); repeat split].
  destruct (minutes_div_60_normal minutes Hpos Hm)
    as (mh & eh & -> & Hlh & Heh).
  cbn [mbind result_bind truediv to_float].
  destruct (Z.eq_dec money 0) as [->|Hne].
  - change (float_of_int 0) with (Ok (S754_zero false)).
    cbn [mbind result_bind float_truediv xorb].
    eexists. split; [reflexivity|]. split; [reflexivity|lia].
  - destruct (float_of_int_normal money Hmoney Hne)
      as (mm & em & -> & Hlm & Hem).
    cbn [mbind result_bind float_truediv].
    eexists. split; [reflexivity|]. split; [|lia].
    cbn [finite_num]. apply RN_finite_float, RN_scaled_finite.
    rewrite Hlm, Hlh. lia.
Qed.

Lemma float_of_literal (n : Z) (f : spec_float) :
  float_of_int n = Ok f -> is_zero f = false ->
  forall x, finite_float x = true ->
    exists q, truediv (Float x) (Int n) = Ok q.
Proof.
  intros Hf Hz x Hx. cbn [truediv to_float mbind result_bind].
  rewrite Hf. cbn [mbind result_bind].
  apply float_truediv_nonzero. exact Hz.
Qed.

Lemma to_int_finite (f : spec_float) :
  finite_float f = true -> exists n, to_int (Float f) = Ok n.
Proof. destruct f; try discriminate; cbn [to_int]; eauto. Qed.

(** On a finite float, as on a 64-bit integer, the three formatters
    return a text. *)
Lemma format_hourly_float (f : spec_float) :
  finite_float f = true -> exists t, format_hourly (Float f) = Ok t.
Proof.
  intros Hf. unfold format_hourly.
  destruct (ge (Float f) 1000000).
  - destruct (float_of_literal 1000000 _ eq_refl eq_refl f Hf) as (q & ->).
    cbn [mbind result_bind]. eauto.
  - destruct (ge (Float f) 1000).
    + destruct (float_of_literal 1000 _ eq_refl eq_refl f Hf) as (q & ->).
      cbn [mbind result_bind]. eauto.
    + destruct (to_int_finite f Hf) as (n & ->).
      cbn [mbind result_bind]. eauto.
Qed.

Lemma format_hourly_num (h : num) :
  finite_num h = true ->
  match h with Int n => int64 n | Float _ => True end ->
  exists t, format_hourly h = Ok t.
Proof.
  destruct h as [n|f]; intros Hfin Hn.
  - destruct (format_hourly_cases n) as (H1 & H2 & H3).
    pose proof threshold_large. unfold int64 in Hn.
    destruct (Z_lt_le_dec n 1000); [eauto|].
    destruct (Z_lt_le_dec n 1000000);
      [destruct H2 as (q & _ & ->); [lia|eauto]|].
    destruct H3 as (q & _ & ->); [lia|eauto].
  - now apply format_hourly_float.
Qed.


End RateFacts.

Section HourlyView.
Context `{Platform}.
Import RateFacts.

(** On rows of 64-bit sums the rates and the texts of the table are
    computed for every date. *)
Lemma hourly_table_total (rows : list (string * Z * Z)) :
  Forall (fun r => int64 r.1.2 /\ int64 r.2) rows ->
  exists rates table,
    hourly rows = Ok rates
    /\ hourly_table (dates_of rows) rates = Ok table
    /\ Forall (fun h => finite_num h = true) rates
    /\ length rates = length rows
    /\ table.*1 = dates_of rows.
Proof.
  induction 1 as [|[[d minutes] money] rows [Hm Hmoney] Hrows IH].
  - exists [], []. repeat split. constructor.
  - destruct IH as (rates & table & Hrates & Htable & Hfin & Hlen & Hdates).
    cbn [fst snd] in Hm, Hmoney.
    destruct (hourly_rate_finite d minutes money Hm Hmoney)
      as (h & Hh & Hhfin & Hzero).
    assert (Hint : match h with Int n => int64 n | Float _ => True end).
    { destruct h as [n|f]; [|exact I].
      unfold hourly_rate in Hh. destruct (0 <? minutes).
      - destruct (truediv (Int minutes) (Int 60)); [|discriminate].
        cbn [mbind result_bind] in Hh.
        destruct (truediv (Int money) (Float _)); discriminate.
      - injection Hh as <-. unfold int64. lia. }
    destruct (format_hourly_num h Hhfin Hint) as (t & Ht).
    exists (h :: rates), ((d, t) :: table).
    cbn [hourly]. rewrite Hh, Hrates. cbn [mbind result_bind].
    unfold dates_of in *. rewrite fmap_cons. cbn [hourly_table fst].
    rewrite Ht, Htable. cbn [mbind result_bind].
    repeat split; [constructor; assumption|simpl; lia|].
    rewrite fmap_cons, Hdates. reflexivity.
Qed.

(** X17: switching to the hourly tab sets the month variable to a value
    of the combobox and draws the view; when the query of the view
    returns its rows, which it does unless a sum leaves 64 bits, no
    exception leaves the handler: every day has its rate, a finite
    number, and its text in the table. *)
Theorem hourly_tab_shows (db : store) (daily_month_var hourly_month_var : string)
    (rows : list (string * Z * Z)) :
  let out := on_tab_changed "平均時給" db daily_month_var hourly_month_var in
  let values := all_months :: get_available_months db in
  get_hourly_data db out.1.2 = Ok rows ->
  out.1.2 ∈ values
  /\ out.1.1 = daily_month_var
  /\ Forall (fun r => int64 r.1.2 /\ int64 r.2) rows
  /\ exists v, out.2 = Ok (HourlyTab v)
     /\ match v with
        | NoHourlyData => rows = []
        | HourlyChart dates rates title table =>
            dates = dates_of rows
            /\ hourly rows = Ok rates
            /\ Forall (fun h => finite_num h = true) rates
            /\ length rates = length rows
            /\ table.*1 = dates
        end.
Proof.
  intros out values. subst out.
  unfold on_tab_changed. change ("平均時給" =? "日別グラフ")%string with false.
  rewrite String.eqb_refl. cbn [fst snd].
  unfold update_month_filter_hourly. cbn [fst snd]. fold values.
  set (var := if String.eqb hourly_month_var ""
                 || negb (bool_decide (hourly_month_var ∈ values))
              then all_months else hourly_month_var).
  intros Hrows.
  assert (Hint : Forall (fun r => int64 r.1.2 /\ int64 r.2) rows).
  { unfold get_hourly_data, group_by_date in Hrows.
    destruct (String.eqb var all_months);
      exact (StoreFacts.sum_rows_int64 _ _ _ Hrows). }
  assert (Hvar : var ∈ values).
  { subst var. destruct (String.eqb_spec hourly_month_var "") as [|Hne];
      cbn [orb]; [left|].
    destruct (bool_decide (hourly_month_var ∈ values)) eqn:Hin; cbn [negb];
      [|left].
    now apply bool_decide_eq_true in Hin. }
  split; [exact Hvar|]. split; [reflexivity|]. split; [exact Hint|].
  unfold plot_hourly. rewrite Hrows. cbn [mbind result_bind].
  destruct (hourly_table_total rows Hint)
    as (rates & table & Hrates & Htable & Hfin & Hlen & Hdates).
  destruct rows as [|r rows]; [eexists; split; reflexivity|].
  rewrite Hrates. cbn [mbind result_bind].
  unfold dates_of in Htable. rewrite Htable. cbn [mbind result_bind].
  eexists. split; [reflexivity|]. cbn beta iota. auto.
Qed.

End HourlyView.

(** ** The axis labels *)

Section AxisLabels.
Import RateFacts.


End AxisLabels.

(** ** The sign of the hourly rate *)

Module SignFacts.
Import FloatFacts RoundFacts RateFacts.

(** The quotient of two 53-bit mantissas, scaled within the normal
    range, does not round to zero. *)
Lemma round_pos_scaled_pos (a b k : Z) :
  Z.log2 a = 52 -> Z.log2 b = 52 -> emin + 52 <= k -> 0 < a -> 0 < b ->
  0 < (round_pos a b k).1.
Proof.
  intros Hla Hlb Hk Ha Hb.
  pose proof (log2_bounds a Ha) as Hba. pose proof (log2_bounds b Hb) as Hbb.
  rewrite Hla in Hba. rewrite Hlb in Hbb.
  change (2 ^ (52 + 1)) with (2 ^ 53) in *.
  pose proof (ulp_exponent_le_scaled a b k) as He.
  rewrite Hla, Hlb in He. unfold round_pos.
  set (e := ulp_exponent a b k) in *. clearbody e.
  assert (Hke : 52 <= k - e) by (unfold prec in He; lia).
  pose proof (scale2_spec a b (k - e) Hb) as Hs.
  destruct (scale2 a b (k - e)) as [n d].
  destruct Hs as [Hd [(_ & -> & ->)|(Hneg & _)]]; [|lia].
  assert (Hpow : 2 ^ 52 <= 2 ^ (k - e)) by (apply Z.pow_le_mono_r; lia).
  assert (Hn : b <= a * 2 ^ (k - e)).
  { change (2 ^ 52) with 4503599627370496 in *.
    change (2 ^ 53) with 9007199254740992 in *. nia. }
  pose proof (div_half_even_pos (a * 2 ^ (k - e)) b Hb Hn) as Hm.
  destruct (_ =? _); cbn [fst]; [|exact Hm].
  apply Z.pow_pos_nonneg; unfold prec; lia.
Qed.

End SignFacts.

Section RateSign.
Import FloatFacts RoundFacts RateFacts SignFacts.

(** X20: on a day of positive minutes, with 64-bit sums, the hourly rate
    is a finite float with the sign of the earnings: positive zero for no
    earnings, and otherwise a number that is not zero, negative exactly
    when the earnings are; and a negative rate, however large, is
    written by [format_hourly] as its integer part, with no suffix. *)
Theorem hourly_rate_sign (d : string) (minutes money : Z) :
  0 < minutes -> int64 minutes -> int64 money ->
  exists q,
    hourly_rate (d, minutes, money) = Ok (Float q)
    /\ (money = 0 -> q = S754_zero false)
    /\ (money <> 0 -> exists m e, q = S754_finite (money <? 0) m e)
    /\ (money < 0 ->
        exists n, to_int (Float q) = Ok n /\ n <= 0
                  /\ format_hourly (Float q) = Ok (PyStr.str n)).
Proof.
  intros Hpos Hm Hmoney. unfold hourly_rate.
  replace (0 <? minutes) with true by lia.
  destruct (minutes_div_60_normal minutes Hpos Hm)
    as (mh & eh & -> & Hlh & Heh).
  cbn [mbind result_bind truediv to_float].
  destruct (Z.eq_dec money 0) as [->|Hne].
  - change (float_of_int 0) with (Ok (S754_zero false)).
    cbn [mbind result_bind float_truediv xorb].
    eexists. split; [reflexivity|]. split; [reflexivity|]. split; lia.
  - destruct (float_of_int_normal money Hmoney Hne)
      as (mm & em & -> & Hlm & Hem).
    cbn [mbind result_bind float_truediv].
    rewrite xorb_false_r.
    set (q := RN (money <? 0) (Z.pos mm) (Z.pos mh) (em - eh)).
    assert (Hq : exists m e, q = S754_finite (money <? 0) m e).
    { assert (Hfin : is_infinite q = false)
        by (apply RN_scaled_finite; rewrite Hlm, Hlh; lia).
      pose proof (round_pos_scaled_pos (Z.pos mm) (Z.pos mh) (em - eh)
                    Hlm Hlh) as Hmant.
      subst q. unfold RN in *. cbn [Z.eqb] in *.
      destruct (round_pos (Z.pos mm) (Z.pos mh) (em - eh)) as [m e].
      cbn [fst] in Hmant.
      destruct m as [|p|p];
        try (exfalso; unfold emin, emax, prec in Hmant; lia).
      destruct (e <=? emax - prec); [eauto|discriminate]. }
    exists q. split; [reflexivity|]. split; [congruence|].
    split; [intros _; exact Hq|].
    intros Hneg. destruct Hq as (m & e & ->).
    replace (money <? 0) with true by lia.
    unfold format_hourly. cbn [ge float_ge_int to_int].
    assert (Hlow : forall n, 0 < n ->
              (if 0 <=? e then n <=? Z.neg m * 2 ^ e
               else n * 2 ^ (- e) <=? Z.neg m) = false).
    { intros n Hn. destruct (Z.leb_spec 0 e) as [He|He]; apply Z.leb_gt.
      - assert (0 < 2 ^ e) by (apply Z.pow_pos_nonneg; lia). nia.
      - assert (0 < 2 ^ (- e)) by (apply Z.pow_pos_nonneg; lia). nia. }
    rewrite !Hlow by lia. cbn [mbind result_bind].
    eexists. split; [reflexivity|]. split; [|reflexivity].
    destruct (Z.leb_spec 0 e) as [He|He].
    + assert (0 < 2 ^ e) by (apply Z.pow_pos_nonneg; lia). nia.
    + assert (0 < 2 ^ (- e)) by (apply Z.pow_pos_nonneg; lia).
      assert (0 <= Z.pos m / 2 ^ (- e)) by (apply Z.div_pos; lia). lia.
Qed.

Lemma hourly_rate_sign_witness :
  exists q,
    hourly_rate ("2024-05-02", 30, -5400) = Ok (Float q)
    /\ (-5400 = 0 -> q = S754_zero false)
    /\ (-5400 <> 0 -> exists m e, q = S754_finite (-5400 <? 0) m e)
    /\ (-5400 < 0 ->
        exists n, to_int (Float q) = Ok n /\ n <= 0
                  /\ format_hourly (Float q) = Ok (PyStr.str n)).
Proof.
  refine (hourly_rate_sign "2024-05-02" 30 (-5400) _ _ _);
    unfold int64; lia.
Defined.

End RateSign.

(** ** A recorded session in the views *)

Section Shown.
Context `{Platform}.

Lemma sum_of_app (f : session -> Z) (rows more : list session) :
  sum_of f (rows ++ more) = sum_of f rows + sum_of f more.
Proof.
  unfold sum_of. induction rows as [|s rows IH]; simpl; [reflexivity|].
  rewrite IH. lia.
Qed.

(** X19: a session that [add_session] recorded on a calendar date of
    the year 1000 or later shows at once: the month of the day is among
    the months on offer, and under that month whatever [get_daily_data]
    returns has the row of the day, whose sums are those of the earlier
    sessions of the day and the new one; and it returns rows whenever the
    sessions of each day of the month can be summed in 64 bits. *)
Theorem recorded_session_is_shown (SPOTS : PyDict.dict) (today : date)
    (db : store) (spot_name : string) (first last minutes : Z)
    (gained money : Z) :
  strftime_reads_iso -> strptime_reads_iso ->
  valid_date today = true -> 1000 <= year today -> recorded db ->
  let written := add_session SPOTS today db spot_name first last minutes in
  let day := isoformat today in
  written.1 = Ok (gained, money) ->
  year_month today ∈ get_available_months written.2
  /\ (forall out,
        get_daily_data written.2 (year_month today) = Ok out ->
        (day,
         sum_of duration (sessions_of day db) + minutes,
         sum_of earned (sessions_of day db) + money) ∈ out)
  /\ (days_fit (in_month_of (year_month today)) written.2 ->
      exists out, get_daily_data written.2 (year_month today) = Ok out).
Proof.
  intros Hftime Hptime Hv Hy Hrec written day Hok.
  set (row := Session (next_id db) spot_name first last minutes (last - first)
                ((last - first) * default 0 (PyDict.get SPOTS spot_name))
                day).
  assert (Hdb : written.2 = (db ++ [row])%list
                /\ money = (last - first)
                           * default 0 (PyDict.get SPOTS spot_name)).
  { destruct (StoreFacts.add_session_store SPOTS today db spot_name first
                last minutes) as [[Hraise _]|(Hout & Hrows & _)].
    - fold written in Hraise. congruence.
    - fold written in Hout, Hrows. split; [exact Hrows|]. congruence. }
  destruct Hdb as [Hdb Hmoney].
  assert (Hrow : row ∈ written.2).
  { rewrite Hdb. apply elem_of_app. right. left. }
  assert (Htok : month_token (year today) (month today) = year_month today).
  { apply (Months.month_token_padded today).
    apply Dates.valid_date_bounds in Hv. lia. }
  pose proof (Months.year_month_token today Hv) as Hshape.
  apply Token.split_token in Hshape as (Hne & y & m & Hsplit).
  assert (Hdata : get_daily_data written.2 (year_month today)
                  = group_by_date (in_month (year_month today) written.2)).
  { unfold get_daily_data. now rewrite Hne, Hsplit. }
  split; [|split].
  - apply get_available_months_spec. exists row, today.
    split; [exact Hrow|]. split; [apply Hptime, Hv|]. now rewrite Htok.
  - intros out Hout. rewrite Hdata in Hout.
    apply group_by_date_ok in Hout as [-> _].
    assert (Hon : on_date day (in_month (year_month today) written.2)
                  = (on_date day db ++ [row])%list).
    { unfold in_month. rewrite on_date_filter.
      - rewrite Hdb. unfold on_date. rewrite filter_app.
        f_equal. rewrite filter_cons.
        destruct (decide (created_at row = day)) as [_|Hn];
          [reflexivity|now destruct Hn].
      - intros s _ ->. apply Hftime, Hv. }
    unfold daily_sums. apply list_elem_of_fmap.
    exists day. change sessions_of with on_date. split.
    + rewrite Hon, !sum_of_app, Hmoney. cbn. do 2 f_equal; [f_equal|]; lia.
    + apply Text.order_dates_elem, elem_of_remove_dups, list_elem_of_fmap.
      exists row. split; [reflexivity|].
      apply list_elem_of_filter. split; [apply Hftime, Hv|exact Hrow].
  - intros Hfit. rewrite Hdata. eexists. apply group_by_date_fit.
    assert (Hrec' : recorded written.2).
    { subst written. now apply add_session_recorded. }
    apply (days_fit_filter (in_month_of (year_month today))
             (fun s => sqlite_strftime_Ym (created_at s)
                       = Some (year_month today))
             written.2
             (in_month_keeps written.2 (year_month today) Hftime Hrec')).
    exact Hfit.
Qed.

End Shown.

(** ** The reference instance reads and returns calendar dates *)

Module ReferenceDates.
Import Reference.

Lemma digit_not_space (c : ascii) :
  PyStr.is_digit c = true -> Ascii.eqb c " " = false.
Proof.
  destruct c as [[] [] [] [] [] [] [] []]; try discriminate; reflexivity.
Qed.

Lemma strptime_dates : strptime_returns_dates (H := platform).
Proof.
  intros s d. cbn [strptime_Ymd platform]. unfold strptime.
  destruct (PyStr.split "-" s) as [|ys [|ms [|ds [|]]]]; try discriminate.
  destruct (String.length ys =? 4)%nat; [|discriminate].
  destruct (number ys) as [y|]; [|discriminate].
  destruct (month_field ms) as [m|]; [|discriminate].
  destruct (day_field ds) as [a|]; [|discriminate].
  cbn [mbind option_bind].
  destruct (valid_date (Date y m a)) eqn:Hv; [|discriminate].
  intros Hd. injection Hd as <-. exact Hv.
Qed.

Lemma strptime_law : strptime_reads_iso (H := platform).
Proof.
  intros [y m d] Hv. pose proof Hv as Hb.
  apply Dates.valid_date_bounds in Hb. cbn [year month day] in Hb.
  pose proof (Dates.days_in_month_le_31 y m) as Hdays.
  cbn [strptime_Ymd platform]. unfold strptime, isoformat.
  cbn [year month day].
  rewrite Decimals.zfill4_digits, !Decimals.zfill2_digits by lia.
  assert (Hsplit : PyStr.split "-"
            (digits4 y +:+ "-" +:+ digits2 m +:+ "-" +:+ digits2 d)
            = [digits4 y; digits2 m; digits2 d]).
  { unfold digits4, digits2, PyStr.split. cbv [String.append].
    cbn [PyStr.split_go].
    rewrite !TokenFacts.digit_char_not_dash
      by (Z.to_euclidean_division_equations; lia).
    change (Ascii.eqb "-" "-") with true. cbn iota. reflexivity. }
  rewrite Hsplit.
  change (String.length (digits4 y) =? 4)%nat with true. cbn iota.
  rewrite ReferenceFacts.number_digits4 by lia. cbn [mbind option_bind].
  unfold month_field.
  change (String.length (digits2 m) <=? 2)%nat with true. cbn iota.
  rewrite ReferenceFacts.number_digits2 by lia.
  unfold between at 1. cbn [mbind option_bind].
  replace ((1 <=? m) && (m <=? 12)) with true by lia.
  cbn [mbind option_bind].
  unfold day_field, digits2 at 1.
  rewrite digit_not_space
    by (apply Months.is_digit_char; Z.to_euclidean_division_equations; lia).
  fold (digits2 d).
  change (String.length (digits2 d) <=? 2)%nat with true. cbn iota.
  rewrite ReferenceFacts.number_digits2 by lia.
  unfold between. cbn [mbind option_bind].
  replace ((1 <=? d) && (d <=? 31)) with true by lia.
  cbn [mbind option_bind]. rewrite Hv. reflexivity.
Qed.

End ReferenceDates.

(** [add_session] writes the date of the day. *)
Lemma add_session_recorded_since (y : Z) SPOTS today db spot_name first last
    minutes :
  valid_date today = true -> y <= year today -> recorded_since y db ->
  recorded_since y (add_session SPOTS today db spot_name first last minutes).2.
Proof.
  intros Hv Hy Hrec.
  destruct (StoreFacts.add_session_store SPOTS today db spot_name first
              last minutes) as [[_ ->]|(_ & -> & _)]; [exact Hrec|].
  apply Forall_app. split; [exact Hrec|].
  constructor; [|constructor]. exists today. cbn [created_at]. auto.
Qed.

(** ** The properties at work *)

Section Witnesses.
Import Reference.

(** No selection: the update is refused. *)
Lemma update_spot_validates_witness :
  exists message,
    App.update_spot None "Hystria" "1500" (App.init (Some Sample.spots) [])
    = (App.init (Some Sample.spots) [], [App.ShowError message]).
Proof.
  refine (update_spot_validates None "Hystria" "1500"
           (App.init (Some Sample.spots) []) _).
  left. reflexivity.
Defined.

(** Sherekhan, the first spot of two, becomes Hystria at 1500. *)
Lemma update_spot_renames_witness :
  let out := App.update_spot (Some 0%nat) " Hystria " "1500"
               (App.init (Some Sample.spots) []) in
  out.2 = []
  /\ PyDict.keys (App.SPOTS out.1)
     = (filter (fun k => k <> "Sherekhan") (PyDict.keys Sample.spots)
          ++ ["Hystria"])%list
  /\ PyDict.get (App.SPOTS out.1) "Hystria" = Some 1500
  /\ ("Hystria" <> "Sherekhan" -> PyDict.get (App.SPOTS out.1) "Sherekhan" = None)
  /\ (forall k, k <> "Sherekhan" -> k <> "Hystria" ->
        PyDict.get (App.SPOTS out.1) k = PyDict.get Sample.spots k)
  /\ App.spot_file out.1 = Some (App.SPOTS out.1).
Proof.
  refine (update_spot_renames 0 " Hystria " "1500"
           (App.init (Some Sample.spots) []) "Sherekhan" 1500 _ _ _ _ _).
  - decided.
  - reflexivity.
  - reflexivity.
  - discriminate.
  - right. decided.
Defined.

Lemma add_spot_appends_witness :
  let out := App.add_spot "Hystria " "1500"
               (App.init (Some Sample.spots) []) in
  PyDict.keys (App.SPOTS out.1) = (PyDict.keys Sample.spots ++ ["Hystria"])%list
  /\ (forall k, k <> "Hystria" ->
        PyDict.get (App.SPOTS out.1) k = PyDict.get Sample.spots k).
Proof.
  refine (add_spot_appends "Hystria " "1500"
           (App.init (Some Sample.spots) []) 1500 _ _ _).
  - reflexivity.
  - discriminate.
  - decided.
Defined.

Lemma select_then_update_witness :
  let st := App.init (Some Sample.spots) [] in
  let filled := on_spot_select (Some 0%nat) "" "" st in
  let out := App.update_spot (Some 0%nat) filled.1.1 filled.1.2 st in
  filled = (("Sherekhan", PyStr.str 1200), [])
  /\ out.2 = []
  /\ (forall k, PyDict.get (App.SPOTS out.1) k = PyDict.get (App.SPOTS st) k)
  /\ PyDict.keys (App.SPOTS out.1)
     = (filter (fun k => k <> "Sherekhan") (PyDict.keys (App.SPOTS st))
          ++ ["Sherekhan"])%list.
Proof.
  refine (select_then_update 0 (App.init (Some Sample.spots) [])
           "Sherekhan" 1200 "" "" _ _ _ _ _ _).
  - decided.
  - reflexivity.
  - reflexivity.
  - discriminate.
  - reflexivity.
  - reflexivity.
Defined.

(** A session with a pause in it. *)
Lemma timer_keeps_one_callback_witness :
  let acts := [PressStart "100"; Fire 0%nat; PressPause; Fire 1%nat;
               PressResume; Fire 2%nat;
               PressEnd "150" "Sherekhan" Sample.may_1] in
  one_callback (foldl act (App.init (Some Sample.spots) []) acts)
  /\ (length (App.pending (foldl act (App.init (Some Sample.spots) []) acts))
      <= 1)%nat.
Proof.
  refine (timer_keeps_one_callback _ (App.init (Some Sample.spots) []) _ _);
    reflexivity.
Defined.

Lemma start_timer_counts_witness :
  let started := (App.start_timer "100" (App.init (Some Sample.spots) [])).1 in
  let later := Nat.iter 4 period started in
  App.minutes started = 1
  /\ App.minutes later = Z.of_nat 4 + 1
  /\ App.trash_start later = Some 100
  /\ App.running later = true
  /\ one_callback later.
Proof.
  refine (start_timer_counts "100" 100 (App.init (Some Sample.spots) []) 4 _ _ _);
    reflexivity.
Defined.

Lemma start_timer_while_running_witness :
  let running := (App.start_timer "100" (App.init None [])).1 in
  let started := (App.start_timer "100" running).1 in
  let later := Nat.iter 3 period started in
  App.minutes started = 1
  /\ App.minutes later = 2 * Z.of_nat 3 + 1
  /\ length (App.pending later) = 2%nat.
Proof.
  refine (start_timer_while_running "100" 100
           (App.start_timer "100" (App.init None [])).1 3 _ _ _ _).
  - exists 0%nat. split; reflexivity.
  - repeat constructor.
  - reflexivity.
  - reflexivity.
Defined.

(** Sherekhan at 1200, started at 100, five minutes counted, ended at
    150: 50 gained, 60000 earned. *)
Lemma end_session_records_witness :
  let st := Nat.iter 4 period
              (App.start_timer "100" (App.init (Some Sample.spots) [])).1 in
  let out := App.end_session "150" "Sherekhan" Sample.may_1 st in
  let fit := int64 100 /\ int64 150 /\ int64 5 /\ int64 50 /\ int64 60000 in
  App.running out.1 = false
  /\ App.minutes out.1 = 5
  /\ App.trash_start out.1 = Some 100
  /\ App.SPOTS out.1 = Sample.spots
  /\ (fit ->
      (exists row,
         App.db out.1 = [row]
         /\ spot row = "Sherekhan"
         /\ trash_start row = 100 /\ trash_end row = 150
         /\ duration row = 5
         /\ trash_gained row = 50
         /\ earned row = 60000
         /\ created_at row = "2024-05-01")
      /\ (forall T, total_earned [] = Ok T ->
            (int64 (T + 60000) ->
               total_earned (App.db out.1) = Ok (T + 60000)
               /\ exists message, out.2 = [App.ShowInfo message])
            /\ (~ int64 (T + 60000) ->
                total_earned (App.db out.1) = Raise OperationalError
                /\ exists message,
                     out.2 = [App.ShowInfo message;
                              App.Uncaught OperationalError])))
  /\ (~ fit -> App.db out.1 = [] /\ out.2 = [App.Uncaught OverflowError]).
Proof.
  refine (end_session_records "150" "Sherekhan" Sample.may_1
            (Nat.iter 4 period
               (App.start_timer "100" (App.init (Some Sample.spots) [])).1)
            100 150 _ _);
    reflexivity.
Defined.

Lemma end_session_rejects_witness :
  exists ev,
    App.end_session "150" "Sherekhan" Sample.may_1 (App.init None [])
    = (App.pause_timer (App.init None []), [ev])
    /\ (int_of_str "150" = None -> exists message, ev = App.ShowError message)
    /\ (int_of_str "150" <> None -> ev = App.Uncaught AttributeError)
    /\ App.db (App.pause_timer (App.init None [])) = []
    /\ App.running (App.pause_timer (App.init None [])) = false.
Proof.
  refine (end_session_rejects "150" "Sherekhan" Sample.may_1
           (App.init None []) _).
  right. reflexivity.
Defined.

Lemma daily_rows_add_up_witness :
  let out := [("2024-05-01", 35, 54600); ("2024-05-17", 12, 8400)] in
  foldr (fun r acc => r.2 + acc) 0 out
  = sum_of earned (month_rows "2024-05" Sample.db)
  /\ foldr (fun r acc => r.1.2 + acc) 0 out
     = sum_of duration (month_rows "2024-05" Sample.db)
  /\ ("2024-05" = all_months ->
      forall T, total_earned Sample.db = Ok T ->
        foldr (fun r acc => r.2 + acc) 0 out = T).
Proof.
  refine (daily_rows_add_up Sample.db "2024-05" _ _). vm_compute. reflexivity.
Defined.

Lemma sample_recorded_since : recorded_since 1000 Sample.db.
Proof.
  unfold Sample.db.
  repeat (apply add_session_recorded_since; [reflexivity|cbn; lia|]).
  constructor.
Qed.

Lemma offered_months_have_rows_witness :
  (forall t, t ∈ get_available_months Sample.db ->
     is_month_token t = true
     /\ (exists s, s ∈ Sample.db /\ in_month_of t (created_at s))
     /\ (days_fit (in_month_of t) Sample.db ->
         exists out, get_daily_data Sample.db t = Ok out /\ out <> [])
     /\ (~ days_fit (in_month_of t) Sample.db ->
         get_daily_data Sample.db t = Raise OperationalError))
  /\ (forall t out, t <> all_months ->
        get_daily_data Sample.db t = Ok out -> out <> [] ->
        t ∈ get_available_months Sample.db)
  /\ recent_first (get_available_months Sample.db).
Proof.
  refine (offered_months_have_rows Sample.db _ _ _).
  - exact ReferenceFacts.strftime_law.
  - exact ReferenceDates.strptime_law.
  - exact sample_recorded_since.
Defined.

Lemma daily_tab_shows_witness :
  let out := on_tab_changed "日別グラフ" Sample.db "2024" "全体" in
  let values := all_months :: get_available_months Sample.db in
  let shown :=
    if String.eqb out.1.1 all_months then Sample.db
    else month_rows out.1.1 Sample.db in
  out.1.1 ∈ values
  /\ ("2024" <> "" -> "2024" ∈ values -> out.1.1 = "2024")
  /\ ("2024" ∉ values -> out.1.1 = all_months)
  /\ out.1.2 = "全体"
  /\ (days_fit (fun _ => True) shown ->
      exists v, out.2 = Ok (DailyTab v)
        /\ match v with
           | NoDailyData => shown = []
           | DailyChart dates earnings durations title =>
               shown <> []
               /\ exists rows,
                    aggregates (fun _ => True) shown rows
                    /\ dates = dates_of rows
                    /\ earnings = (fun r => r.2) <$> rows
                    /\ durations = (fun r => r.1.2) <$> rows
           end)
  /\ (~ days_fit (fun _ => True) shown -> out.2 = Raise OperationalError).
Proof.
  refine (daily_tab_shows Sample.db "2024" "全体" _).
  exact ReferenceDates.strptime_dates.
Defined.

Lemma hourly_tab_shows_witness :
  let out := on_tab_changed "平均時給" Sample.db "全体" "2024-05" in
  let rows := [("2024-05-01", 35, 54600); ("2024-05-17", 12, 8400)] in
  out.1.2 ∈ all_months :: get_available_months Sample.db
  /\ out.1.1 = "全体"
  /\ Forall (fun r => int64 r.1.2 /\ int64 r.2) rows
  /\ exists v, out.2 = Ok (HourlyTab v)
     /\ match v with
        | NoHourlyData => rows = []
        | HourlyChart dates rates title table =>
            dates = dates_of rows
            /\ hourly rows = Ok rates
            /\ Forall (fun h => finite_num h = true) rates
            /\ length rates = length rows
            /\ table.*1 = dates
        end.
Proof.
  refine (hourly_tab_shows Sample.db "全体" "2024-05"
            [("2024-05-01", 35, 54600); ("2024-05-17", 12, 8400)] _).
  vm_compute. reflexivity.
Defined.

Lemma recorded_session_is_shown_witness :
  let written := add_session Sample.spots Sample.may_17 Sample.db
                    "Sherekhan" 100 150 5 in
  let day := isoformat Sample.may_17 in
  year_month Sample.may_17 ∈ get_available_months written.2
  /\ (forall out,
        get_daily_data written.2 (year_month Sample.may_17) = Ok out ->
        (day,
         sum_of duration (sessions_of day Sample.db) + 5,
         sum_of earned (sessions_of day Sample.db) + 60000) ∈ out)
  /\ (days_fit (in_month_of (year_month Sample.may_17)) written.2 ->
      exists out,
        get_daily_data written.2 (year_month Sample.may_17) = Ok out).
Proof.
  refine (recorded_session_is_shown Sample.spots Sample.may_17 Sample.db
            "Sherekhan" 100 150 5 50 60000 _ _ _ _ _ _).
  - exact ReferenceFacts.strftime_law.
  - exact ReferenceDates.strptime_law.
  - reflexivity.
  - cbn. lia.
  - exact sample_recorded.
  - vm_compute. reflexivity.
Defined.

End Witnesses.
